(** * WebLead: the User/Business linkage model of the backend

    A shallow embedding of the Express handlers of [backend/index.js]
    (register, lead submission, product create and update) and of the two
    one-off scripts (the migration runner and the cleanup runner), over an
    explicit model of the document store; then of the other routes of the
    server (login, profile, seeding, the reads and the admin's edits) and
    of the script that seeds an admin.

    - JavaScript values are the inductive [value]; a JS object used as a
      record (request body, token payload, stored document) is a
      [gmap string value].
    - A collection is a [gmap oid doc], keyed by the document's [_id].
    - Handlers run in the monad [M]: state passing over [world] with thrown
      errors; every store round trip may throw (field [faults]).
    - What the JavaScript runtime and the libraries compute and the source
      does not (number/string conversion, password hashing, token
      verification, operator queries) is the interface [JsRuntime]; the
      other routes add [AuthRuntime] (password comparison, token signing)
      and [StoreRuntime] (the order of a sorted query, what an update does
      with [undefined]).
    - Mongoose is a dependency and not part of the repository: schema
      casting, strict mode, [__v], timestamps and the query operators the
      source uses are modelled after its documented behaviour, on the
      paths the handlers exercise. *)

From Stdlib Require Import ZArith NArith String Ascii List Bool Lia.
From stdpp Require Import base option list strings pretty gmap fin_maps
  sorting.

Set Warnings "-register-all".
Open Scope string_scope.

(** ** JavaScript values *)

(** A double: not-a-number, an infinity, or the fraction [num/den]. *)
Inductive jsnum :=
  | NaN
  | Infty (negative : bool)
  | Fin (num : Z) (den : positive).

(** A 12-byte ObjectId, as the number its 24 hex digits spell. *)
Abbreviation oid := N.

Inductive value :=
  | VUndef
  | VNull
  | VBool (b : bool)
  | VNum (n : jsnum)
  | VStr (s : string)
  | VOid (o : oid)
  | VDate (t : Z)
  | VArr (l : list value)
  | VObj (fields : gmap string value).

(** A JS object used as a record. *)
Abbreviation doc := (gmap string value).

(** [o.k]: the property, or [undefined]. *)
Definition get (o : doc) (k : string) : value := default VUndef (o !! k).

Definition num_of_Z (z : Z) : jsnum := Fin z 1.
Definition num_of_nat (n : nat) : jsnum := Fin (Z.of_nat n) 1.

Definition isNaN (n : jsnum) : bool :=
  match n with NaN => true | _ => false end.

(** [n < 0] *)
Definition num_lt0 (n : jsnum) : bool :=
  match n with
  | NaN => false
  | Infty neg => neg
  | Fin z _ => (z <? 0)%Z
  end.

(** [Number.isInteger(n)] *)
Definition isInteger (n : jsnum) : bool :=
  match n with
  | Fin z d => (Z.rem z (Z.pos d) =? 0)%Z
  | _ => false
  end.

Definition num_truthy (n : jsnum) : bool :=
  match n with
  | NaN => false
  | Infty _ => true
  | Fin z _ => negb (z =? 0)%Z
  end.

(** ToBoolean *)
Definition truthy (v : value) : bool :=
  match v with
  | VUndef | VNull => false
  | VBool b => b
  | VNum n => num_truthy n
  | VStr s => negb (String.eqb s "")
  | VOid _ | VDate _ | VArr _ | VObj _ => true
  end.

(** [a || b] *)
Definition js_or (a b : value) : value := if truthy a then a else b.

(** [a && b] *)
Definition js_and (a b : value) : value := if truthy a then b else a.

Infix "|||" := js_or (at level 50, left associativity).

Definition is_undef (v : value) : bool :=
  match v with VUndef => true | _ => false end.

(** [v === 's'] for a string literal. *)
Definition is_str (v : value) (s : string) : bool :=
  match v with VStr s' => String.eqb s' s | _ => false end.

(** ** ObjectId and its hex form *)

Definition hex_digit (n : N) : ascii :=
  match n with
  | 0 => "0" | 1 => "1" | 2 => "2" | 3 => "3" | 4 => "4" | 5 => "5"
  | 6 => "6" | 7 => "7" | 8 => "8" | 9 => "9" | 10 => "a" | 11 => "b"
  | 12 => "c" | 13 => "d" | 14 => "e" | _ => "f"
  end%N%char.

Fixpoint hex_fixed (digits : nat) (n : N) (acc : string) : string :=
  match digits with
  | O => acc
  | S k => hex_fixed k (n / 16)%N (String (hex_digit (n mod 16)%N) acc)
  end.

(** [o.toString()]: 24 lowercase hex digits. *)
Definition oid_hex (o : oid) : string := hex_fixed 24 o "".

Definition hex_value (c : ascii) : option N :=
  let n := N_of_ascii c in
  if ((48 <=? n) && (n <=? 57))%N then Some (n - 48)%N
  else if ((97 <=? n) && (n <=? 102))%N then Some (n - 87)%N
  else if ((65 <=? n) && (n <=? 70))%N then Some (n - 55)%N
  else None.

Fixpoint hex_parse (s : string) (acc : N) : option N :=
  match s with
  | EmptyString => Some acc
  | String c r =>
      match hex_value c with
      | Some d => hex_parse r (acc * 16 + d)%N
      | None => None
      end
  end.

(** [new ObjectId(s)] for a string: 24 hex digits, either case. *)
Definition parse_oid (s : string) : option oid :=
  if Nat.eqb (String.length s) 24 then hex_parse s 0%N else None.

(** ** What the runtime and the libraries compute *)

Class JsRuntime := {
  (** [String(n)] on a number *)
  NumberToString : jsnum -> string;
  (** [Number(s)] on a string *)
  StringToNumber : string -> jsnum;
  (** [String(d)] on a Date *)
  DateToString : Z -> string;
  (** [bcrypt.hash(s, 10)] *)
  bcrypt_hash : string -> string;
  (** [jwt.verify(token, secret)]: the payload, or [None] on an error *)
  jwt_verify : string -> option doc;
  (** [new Date(s)] on a string; [None] is an invalid date *)
  StringToDate : string -> option Z;
  (** how the store matches a filter value that is [undefined], an array
      or an operator object against a stored field; [None] when the filter
      is refused *)
  match_special : value -> option (option value -> bool);
  (** the write result names its counts [n]/[nModified] (Mongoose 5)
      instead of [matchedCount]/[modifiedCount] *)
  legacy_write_result : bool
}.

(** ** The store and the world a handler runs in *)

Inductive coll := Users | Businesses | Leads | Products.

Record store := mkStore {
  users : gmap oid doc;
  businesses : gmap oid doc;
  leads : gmap oid doc;
  products : gmap oid doc
}.

Definition coll_get (c : coll) (s : store) : gmap oid doc :=
  match c with
  | Users => users s
  | Businesses => businesses s
  | Leads => leads s
  | Products => products s
  end.

Definition coll_set (c : coll) (m : gmap oid doc) (s : store) : store :=
  match c with
  | Users => mkStore m (businesses s) (leads s) (products s)
  | Businesses => mkStore (users s) m (leads s) (products s)
  | Leads => mkStore (users s) (businesses s) m (products s)
  | Products => mkStore (users s) (businesses s) (leads s) m
  end.

(** [faults]: whether each coming round trip to the store throws (none
    does once the list is used up). [next_id]: the next generated ObjectId.
    [now]: the clock [new Date()] reads, which stands still while a
    handler runs. [console]: the arguments of each console call. *)
Record world := mkWorld {
  db : store;
  next_id : oid;
  faults : list bool;
  now : Z;
  console : list (list value)
}.

Inductive outcome (A : Type) :=
  | Ok (a : A)
  | Throw (message : string).
Arguments Ok {A} a.
Arguments Throw {A} message.

Definition M (A : Type) : Type := world -> outcome A * world.

Definition ret {A} (a : A) : M A := fun w => (Ok a, w).

Definition throw {A} (message : string) : M A := fun w => (Throw message, w).

Definition bind {A B} (m : M A) (k : A -> M B) : M B :=
  fun w =>
    match m w with
    | (Ok a, w') => k a w'
    | (Throw e, w') => (Throw e, w')
    end.

(** [try { m } catch (err) { h err }] *)
Definition try_catch {A} (m : M A) (h : string -> M A) : M A :=
  fun w =>
    match m w with
    | (Ok a, w') => (Ok a, w')
    | (Throw e, w') => h e w'
    end.

Notation "'let!' x ':=' c 'in' k" := (bind c (fun x => k))
  (at level 10, x pattern, c at level 100, k at level 200).
Notation "c ';;' k" := (bind c (fun _ => k))
  (at level 100, k at level 200, right associativity).

(** [await] on a store operation: the round trip, which may throw. *)
Definition await_store : M unit :=
  fun w =>
    match faults w with
    | true :: rest =>
        (Throw "MongoError",
         mkWorld (db w) (next_id w) rest (now w) (console w))
    | false :: rest =>
        (Ok tt, mkWorld (db w) (next_id w) rest (now w) (console w))
    | [] => (Ok tt, w)
    end.

Definition read (c : coll) : M (gmap oid doc) :=
  fun w => (Ok (coll_get c (db w)), w).

Definition write (c : coll) (m : gmap oid doc) : M unit :=
  fun w =>
    (Ok tt,
     mkWorld (coll_set c m (db w)) (next_id w) (faults w) (now w) (console w)).

Definition new_ObjectId : M oid :=
  fun w =>
    (Ok (next_id w),
     mkWorld (db w) (next_id w + 1)%N (faults w) (now w) (console w)).

(** [new Date()] *)
Definition new_Date : M value := fun w => (Ok (VDate (now w)), w).

(** [console.log(...args)] and [console.error(...args)] *)
Definition console_log (args : list value) : M unit :=
  fun w =>
    (Ok tt,
     mkWorld (db w) (next_id w) (faults w) (now w) (console w ++ [args])).

(** [mongoose.connect] and [mongoose.disconnect] *)
Definition connect : M unit := await_store.
Definition disconnect : M unit := await_store.

(** *** Store primitives *)

(** Insert under a generated [_id]; a taken [_id] is a duplicate key. *)
Definition insertOne (c : coll) (id : oid) (d : doc) : M unit :=
  await_store ;;
  let! m := read c in
  match m !! id with
  | Some _ => throw "E11000 duplicate key error"
  | None => write c (<[id := d]> m)
  end.

(** The documents of a collection a filter matches, with their [_id]. *)
Definition find (c : coll) (filter : oid -> doc -> bool)
  : M (list (oid * doc)) :=
  await_store ;;
  let! m := read c in
  ret (List.filter (fun p => filter p.1 p.2) (map_to_list m)).

(** [updateOne({_id: id}, update)]: the matched count. *)
Definition updateOne_by_id (c : coll) (id : oid) (update : doc -> doc)
  : M nat :=
  await_store ;;
  let! m := read c in
  match m !! id with
  | Some d => write c (<[id := update d]> m) ;; ret 1
  | None => ret 0
  end.

(** [$unset] of a list of paths. *)
Definition unset (ks : list string) (d : doc) : doc :=
  foldr (fun k acc => delete k acc) d ks.

Definition has_path (d : doc) (k : string) : bool :=
  bool_decide (is_Some (d !! k)).

(** [updateMany(filter, {$unset: ks})]: the matched and the modified
    count; a matched document is modified when it has one of the paths. *)
Definition updateMany_unset (c : coll) (filter : doc -> bool)
    (ks : list string) : M (nat * nat) :=
  await_store ;;
  let! m := read c in
  let hit := List.filter (fun p => filter p.2) (map_to_list m) in
  let changed := List.filter (fun p => existsb (has_path p.2) ks) hit in
  write c ((fun d => if filter d then unset ks d else d) <$> m) ;;
  ret (length hit, length changed).

Section Backend.
Context {rt : JsRuntime}.

(** ** Conversions *)

(** [String(v)] *)
Fixpoint ToString (v : value) : string :=
  match v with
  | VUndef => "undefined"
  | VNull => "null"
  | VBool true => "true"
  | VBool false => "false"
  | VNum n => NumberToString n
  | VStr s => s
  | VOid o => oid_hex o
  | VDate t => DateToString t
  | VArr l =>
      String.concat ","
        (map (fun x => match x with
                       | VUndef | VNull => ""
                       | _ => ToString x
                       end) l)
  | VObj _ => "[object Object]"
  end.

(** [Number(v)] *)
Definition ToNumber (v : value) : jsnum :=
  match v with
  | VUndef => NaN
  | VNull => num_of_Z 0
  | VBool b => num_of_Z (if b then 1 else 0)
  | VNum n => n
  | VDate t => num_of_Z t
  | _ => StringToNumber (ToString v)
  end.

(** A JavaScript string is held as the UTF-8 bytes of its text.
    [code_points] reads the text back: a well-formed sequence of two to
    four bytes is the code point it encodes, and any other byte stands
    for the code point of its own value. *)
Definition continuation (c : ascii) : option N :=
  let n := N_of_ascii c in
  if ((128 <=? n) && (n <=? 191))%N then Some (n - 128)%N else None.

Definition two_bytes (b : N) (c1 : ascii) : option N :=
  if ((194 <=? b) && (b <=? 223))%N
  then (fun x1 => (b - 192) * 64 + x1)%N <$> continuation c1
  else None.

Definition three_bytes (b : N) (c1 c2 : ascii) : option N :=
  if ((224 <=? b) && (b <=? 239))%N then
    match continuation c1, continuation c2 with
    | Some x1, Some x2 =>
        let n := ((b - 224) * 4096 + x1 * 64 + x2)%N in
        if ((2048 <=? n) && negb ((55296 <=? n) && (n <=? 57343)))%N
        then Some n else None
    | _, _ => None
    end
  else None.

Definition four_bytes (b : N) (c1 c2 c3 : ascii) : option N :=
  if ((240 <=? b) && (b <=? 244))%N then
    match continuation c1, continuation c2, continuation c3 with
    | Some x1, Some x2, Some x3 =>
        let n := ((b - 240) * 262144 + x1 * 4096 + x2 * 64 + x3)%N in
        if ((65536 <=? n) && (n <=? 1114111))%N then Some n else None
    | _, _, _ => None
    end
  else None.

Fixpoint code_points (s : string) : list N :=
  match s with
  | EmptyString => []
  | String c r =>
      let b := N_of_ascii c in
      match r with
      | String c1 r1 =>
          match two_bytes b c1 with
          | Some n => n :: code_points r1
          | None =>
              match r1 with
              | String c2 r2 =>
                  match three_bytes b c1 c2 with
                  | Some n => n :: code_points r2
                  | None =>
                      match r2 with
                      | String c3 r3 =>
                          match four_bytes b c1 c2 c3 with
                          | Some n => n :: code_points r3
                          | None => b :: code_points r
                          end
                      | EmptyString => b :: code_points r
                      end
                  end
              | EmptyString => b :: code_points r
              end
          end
      | EmptyString => [b]
      end
  end.

(** The white space and the line terminators of ECMAScript, which
    [trim] strips: TAB, LF, VT, FF, CR, the space, the no-break space
    U+00A0, U+1680, U+2000 to U+200A, the separators U+2028 and U+2029,
    U+202F, U+205F, U+3000 and the byte order mark U+FEFF. *)
Definition is_white_space (n : N) : bool :=
  (((9 <=? n) && (n <=? 13))
   || (n =? 32) || (n =? 160) || (n =? 5760)
   || ((8192 <=? n) && (n <=? 8202))
   || (n =? 8232) || (n =? 8233) || (n =? 8239) || (n =? 8287)
   || (n =? 12288) || (n =? 65279))%N.

(** [s.trim() === ''] *)
Definition blank (s : string) : bool :=
  forallb is_white_space (code_points s).

(** [s.split(" ")] *)
Fixpoint split_space (s : string) : list string :=
  match s with
  | EmptyString => [EmptyString]
  | String c r =>
      if Ascii.eqb c " " then EmptyString :: split_space r
      else match split_space r with
           | h :: t => String c h :: t
           | [] => [String c EmptyString]
           end
  end.

Definition num_eqb (a b : jsnum) : bool :=
  match a, b with
  | Infty x, Infty y => Bool.eqb x y
  | Fin x d, Fin y e => (x * Z.pos e =? y * Z.pos d)%Z
  | _, _ => false
  end.

(** Equality of two scalars as the store compares them. *)
Definition scalar_eqb (a b : value) : bool :=
  match a, b with
  | VNull, VNull => true
  | VBool x, VBool y => Bool.eqb x y
  | VNum x, VNum y => num_eqb x y
  | VStr x, VStr y => String.eqb x y
  | VOid x, VOid y => (x =? y)%N
  | VDate x, VDate y => (x =? y)%Z
  | _, _ => false
  end.

(** A filter [{field: q}] with a scalar [q] against a stored field: a
    missing field matches [null], an array matches through its elements. *)
Definition mongo_eq (q : value) (stored : option value) : bool :=
  match stored with
  | None => scalar_eqb q VNull
  | Some (VArr l) => existsb (scalar_eqb q) l
  | Some v => scalar_eqb q v
  end.

(** [{field: {$exists: b}}] *)
Definition mongo_exists (b : bool) (stored : option value) : bool :=
  Bool.eqb b (bool_decide (is_Some stored)).

(** ** Mongoose schemas and casting *)

Inductive schematype :=
  SString | SObjectId | SNumber | SDate | SArrayOfString.

(** A string is kept, a number, a boolean, an ObjectId or a Date goes
    through its [toString()], an object stands for its [_id] when that is
    a non-empty string, and anything else is refused. *)
Definition cast_String (v : value) : option value :=
  match v with
  | VArr _ => None
  | VObj o =>
      match o !! "_id" with
      | Some (VStr s) => if truthy (VStr s) then Some (VStr s) else None
      | _ => None
      end
  | _ => Some (VStr (ToString v))
  end.

(** An ObjectId is kept, an object stands for its truthy [_id], and
    anything else goes through [new ObjectId(v.toString())]. *)
Definition cast_ObjectId (v : value) : option value :=
  match v with
  | VOid o => Some (VOid o)
  | VObj o =>
      match o !! "_id" with
      | Some (VOid i) => Some (VOid i)
      | Some i =>
          VOid <$> parse_oid (ToString (if truthy i then i else v))
      | None => VOid <$> parse_oid (ToString v)
      end
  | _ => VOid <$> parse_oid (ToString v)
  end.

Definition cast_Number (v : value) : option value :=
  match v with
  | VStr "" => Some VNull
  | VNum _ | VStr _ | VBool _ =>
      let n := ToNumber v in if isNaN n then None else Some (VNum n)
  | _ => None
  end.

(** [new Date(n)] keeps the integral part of a time within range. *)
Definition cast_Date (v : value) : option value :=
  match v with
  | VDate t => Some (VDate t)
  | VNum (Fin z d) =>
      let t := Z.quot z (Z.pos d) in
      if (Z.abs t <=? 8640000000000000)%Z then Some (VDate t) else None
  | VStr s => VDate <$> StringToDate s
  | _ => None
  end.

Fixpoint cast_each (l : list value) : option (list value) :=
  match l with
  | [] => Some []
  | x :: r =>
      match (match x with
             | VUndef | VNull => Some x
             | _ => cast_String x
             end), cast_each r with
      | Some y, Some r' => Some (y :: r')
      | _, _ => None
      end
  end.

Definition cast_ArrayOfString (v : value) : option value :=
  match v with
  | VArr l => VArr <$> cast_each l
  | _ => (fun x => VArr [x]) <$> cast_String v
  end.

(** The cast of a value set on a path of the given type; [None] is a
    CastError. [undefined] and [null] stay as they are. *)
Definition cast (t : schematype) (v : value) : option value :=
  match v with
  | VUndef => Some VUndef
  | VNull => Some VNull
  | _ =>
      match t with
      | SString => cast_String v
      | SObjectId => cast_ObjectId v
      | SNumber => cast_Number v
      | SDate => cast_Date v
      | SArrayOfString => cast_ArrayOfString v
      end
  end.

Record field_spec := mkField {
  f_name : string;
  f_type : schematype;
  f_default : option value;
  f_enum : option (list string)
}.

Record schema := mkSchema {
  s_fields : list field_spec;
  s_timestamps : bool
}.

Definition plain (name : string) (t : schematype) : field_spec :=
  mkField name t None None.

Definition userSchema : schema :=
  mkSchema
    [ plain "name" SString; plain "email" SString; plain "password" SString;
      mkField "role" SString (Some (VStr "business"))
        (Some ["admin"; "business"; "customer"]);
      plain "businessId" SObjectId; plain "phone" SString;
      plain "address" SString; plain "bio" SString ]
    false.

Definition businessSchema : schema :=
  mkSchema
    [ plain "name" SString; plain "owner" SObjectId;
      plain "category" SString; plain "location" SString;
      plain "description" SString ]
    true.

Definition leadSchema : schema :=
  mkSchema
    [ plain "name" SString; plain "email" SString; plain "phone" SString;
      plain "message" SString; plain "businessId" SObjectId;
      plain "timestamp" SDate; plain "submittedBy" SObjectId ]
    false.

Definition productSchema : schema :=
  mkSchema
    [ plain "name" SString; plain "sku" SString; plain "price" SNumber;
      mkField "quantity" SNumber (Some (VNum (num_of_Z 0))) None;
      plain "description" SString;
      mkField "images" SArrayOfString (Some (VArr [])) None;
      plain "businessId" SObjectId ]
    true.

Definition enum_ok (f : field_spec) (v : value) : bool :=
  match f_enum f, v with
  | Some allowed, VStr s => existsb (String.eqb s) allowed
  | _, _ => true
  end.

(** The value a path takes when [input] is handed to the model: default,
    cast, enum validation. [None] is a ValidationError. *)
Definition cast_field (f : field_spec) (input : doc) : option value :=
  let v := get input (f_name f) in
  let v := match v with VUndef => default VUndef (f_default f) | _ => v end in
  match cast (f_type f) v with
  | Some v' => if enum_ok f v' then Some v' else None
  | None => None
  end.

(** [o[k] = v] on a document about to be saved: [undefined] is not stored. *)
Definition set_field (k : string) (v : value) (d : doc) : doc :=
  match v with VUndef => delete k d | _ => <[k := v]> d end.

(** The fields of a new document of a schema: paths outside the schema are
    dropped (strict mode). *)
Fixpoint cast_fields (fs : list field_spec) (input : doc) : option doc :=
  match fs with
  | [] => Some ∅
  | f :: rest =>
      match cast_field f input, cast_fields rest input with
      | Some v, Some d => Some (set_field (f_name f) v d)
      | _, _ => None
      end
  end.

(** *** Mongoose models *)

Definition schema_of (c : coll) : schema :=
  match c with
  | Users => userSchema
  | Businesses => businessSchema
  | Leads => leadSchema
  | Products => productSchema
  end.


(** [Model.create(input)] on a model with a schema: cast and validate,
    stamp, insert. The created document comes back with its [_id]. *)
Definition Model_create (c : coll) (input : doc) : M (oid * doc) :=
  let! id := new_ObjectId in
  match cast_fields (s_fields (schema_of c)) input with
  | None => throw "ValidationError"
  | Some d =>
      let! t := new_Date in
      let d := if s_timestamps (schema_of c)
               then <["createdAt" := t]> (<["updatedAt" := t]> d) else d in
      let d := <["__v" := VNum (num_of_Z 0)]> d in
      insertOne c id d ;;
      ret (id, d)
  end.

(** [Model.create(input)] on a model with an empty schema and
    [strict: false]: the input is stored as it is. *)
Definition Loose_create (c : coll) (input : doc) : M (oid * doc) :=
  let! id := new_ObjectId in
  let d := <["__v" := VNum (num_of_Z 0)]>
             (filter (fun kv => is_undef kv.2 = false) input) in
  insertOne c id d ;;
  ret (id, d).

(** [Model.findById(id)]: the string is cast to an ObjectId first. *)
Definition findById (c : coll) (id : string) : M (option (oid * doc)) :=
  match parse_oid id with
  | None => throw "CastError"
  | Some o =>
      await_store ;;
      let! m := read c in
      ret ((fun d => (o, d)) <$> m !! o)
  end.

(** [document.save()] after assignments to paths of the schema: the
    assigned paths are written to the stored document. *)
Definition doc_save (c : coll) (id : oid) (assigned : list (string * value))
  : M unit :=
  await_store ;;
  let! m := read c in
  match m !! id with
  | None => throw "DocumentNotFoundError"
  | Some d =>
      let d := foldl (fun acc kv => set_field kv.1 kv.2 acc) d assigned in
      let! t := new_Date in
      let d := if s_timestamps (schema_of c)
               then <["updatedAt" := t]> d else d in
      write c (<[id := d]> m)
  end.

(** ** The handlers of [backend/index.js] *)

Record response := mkResponse {
  status : nat;
  payload : value
}.

Record request := mkRequest {
  authorization : option string;
  body : doc;
  param_id : string
}.

(** An object literal. *)
Definition obj (fields : list (string * value)) : doc := list_to_map fields.

(** [res.json(o)] *)
Definition json (fields : list (string * value)) : response :=
  mkResponse 200 (VObj (obj fields)).

(** [res.status(n).json(o)] *)
Definition status_json (n : nat) (fields : list (string * value)) : response :=
  mkResponse n (VObj (obj fields)).

(** A stored document as a value, with its [_id]. *)
Definition doc_value (p : oid * doc) : value :=
  VObj (<["_id" := VOid p.1]> p.2).

(** JWT middleware *)
Definition authenticateToken (req : request) (next : doc -> M response)
  : M response :=
  let token :=
    match authorization req with
    | None => VUndef
    | Some authHeader =>
        js_and (VStr authHeader)
               (from_option VStr VUndef (split_space authHeader !! 1%nat))
    end in
  match token with
  | VStr t =>
      if negb (truthy token)
      then ret (status_json 401 [("error", VStr "Token missing")])
      else
        match jwt_verify t with
        | None =>
            ret (status_json 403 [("error", VStr "Token expired or invalid")])
        | Some user => next user
        end
  | _ => ret (status_json 401 [("error", VStr "Token missing")])
  end.

(** The payload the middleware hands to the handler behind it, when it
    lets the request through. *)
Definition authenticated (req : request) : option doc :=
  match authorization req with
  | Some authHeader =>
      match split_space authHeader !! 1%nat with
      | Some t =>
          if truthy (VStr authHeader) && truthy (VStr t)
          then jwt_verify t else None
      | None => None
      end
  | None => None
  end.

(** [User.findOne({ email })]: the filter value is cast to a string. *)
Definition email_filter (email : value) : option (doc -> bool) :=
  match email with
  | VUndef | VArr _ | VObj _ =>
      (fun f (d : doc) => f (d !! "email")) <$> match_special email
  | VNull => Some (fun d => mongo_eq VNull (d !! "email"))
  | _ => Some (fun d => mongo_eq (VStr (ToString email)) (d !! "email"))
  end.

Definition User_findOne_email (email : value) : M (option (oid * doc)) :=
  match email_filter email with
  | None => throw "CastError"
  | Some f =>
      let! found := find Users (fun _ d => f d) in
      ret (head found)
  end.

(** [bcrypt.hash(password, 10)]: only a string is hashed. *)
Definition bcrypt_hash_js (password : value) : M value :=
  match password with
  | VStr s => ret (VStr (bcrypt_hash s))
  | _ => throw "Illegal arguments"
  end.

Definition business_fields : list string :=
  ["category"; "location"; "description"].

(** POST /api/auth/register. The [$unset] after a customer's registration
    names paths outside [userSchema]; whether the store applies it or
    Mongoose's strict mode drops it, the user just created has none of
    them. *)
Definition register (body : doc) : M response :=
  try_catch
    (let name := get body "name" in
     let email := get body "email" in
     let password := get body "password" in
     let body := delete "category" body in
     let body := delete "location" body in
     let body := delete "description" body in
     let role := get body "role" ||| VStr "business" in
     let role :=
       if negb (is_str role "business") && negb (is_str role "customer")
       then VStr "business" else role in
     let! exists_ := User_findOne_email email in
     match exists_ with
     | Some _ => ret (status_json 400 [("error", VStr "Email already exists")])
     | None =>
         let! hashed := bcrypt_hash_js password in
         let! user :=
           Model_create Users
             (obj [("name", name); ("email", email); ("password", hashed);
                   ("role", role)]) in
         if is_str role "business" then
           let! biz :=
             Model_create Businesses
               (obj [("name", name ||| email);
                     ("owner", VOid user.1);
                     ("category", get body "category" ||| VStr "");
                     ("location", get body "location" ||| VStr "");
                     ("description", get body "description" ||| VStr "")]) in
           doc_save Users user.1 [("businessId", VOid biz.1)] ;;
           ret (json [("message", VStr "Business registered");
                      ("businessId", VOid biz.1)])
         else
           try_catch
             (updateOne_by_id Users user.1 (unset business_fields) ;; ret tt)
             (fun e =>
                console_log
                  [VStr "Failed to cleanup user business fields:"; VStr e]) ;;
           ret (json [("message", VStr "User registered");
                      ("userId", VOid user.1)])
     end)
    (fun err =>
       console_log [VStr "Register error:"; VStr err] ;;
       ret (status_json 500 [("error", VStr "Server error");
                             ("details", VStr err)])).

(** POST /api/leads, after the middleware. The notification mail that
    follows the insert is sent without being awaited and its errors are
    caught: it touches neither the store nor the response. *)
Definition post_leads (user : doc) (body : doc) : M response :=
  try_catch
    (let name := get body "name" in
     let phone := get body "phone" in
     let message := get body "message" in
     let businessId := get body "businessId" in
     let email := get user "email" ||| get body "email" in
     if negb (truthy phone) || negb (truthy email) then
       ret (status_json 400 [("error", VStr "phone and email are required")])
     else
       let! t := new_Date in
       let! lead :=
         Model_create Leads
           (obj [("name", name); ("email", email); ("phone", phone);
                 ("message", message); ("businessId", businessId);
                 ("timestamp", t); ("submittedBy", get user "id")]) in
       ret (json [("message", VStr "Lead sent"); ("lead", doc_value lead)]))
    (fun _ => ret (status_json 500 [("error", VStr "Server error")])).

(** The server-side validation of a product: the [errors] object. *)
Definition product_errors (name price quantity : value) : doc :=
  let errors : doc := ∅ in
  let errors :=
    if negb (truthy name) || blank (ToString name)
    then <["name" := VStr "Name is required"]> errors else errors in
  let numPrice := ToNumber (price ||| VNum (num_of_Z 0)) in
  let errors :=
    if isNaN numPrice || num_lt0 numPrice
    then <["price" := VStr "Price must be a non-negative number"]> errors
    else errors in
  let numQty := ToNumber (quantity ||| VNum (num_of_Z 0)) in
  let errors :=
    if negb (isInteger numQty) || num_lt0 numQty
    then <["quantity" :=
             VStr "Quantity must be a non-negative integer"]> errors
    else errors in
  errors.

Definition validation_failed (errors : doc) : response :=
  status_json 400 [("error", VStr "Validation failed");
                   ("details", VObj errors)].

(** POST /api/business/products, after the middleware *)
Definition create_product (user : doc) (body : doc) : M response :=
  try_catch
    (let name := get body "name" in
     let sku := get body "sku" in
     let price := get body "price" in
     let quantity := get body "quantity" in
     let description := get body "description" in
     let images := get body "images" in
     let businessId := get body "businessId" in
     let errors := product_errors name price quantity in
     let numPrice := ToNumber (price ||| VNum (num_of_Z 0)) in
     let numQty := ToNumber (quantity ||| VNum (num_of_Z 0)) in
     if negb (bool_decide (size errors = 0%nat)) then
       ret (validation_failed errors)
     else
       let bid := businessId in
       let bid :=
         if is_str (get user "role") "business"
         then get user "businessId" else bid in
       if negb (truthy bid) then
         ret (status_json 400 [("error", VStr "businessId required")])
       else if is_str (get user "role") "business"
               || is_str (get user "role") "admin" then
         let! p :=
           Model_create Products
             (obj [("name", name); ("sku", sku); ("price", VNum numPrice);
                   ("quantity", VNum numQty); ("description", description);
                   ("images", images ||| VArr []); ("businessId", bid)]) in
         ret (json [("product", doc_value p)])
       else ret (status_json 403 [("error", VStr "Forbidden")]))
    (fun err =>
       console_log [VStr "Create product error:"; VStr err] ;;
       ret (status_json 500 [("error", VStr "Server error")])).

(** [Object.assign(p, updates)] on a product document: each value is cast
    by the path it is assigned to. *)
Fixpoint assign_cast (fs : list field_spec) (updates : list (string * value))
  : option (list (string * value)) :=
  match updates with
  | [] => Some []
  | (k, v) :: rest =>
      let t := from_option f_type SString
                 (List.find (fun f => String.eqb (f_name f) k) fs) in
      match cast t v, assign_cast fs rest with
      | Some v', Some rest' => Some ((k, v') :: rest')
      | _, _ => None
      end
  end.

(** PUT /api/business/products/:id, after the middleware *)
Definition update_product (user : doc) (id : string) (body : doc)
  : M response :=
  try_catch
    (let! found := findById Products id in
     match found with
     | None => ret (status_json 404 [("error", VStr "Not found")])
     | Some p =>
         if negb (is_str (get user "role") "admin")
            && negb (String.eqb (ToString (get p.2 "businessId"))
                                (ToString (get user "businessId")))
         then ret (status_json 403 [("error", VStr "Forbidden")])
         else
           let name := get body "name" in
           let sku := get body "sku" in
           let price := get body "price" in
           let quantity := get body "quantity" in
           let description := get body "description" in
           let images := get body "images" in
           let errors := product_errors name price quantity in
           let numPrice := ToNumber (price ||| VNum (num_of_Z 0)) in
           let numQty := ToNumber (quantity ||| VNum (num_of_Z 0)) in
           if negb (bool_decide (size errors = 0%nat)) then
             ret (validation_failed errors)
           else
             let updates :=
               [("name", name); ("sku", sku); ("price", VNum numPrice);
                ("quantity", VNum numQty); ("description", description);
                ("images", images)] in
             match assign_cast (s_fields productSchema) updates with
             | None => throw "ValidationError"
             | Some assigned =>
                 doc_save Products p.1 assigned ;;
                 let! saved := read Products in
                 ret (mkResponse 200
                        (from_option (fun d => doc_value (p.1, d)) VNull
                                     (saved !! p.1)))
             end
     end)
    (fun _ => ret (status_json 500 [("error", VStr "Server error")])).

(** *** The routes, behind the middleware *)

Definition route_post_leads (req : request) : M response :=
  authenticateToken req (fun user => post_leads user (body req)).

Definition route_create_product (req : request) : M response :=
  authenticateToken req (fun user => create_product user (body req)).

Definition route_update_product (req : request) : M response :=
  authenticateToken req
    (fun user => update_product user (param_id req) (body req)).

End Backend.

(** ** [backend/scripts/migrateUsersToBusinesses.js] *)

Module Migrate.
Section Script.
Context {rt : JsRuntime}.

(** [{ role: 'business',
       $or: [ { businessId: { $exists: false } }, { businessId: null } ] }] *)
Definition candidate (u : doc) : bool :=
  mongo_eq (VStr "business") (u !! "role")
  && (mongo_exists false (u !! "businessId")
      || mongo_eq VNull (u !! "businessId")).

(** The object [doc] built for a candidate. *)
Definition business_of (u : oid * doc) (createdAt updatedAt : value) : doc :=
  obj [("name", get u.2 "name" ||| get u.2 "email"
                ||| VStr "Unnamed Business");
       ("owner", VOid u.1);
       ("category", get u.2 "category" ||| VStr "");
       ("location", get u.2 "location" ||| VStr "");
       ("description", get u.2 "description" ||| VStr "");
       ("createdAt", createdAt);
       ("updatedAt", updatedAt)].

(** The Business name as the specification words it: the user's [name]
    if present, else the [email] if present, else the literal. *)
Definition spec_name (u : doc) : value :=
  match u !! "name" with
  | Some name => name
  | None =>
      match u !! "email" with
      | Some email => email
      | None => VStr "Unnamed Business"
      end
  end.

(** [b] holds what the loop synthesizes for candidate [u]: each field is
    the user's when that is truthy, and the fallback otherwise. *)
Definition synthesized (u : oid * doc) (b : doc) : Prop :=
  b !! "name"
  = Some (if truthy (get u.2 "name") then get u.2 "name"
          else if truthy (get u.2 "email") then get u.2 "email"
          else VStr "Unnamed Business")
  /\ b !! "owner" = Some (VOid u.1)
  /\ b !! "category"
     = Some (if truthy (get u.2 "category") then get u.2 "category"
             else VStr "")
  /\ b !! "location"
     = Some (if truthy (get u.2 "location") then get u.2 "location"
             else VStr "")
  /\ b !! "description"
     = Some (if truthy (get u.2 "description") then get u.2 "description"
             else VStr "").

(** What processing the candidates [l] may turn store [s] into: Businesses
    are only added, each synthesized from a candidate, and a user is left
    as it was or given the [businessId] of a Business it owns. *)
Definition migrated (l : list (oid * doc)) (s s' : store) : Prop :=
  leads s' = leads s
  /\ products s' = products s
  /\ (forall bid b, businesses s !! bid = Some b ->
                    businesses s' !! bid = Some b)
  /\ (forall bid b, businesses s !! bid = None ->
                    businesses s' !! bid = Some b ->
                    exists u, u ∈ l /\ synthesized u b)
  /\ (forall uid,
        users s' !! uid = users s !! uid
        \/ exists u d bid b,
             (uid, u) ∈ l
             /\ users s !! uid = Some d
             /\ users s' !! uid = Some (<["businessId" := VOid bid]> d)
             /\ businesses s' !! bid = Some b
             /\ b !! "owner" = Some (VOid uid)).

(** The body of the loop, with its [try]/[catch]. *)
Definition migrate_user (u : oid * doc) : M unit :=
  try_catch
    (let! createdAt := new_Date in
     let! updatedAt := new_Date in
     let! created := Loose_create Businesses (business_of u createdAt updatedAt) in
     updateOne_by_id Users u.1 (fun d => <["businessId" := VOid created.1]> d) ;;
     console_log [VStr "Created business for user"; get u.2 "email";
                  VStr "->"; VStr (oid_hex created.1)])
    (fun err =>
       console_log [VStr "Failed for user"; get u.2 "email"; VStr err]).

(** [for (const u of candidates) ...] *)
Fixpoint for_each (candidates : list (oid * doc)) : M unit :=
  match candidates with
  | [] => ret tt
  | u :: rest => migrate_user u ;; for_each rest
  end.

(** [run] returns the number of candidates it prints. *)
Definition run : M nat :=
  connect ;;
  let! candidates := find Users (fun _ u => candidate u) in
  console_log [VStr "Found"; VNum (num_of_nat (length candidates));
               VStr "business users without business records"] ;;
  for_each candidates ;;
  disconnect ;;
  console_log [VStr "Migration complete"] ;;
  ret (length candidates).

End Script.
End Migrate.

(** ** The cleanup script (unsetting business fields on users) *)

Module Cleanup.
Section Script.
Context {rt : JsRuntime}.

(** [{ $or: [ { category: { $exists: true } },
              { location: { $exists: true } },
              { description: { $exists: true } } ] }] *)
Definition has_business_field (u : doc) : bool :=
  mongo_exists true (u !! "category")
  || mongo_exists true (u !! "location")
  || mongo_exists true (u !! "description").

(** The write result [res] of the bulk update. *)
Definition write_result (counts : nat * nat) : doc :=
  if legacy_write_result
  then obj [("n", VNum (num_of_nat counts.1));
            ("nModified", VNum (num_of_nat counts.2))]
  else obj [("matchedCount", VNum (num_of_nat counts.1));
            ("modifiedCount", VNum (num_of_nat counts.2))].

(** What the bulk update does to one user document. *)
Definition scrub (u : doc) : doc :=
  if has_business_field u then unset business_fields u else u.

(** [run] returns the matched and the modified count of [res]. *)
Definition run : M (nat * nat) :=
  connect ;;
  console_log
    [VStr "Cleaning up user documents (unsetting business fields)..."] ;;
  let! counts :=
    updateMany_unset Users has_business_field business_fields in
  let res := write_result counts in
  console_log [VStr "Matched:"; get res "matchedCount" ||| get res "n";
               VStr "Modified:";
               get res "modifiedCount" ||| get res "nModified"] ;;
  disconnect ;;
  console_log [VStr "Cleanup complete"] ;;
  ret counts.

End Script.
End Cleanup.

(** ** The other routes of [backend/index.js] *)

(** What the session libraries compute. *)
Class AuthRuntime := {
  (** [bcrypt.compare(s, hash)] on two strings *)
  bcrypt_compare : string -> string -> bool;
  (** [jwt.sign(payload, secret, { expiresIn: "7d" })] at a time *)
  jwt_sign : Z -> doc -> string
}.

(** What the store decides. *)
Class StoreRuntime := {
  (** [.sort({ path: -1 })]: the documents in the store's order on the
      path, descending; how ties and missing paths fall is the store's *)
  sort_desc : string -> list (oid * doc) -> list (oid * doc);
  sort_desc_perm : forall k l, sort_desc k l ≡ₚ l;
  (** an [undefined] value in an update is dropped (Mongoose 6 and later)
      rather than written as [null] (Mongoose 5) *)
  omit_undefined : bool
}.

Section Routes.
Context {rt : JsRuntime} {auth : AuthRuntime} {sr : StoreRuntime}.

(** A filter [{ path: q }] on a model with a schema: [q] is cast to the
    type of the path. *)
Definition path_filter (t : schematype) (k : string) (q : value)
  : option (doc -> bool) :=
  match q with
  | VUndef | VArr _ | VObj _ =>
      (fun f (d : doc) => f (d !! k)) <$> match_special q
  | VNull => Some (fun d => mongo_eq VNull (d !! k))
  | _ => (fun v (d : doc) => mongo_eq v (d !! k)) <$> cast t q
  end.

(** A filter [{ _id: q }]. *)
Definition id_filter (q : value) : option (oid -> bool) :=
  match q with
  | VUndef | VArr _ | VObj _ =>
      (fun f (i : oid) => f (Some (VOid i))) <$> match_special q
  | VNull => Some (fun _ => false)
  | _ =>
      match cast_ObjectId q with
      | Some (VOid o) => Some (N.eqb o)
      | _ => None
      end
  end.

(** [Model.find({ path: q }).sort({ by: -1 })] *)
Definition find_by (c : coll) (t : schematype) (k : string) (q : value)
    (by_ : string) : M (list (oid * doc)) :=
  match path_filter t k q with
  | None => throw "CastError"
  | Some f =>
      let! found := find c (fun _ d => f d) in
      ret (sort_desc by_ found)
  end.

(** [Model.find().sort({ by: -1 })] *)
Definition find_all (c : coll) (by_ : string) : M (list (oid * doc)) :=
  let! found := find c (fun _ _ => true) in
  ret (sort_desc by_ found).

(** [Model.findById(id)] on a value. *)
Definition findById_value (c : coll) (id : value) : M (option (oid * doc)) :=
  match id_filter id with
  | None => throw "CastError"
  | Some f =>
      let! found := find c (fun i _ => f i) in
      ret (head found)
  end.

(** [.select('a b c')]: the named paths (the [_id] stays with the
    document). *)
Definition select (ks : list string) (d : doc) : doc :=
  filter (fun kv => kv.1 ∈ ks) d.

(** One path of an update document. *)
Definition update_path (k : string) (v : value) (d : doc) : doc :=
  match v with
  | VUndef => if omit_undefined then d else <[k := VNull]> d
  | _ => <[k := v]> d
  end.

(** [Model.findByIdAndUpdate(id, updates, { new: true })]: the updates
    are cast by the schema and set on the document found, which comes
    back as updated. *)
Definition findByIdAndUpdate (c : coll) (id : value)
    (updates : list (string * value)) : M (option (oid * doc)) :=
  match id_filter id, assign_cast (s_fields (schema_of c)) updates with
  | Some f, Some casted =>
      await_store ;;
      let! m := read c in
      match head (List.filter (fun p => f p.1) (map_to_list m)) with
      | None => ret None
      | Some p =>
          let! t := new_Date in
          let d := foldl (fun acc kv => update_path kv.1 kv.2 acc) p.2 casted in
          let d := if s_timestamps (schema_of c)
                   then <["updatedAt" := t]> d else d in
          write c (<[p.1 := d]> m) ;;
          ret (Some (p.1, d))
      end
  | _, _ => throw "CastError"
  end.

(** [Model.findByIdAndDelete(id)] *)
Definition findByIdAndDelete (c : coll) (id : string)
  : M (option (oid * doc)) :=
  match parse_oid id with
  | None => throw "CastError"
  | Some o =>
      await_store ;;
      let! m := read c in
      match m !! o with
      | None => ret None
      | Some d => write c (delete o m) ;; ret (Some (o, d))
      end
  end.

(** [Model.updateOne({ path: q }, { $unset: { path': '' } })]: the first
    document the filter matches loses the path. *)
Definition updateOne_unset (c : coll) (t : schematype) (k : string)
    (q : value) (ks : list string) : M nat :=
  match path_filter t k q with
  | None => throw "CastError"
  | Some f =>
      await_store ;;
      let! m := read c in
      match head (List.filter (fun p => f p.2) (map_to_list m)) with
      | None => ret 0%nat
      | Some p => write c (<[p.1 := unset ks p.2]> m) ;; ret 1%nat
      end
  end.

(** [res.json(docs)] on a list of documents. *)
Definition json_docs (l : list (oid * doc)) : response :=
  mkResponse 200 (VArr (doc_value <$> l)).

(** [bcrypt.compare(password, hash)]: only on two strings. *)
Definition bcrypt_compare_js (password hash : value) : M bool :=
  match password, hash with
  | VStr p, VStr h => ret (bcrypt_compare p h)
  | _, _ => throw "Illegal arguments"
  end.

(** [jwt.sign(payload, secret, { expiresIn: "7d" })] *)
Definition jwt_sign_js (payload : doc) : M value :=
  fun w => (Ok (VStr (jwt_sign (now w) payload)), w).

(** The payload login signs. *)
Definition token_payload (u : oid * doc) : doc :=
  obj [("id", VOid u.1); ("role", get u.2 "role");
       ("email", get u.2 "email"); ("businessId", get u.2 "businessId")].

(** The [user] object of the login and profile responses. *)
Definition user_view (u : doc) : value :=
  VObj (obj [("name", get u "name"); ("email", get u "email");
             ("role", get u "role"); ("businessId", get u "businessId");
             ("phone", get u "phone"); ("address", get u "address");
             ("bio", get u "bio")]).

(** POST /api/auth/login *)
Definition login (body : doc) : M response :=
  try_catch
    (let email := get body "email" in
     let password := get body "password" in
     let! user := User_findOne_email email in
     match user with
     | None => ret (status_json 400 [("error", VStr "User not found")])
     | Some user =>
         let! match_ := bcrypt_compare_js password (get user.2 "password") in
         if negb match_ then
           ret (status_json 400 [("error", VStr "Wrong password")])
         else
           let! token := jwt_sign_js (token_payload user) in
           ret (json [("token", token); ("user", user_view user.2)])
     end)
    (fun err =>
       console_log [VStr "Login error:"; VStr err] ;;
       ret (status_json 500 [("error", VStr "Server error");
                             ("details", VStr err)])).

Definition allowed : list string := ["name"; "phone"; "address"; "bio"].

(** [for (const k of allowed) if (k in req.body) updates[k] = req.body[k]] *)
Definition profile_updates (body : doc) : list (string * value) :=
  omap (fun k => (fun v => (k, v)) <$> body !! k) allowed.

(** PUT /api/auth/profile, after the middleware *)
Definition update_profile (user body : doc) : M response :=
  try_catch
    (let updates := profile_updates body in
     let! found := findByIdAndUpdate Users (get user "id") updates in
     match found with
     | None => ret (status_json 404 [("error", VStr "User not found")])
     | Some u => ret (json [("user", user_view u.2)])
     end)
    (fun _ => ret (status_json 500 [("error", VStr "Server error")])).

(** POST /api/admin/seed; [seedKey] is [process.env.SEED_ADMIN_KEY]. *)
Definition seed_admin (seedKey : option string) (body : doc) : M response :=
  try_catch
    (match seedKey with
     | None => ret (status_json 403 [("error", VStr "Seeding disabled")])
     | Some seedKey =>
         if negb (truthy (VStr seedKey)) then
           ret (status_json 403 [("error", VStr "Seeding disabled")])
         else
           let key := get body "key" in
           let name := get body "name" in
           let email := get body "email" in
           let password := get body "password" in
           if negb (truthy key) || negb (is_str key seedKey) then
             ret (status_json 403 [("error", VStr "Invalid seed key")])
           else if negb (truthy email) || negb (truthy password) then
             ret (status_json 400
                    [("error", VStr "email and password required")])
           else
             let! exists_ := User_findOne_email email in
             match exists_ with
             | Some _ =>
                 ret (status_json 400 [("error", VStr "User already exists")])
             | None =>
                 let! hashed := bcrypt_hash_js password in
                 let! admin :=
                   Model_create Users
                     (obj [("name", name ||| VStr "Admin"); ("email", email);
                           ("password", hashed); ("role", VStr "admin")]) in
                 let! token :=
                   jwt_sign_js
                     (obj [("id", VOid admin.1); ("role", get admin.2 "role");
                           ("email", get admin.2 "email")]) in
                 ret (json [("message", VStr "Admin created");
                            ("token", token);
                            ("user",
                             VObj (obj [("name", get admin.2 "name");
                                        ("email", get admin.2 "email");
                                        ("role", get admin.2 "role")]))])
             end
     end)
    (fun _ => ret (status_json 500 [("error", VStr "Server error")])).

(** The admin's view of a lead: the name of its Business where there is
    one; a failing lookup is ignored. *)
Definition attach_business_name (ld : oid * doc) : M (oid * doc) :=
  if negb (truthy (get ld.2 "businessId")) then ret ld
  else
    try_catch
      (let! biz := findById_value Businesses (get ld.2 "businessId") in
       match biz with
       | Some b => ret (ld.1, set_field "businessName" (get b.2 "name") ld.2)
       | None => ret ld
       end)
      (fun _ => ret ld).

(** [Promise.all(allLeads.map(...))], one lookup after the other. *)
Fixpoint attach_all (l : list (oid * doc)) : M (list (oid * doc)) :=
  match l with
  | [] => ret []
  | ld :: rest =>
      let! ld' := attach_business_name ld in
      let! rest' := attach_all rest in
      ret (ld' :: rest')
  end.

(** GET /api/leads, after the middleware *)
Definition get_leads (user : doc) : M response :=
  try_catch
    (if is_str (get user "role") "admin" then
       let! allLeads := find_all Leads "timestamp" in
       let! withNames := attach_all allLeads in
       ret (json_docs withNames)
     else if is_str (get user "role") "business" then
       let businessId := get user "businessId" in
       if negb (truthy businessId) then ret (json_docs [])
       else
         let! leads := find_by Leads SObjectId "businessId" businessId
                               "timestamp" in
         ret (json_docs leads)
     else
       let! leads := find_by Leads SObjectId "submittedBy" (get user "id")
                             "timestamp" in
       ret (json_docs leads))
    (fun _ => ret (status_json 500 [("error", VStr "Server error")])).

Definition business_card : list string :=
  ["name"; "category"; "location"; "description"].

Definition product_card : list string :=
  ["name"; "sku"; "price"; "quantity"; "description"; "images"].

Definition select_all (ks : list string) (l : list (oid * doc))
  : list (oid * doc) :=
  (fun p => (p.1, select ks p.2)) <$> l.

(** GET /api/businesses *)
Definition list_businesses : M response :=
  try_catch
    (let! docs := find_all Businesses "createdAt" in
     ret (json_docs (select_all business_card docs)))
    (fun _ => ret (status_json 500 [("error", VStr "Server error")])).

(** GET /api/businesses/:id *)
Definition get_business (id : string) : M response :=
  try_catch
    (let! doc := findById Businesses id in
     match doc with
     | None => ret (status_json 404 [("error", VStr "Not found")])
     | Some b => ret (mkResponse 200 (doc_value (b.1, select business_card b.2)))
     end)
    (fun _ => ret (status_json 500 [("error", VStr "Server error")])).

(** GET /api/businesses/:id/products *)
Definition list_business_products (id : string) : M response :=
  try_catch
    (let! docs := find_by Products SObjectId "businessId" (VStr id)
                          "createdAt" in
     ret (json_docs (select_all product_card docs)))
    (fun err =>
       console_log [VStr "Listing products for business failed"; VStr err] ;;
       ret (status_json 500 [("error", VStr "Server error")])).

(** GET /api/business/products, after the middleware *)
Definition list_products (user : doc) : M response :=
  try_catch
    (if is_str (get user "role") "admin" then
       let! docs := find_all Products "createdAt" in
       ret (json_docs docs)
     else if is_str (get user "role") "business" then
       let bid := get user "businessId" in
       if negb (truthy bid) then ret (json_docs [])
       else
         let! docs := find_by Products SObjectId "businessId" bid
                              "createdAt" in
         ret (json_docs docs)
     else ret (status_json 403 [("error", VStr "Forbidden")]))
    (fun _ => ret (status_json 500 [("error", VStr "Server error")])).

(** GET /api/business/products/:id, after the middleware *)
Definition get_product (user : doc) (id : string) : M response :=
  try_catch
    (let! found := findById Products id in
     match found with
     | None => ret (status_json 404 [("error", VStr "Not found")])
     | Some p =>
         if is_str (get user "role") "admin"
         then ret (mkResponse 200 (doc_value p))
         else if is_str (get user "role") "business"
                 && String.eqb (ToString (get p.2 "businessId"))
                               (ToString (get user "businessId"))
         then ret (mkResponse 200 (doc_value p))
         else ret (status_json 403 [("error", VStr "Forbidden")])
     end)
    (fun _ => ret (status_json 500 [("error", VStr "Server error")])).

(** DELETE /api/business/products/:id, after the middleware *)
Definition delete_product (user : doc) (id : string) : M response :=
  try_catch
    (let! found := findById Products id in
     match found with
     | None => ret (status_json 404 [("error", VStr "Not found")])
     | Some p =>
         if negb (is_str (get user "role") "admin")
            && negb (String.eqb (ToString (get p.2 "businessId"))
                                (ToString (get user "businessId")))
         then ret (status_json 403 [("error", VStr "Forbidden")])
         else
           findByIdAndDelete Products id ;;
           ret (json [("message", VStr "Deleted")])
     end)
    (fun _ => ret (status_json 500 [("error", VStr "Server error")])).

(** GET /api/admin/businesses, after the middleware *)
Definition admin_list_businesses (user : doc) : M response :=
  try_catch
    (if negb (is_str (get user "role") "admin")
     then ret (status_json 403 [("error", VStr "Forbidden")])
     else
       let! docs := find_all Businesses "createdAt" in
       ret (json_docs docs))
    (fun _ => ret (status_json 500 [("error", VStr "Server error")])).

(** [{ role: 'business',
       $or: [ { businessId: { $exists: false } }, { businessId: null } ] }]
    on the User model of the server. *)
Definition without_business (u : doc) : bool :=
  mongo_eq (VStr "business") (u !! "role")
  && (mongo_exists false (u !! "businessId")
      || mongo_eq VNull (u !! "businessId")).

(** GET /api/admin/users-without-business, after the middleware *)
Definition users_without_business (user : doc) : M response :=
  try_catch
    (if negb (is_str (get user "role") "admin")
     then ret (status_json 403 [("error", VStr "Forbidden")])
     else
       let! found := find Users (fun _ u => without_business u) in
       let users := select_all ["name"; "email"; "createdAt"]
                      (sort_desc "createdAt" found) in
       ret (json_docs users))
    (fun err =>
       console_log [VStr "users-without-business error:"; VStr err] ;;
       ret (status_json 500 [("error", VStr "Server error");
                             ("details", VStr err)])).

(** PUT /api/admin/businesses/:id, after the middleware *)
Definition admin_update_business (user : doc) (id : string) (body : doc)
  : M response :=
  try_catch
    (if negb (is_str (get user "role") "admin")
     then ret (status_json 403 [("error", VStr "Forbidden")])
     else
       let updates :=
         [("name", get body "name"); ("category", get body "category");
          ("location", get body "location");
          ("description", get body "description")] in
       let! doc := findByIdAndUpdate Businesses (VStr id) updates in
       match doc with
       | None => ret (status_json 404 [("error", VStr "Not found")])
       | Some b => ret (mkResponse 200 (doc_value b))
       end)
    (fun _ => ret (status_json 500 [("error", VStr "Server error")])).

(** DELETE /api/admin/businesses/:id, after the middleware *)
Definition admin_delete_business (user : doc) (id : string) : M response :=
  try_catch
    (if negb (is_str (get user "role") "admin")
     then ret (status_json 403 [("error", VStr "Forbidden")])
     else
       let! doc := findByIdAndDelete Businesses id in
       match doc with
       | None => ret (status_json 404 [("error", VStr "Not found")])
       | Some _ =>
           updateOne_unset Users SObjectId "businessId" (VStr id)
                           ["businessId"] ;;
           ret (json [("message", VStr "Deleted")])
       end)
    (fun _ => ret (status_json 500 [("error", VStr "Server error")])).

End Routes.

(** ** [backend/scripts/seedAdmin.js] *)

Module SeedAdmin.
Section Script.
Context {rt : JsRuntime}.

(** The schema the script declares for its User model. *)
Definition userSchema : schema :=
  mkSchema
    [ plain "name" SString; plain "email" SString; plain "password" SString;
      plain "role" SString; plain "businessId" SObjectId ]
    false.

(** [User.create(input)] on the model of the script. *)
Definition User_create (input : doc) : M (oid * doc) :=
  let! id := new_ObjectId in
  match cast_fields (s_fields userSchema) input with
  | None => throw "ValidationError"
  | Some d =>
      let d := <["__v" := VNum (num_of_Z 0)]> d in
      insertOne Users id d ;;
      ret (id, d)
  end.

(** [run]; the result is the exit code of [process.exit]. *)
Definition run (email password name : value) : M nat :=
  connect ;;
  let! exists_ := User_findOne_email email in
  match exists_ with
  | Some _ =>
      console_log [VStr "User already exists:"; email] ;;
      disconnect ;;
      ret 0%nat
  | None =>
      let! hashed := bcrypt_hash_js password in
      let! admin :=
        User_create (obj [("name", name); ("email", email);
                          ("password", hashed); ("role", VStr "admin")]) in
      console_log
        [VStr "Created admin:";
         VObj (obj [("id", VStr (oid_hex admin.1));
                    ("email", get admin.2 "email")])] ;;
      disconnect ;;
      ret 0%nat
  end.

(** The script, on its constants [email], [password] and [name] (read
    from the environment or the command line): the check of the first
    two, then [run] with its [catch]. *)
Definition main (email password name : value) : M nat :=
  if negb (truthy email) || negb (truthy password) then
    console_log
      [VStr ("Usage: set SEED_ADMIN_EMAIL and SEED_ADMIN_PASS env vars, "
             +:+ "or run: node scripts/seedAdmin.js <email> <password> "
             +:+ "[name]")] ;;
    ret 1%nat
  else
    try_catch (run email password name)
      (fun err =>
         console_log [VStr "Failed to seed admin:"; VStr err] ;;
         ret 1%nat).

End Script.
End SeedAdmin.

(** ** The invariants of the linkage model *)

(** I1 on a user document: none of the business fields is on it. *)
Definition I1 (u : doc) : Prop :=
  u !! "category" = None /\ u !! "location" = None
  /\ u !! "description" = None.

(** I2 for a user: its [businessId] is an ObjectId, the Business of that
    id exists, and its [owner] is the user. *)
Definition I2 (s : store) (uid : oid) : Prop :=
  exists u bid b,
    users s !! uid = Some u
    /\ u !! "businessId" = Some (VOid bid)
    /\ businesses s !! bid = Some b
    /\ b !! "owner" = Some (VOid uid).

(** The role the specification gives a registration: customer exactly
    when the body says so. *)
Definition registered_role (body : doc) : string :=
  if is_str (get body "role") "customer" then "customer" else "business".

(** What registration stores for the user, before any link: the role of
    the specification, no [businessId], and I1. *)
Definition new_user (body : doc) (u : doc) : Prop :=
  u !! "role" = Some (VStr (registered_role body))
  /\ u !! "businessId" = None
  /\ I1 u.

(** What registration stores for the business of user [uid]. *)
Definition new_business (uid : oid) (b : doc) : Prop :=
  b !! "owner" = Some (VOid uid)
  /\ b !! "category" = Some (VStr "")
  /\ b !! "location" = Some (VStr "")
  /\ b !! "description" = Some (VStr "").

(** The [bid] of product creation: the token's [businessId] for a
    business caller, the body's for any other. *)
Definition product_owner (user body : doc) : value :=
  if is_str (get user "role") "business"
  then get user "businessId" else get body "businessId".

(** The first pair of an object literal under a key. *)
Definition assoc (k : string) (fields : list (string * value))
  : option value :=
  snd <$> List.find (fun p => String.eqb p.1 k) fields.

(** The document [Model.create] stores for cast fields [d0] at time [t]. *)
Definition created_doc (c : coll) (t : Z) (d0 : doc) : doc :=
  <["__v" := VNum (num_of_Z 0)]>
    (if s_timestamps (schema_of c)
     then <["createdAt" := VDate t]> (<["updatedAt" := VDate t]> d0)
     else d0).

(** The document [save] stores over [d]. *)
Definition saved_doc (c : coll) (t : Z) (assigned : list (string * value))
    (d : doc) : doc :=
  let d := foldl (fun acc kv => set_field kv.1 kv.2 acc) d assigned in
  if s_timestamps (schema_of c) then <["updatedAt" := VDate t]> d else d.

(** No Business has an [_id] the generator has yet to give out. *)
Definition fresh_ids (w : world) : Prop :=
  forall i, (next_id w <= i)%N -> businesses (db w) !! i = None.

(** ** A runtime for the examples

    Numbers print and parse as decimal integers; two tokens verify. *)

Fixpoint parse_decimal (s : string) (acc : Z) : jsnum :=
  match s with
  | EmptyString => num_of_Z acc
  | String c r =>
      let n := N_of_ascii c in
      if ((48 <=? n) && (n <=? 57))%N
      then parse_decimal r (acc * 10 + Z.of_N (n - 48))%Z
      else NaN
  end.

Definition example_business_token : doc :=
  {[ "id" := VStr "0000000000000000000000a1";
     "role" := VStr "business";
     "email" := VStr "owner@x.com";
     "businessId" := VStr "0000000000000000000000b1" ]}.

Definition example_customer_token : doc :=
  {[ "id" := VStr "0000000000000000000000a2";
     "role" := VStr "customer";
     "email" := VStr "c@x.com" ]}.

Definition example_runtime : JsRuntime := {|
  NumberToString n :=
    match n with
    | NaN => "NaN"
    | Infty false => "Infinity"
    | Infty true => "-Infinity"
    | Fin z d => pretty (Z.quot z (Z.pos d))
    end;
  StringToNumber s := parse_decimal s 0;
  DateToString t := pretty t;
  StringToDate s := None;
  bcrypt_hash s := "$2a$10$" +:+ s;
  jwt_verify t :=
    if String.eqb t "business-token" then Some example_business_token
    else if String.eqb t "customer-token" then Some example_customer_token
    else None;
  match_special q :=
    match q with
    | VUndef => Some (fun _ => true)
    | _ => None
    end;
  legacy_write_result := false
|}.

Definition empty_store : store := mkStore ∅ ∅ ∅ ∅.

Definition example_world (s : store) (fs : list bool) : world :=
  mkWorld s 256%N fs 1700000000000 [].

(** *** The other runtimes of the examples *)

Definition example_auth : AuthRuntime := {|
  bcrypt_compare s hash := String.eqb hash ("$2a$10$" +:+ s);
  jwt_sign t payload :=
    if is_str (get payload "role") "business" then "business-token"
    else if is_str (get payload "role") "customer" then "customer-token"
    else "other-token"
|}.

(** The time a document holds on a path, 0 when it holds none. *)
Definition date_of (k : string) (p : oid * doc) : Z :=
  match p.2 !! k with
  | Some (VDate t) => t
  | _ => 0
  end.

(** [p] is not older than [q]. *)
Definition newer (k : string) (p q : oid * doc) : Prop :=
  (date_of k q <= date_of k p)%Z.

Definition newer_dec (k : string) (p q : oid * doc)
  : Decision (newer k p q) :=
  decide (date_of k q <= date_of k p)%Z.

Definition example_order : StoreRuntime := {|
  sort_desc k l := @merge_sort _ (newer k) (newer_dec k) l;
  sort_desc_perm k l := @merge_sort_Permutation _ (newer k) (newer_dec k) l;
  omit_undefined := true
|}.

(** *** Example requests and stores *)

Definition empty_world : world := example_world empty_store [].

(** The registration of the specification's scenario. *)
Definition acme_request : doc :=
  obj [("name", VStr "Acme"); ("email", VStr "a@x.com");
       ("password", VStr "pw"); ("role", VStr "business");
       ("category", VStr "Food")].

(** A registration without a role. *)
Definition bob_request : doc :=
  obj [("name", VStr "Bob"); ("email", VStr "b@x.com");
       ("password", VStr "pw")].

Definition carol_request : doc :=
  obj [("name", VStr "Carol"); ("email", VStr "c@x.com");
       ("password", VStr "pw"); ("role", VStr "customer");
       ("category", VStr "Food")].

(** A lead without a phone, from the customer. *)
Definition lead_request : request :=
  mkRequest (Some "Bearer customer-token")
    (obj [("name", VStr "Carol"); ("message", VStr "Hello");
          ("businessId", VStr "0000000000000000000000b1")])
    "".

(** A product of business b2, and an update of it by the owner of b1. *)
Definition foreign_product : doc :=
  {[ "name" := VStr "Lamp"; "businessId" := VOid 178 ]}.

Definition product_world : world :=
  example_world (mkStore ∅ ∅ ∅ {[ 193%N := foreign_product ]}) [].

Definition update_request : request :=
  mkRequest (Some "Bearer business-token")
    (obj [("name", VStr "Mine now"); ("price", VNum (num_of_Z 1))])
    "0000000000000000000000c1".

(** A product created by the owner of b1 with b2 in the body. *)
Definition widget_request : request :=
  mkRequest (Some "Bearer business-token")
    (obj [("name", VStr "Widget"); ("price", VNum (num_of_Z 5));
          ("businessId", VStr "0000000000000000000000b2")])
    "".

(** Users from before the Business collection: two business users without
    [businessId], one of them with an empty name, and a customer. *)
Definition legacy_user : doc :=
  {[ "name" := VStr ""; "email" := VStr "a@x.com";
     "role" := VStr "business" ]}.

Definition shop_user : doc :=
  {[ "name" := VStr "Shop"; "email" := VStr "s@x.com";
     "role" := VStr "business"; "category" := VStr "Food" ]}.

Definition plain_customer : doc :=
  {[ "name" := VStr "Carol"; "role" := VStr "customer" ]}.

Definition legacy_store : store :=
  mkStore {[ 1%N := legacy_user; 2%N := shop_user; 3%N := plain_customer ]}
          ∅ ∅ ∅.

(** The third round trip to the store fails. *)
Definition legacy_world : world :=
  example_world legacy_store [false; false; true].

(** *** Example callers, requests and stores of the other routes *)

Definition example_admin_token : doc :=
  {[ "id" := VStr "0000000000000000000000a0";
     "role" := VStr "admin";
     "email" := VStr "root@x.com" ]}.

(** A lead with a phone, whose body names an email of its own. *)
Definition phone_lead : doc :=
  obj [("name", VStr "Carol"); ("phone", VStr "555");
       ("message", VStr "Hello"); ("email", VStr "other@x.com");
       ("businessId", VStr "0000000000000000000000b1")].

(** Two products, one of business b1 and one of business b2. *)
Definition own_product : doc :=
  {[ "name" := VStr "Chair"; "price" := VNum (num_of_Z 3);
     "businessId" := VOid 177;
     "createdAt" := VDate 1600000000000 ]}.

Definition shelf_world : world :=
  example_world
    (mkStore ∅ ∅ ∅ {[ 193%N := own_product; 194%N := foreign_product ]}) [].

(** Two leads, one for business b1 and one the customer submitted. *)
Definition shop_lead : doc :=
  {[ "phone" := VStr "1"; "businessId" := VOid 177;
     "submittedBy" := VOid 163; "timestamp" := VDate 1600000000000 ]}.

Definition carol_lead : doc :=
  {[ "phone" := VStr "2"; "businessId" := VOid 178;
     "submittedBy" := VOid 162; "timestamp" := VDate 1650000000000 ]}.

Definition lead_world : world :=
  example_world (mkStore ∅ ∅ {[ 209%N := shop_lead; 210%N := carol_lead ]} ∅)
                [].

(** A registered business user and the Business it owns. *)
Definition linked_user : doc :=
  {[ "name" := VStr "Bob"; "email" := VStr "b@x.com";
     "password" := VStr "$2a$10$pw"; "role" := VStr "business";
     "businessId" := VOid 257 ]}.

Definition linked_business : doc :=
  {[ "name" := VStr "Bob"; "owner" := VOid 256; "category" := VStr "";
     "createdAt" := VDate 1600000000000 ]}.

Definition linked_world : world :=
  mkWorld (mkStore {[ 256%N := linked_user ]} {[ 257%N := linked_business ]}
                   ∅ ∅)
          258%N [] 1700000000000 [].

(** A profile update that also names a role, from user 256. *)
Definition bob_token : doc :=
  {[ "id" := VStr "000000000000000000000100";
     "role" := VStr "business";
     "email" := VStr "b@x.com";
     "businessId" := VStr "000000000000000000000101" ]}.

Definition profile_request : doc :=
  obj [("bio", VStr "Hi"); ("role", VStr "admin")].

(** The admin's edit of Business 257, naming an owner too. *)
Definition business_edit : doc :=
  obj [("name", VStr "Bob and Sons"); ("owner", VOid 1)].

Definition seed_request : doc :=
  obj [("key", VStr "s3cret"); ("email", VStr "root@x.com");
       ("password", VStr "pw")].

(** The legacy users on a store that does not fail. *)
Definition steady_world : world := example_world legacy_store [].

(** U+00A0, the no-break space, in UTF-8. *)
Definition no_break_space : string :=
  String (ascii_of_N 194) (String (ascii_of_N 160) EmptyString).

(** * Properties *)

Section Properties.
Context {rt : JsRuntime}.

(** ** Objects and documents *)

Lemma lookup_obj (fields : list (string * value)) (k : string) :
  obj fields !! k = assoc k fields.
Proof.
  unfold obj, assoc. induction fields as [|[k' v] l IH]; [reflexivity|].
  cbn [list_to_map foldr List.find fst]. rewrite lookup_insert.
  destruct (String.eqb_spec k' k) as [->|Hne].
  - now rewrite decide_True.
  - now rewrite decide_False.
Qed.

Lemma get_obj (fields : list (string * value)) (k : string) :
  get (obj fields) k = default VUndef (assoc k fields).
Proof. unfold get. now rewrite lookup_obj. Qed.

Lemma lookup_set_field (k : string) (v : value) (d : doc) (k' : string) :
  set_field k v d !! k'
  = if String.eqb k k'
    then (if is_undef v then None else Some v)
    else d !! k'.
Proof.
  unfold set_field.
  destruct (String.eqb_spec k k') as [->|Hne].
  - destruct v; cbn [is_undef];
      first [apply lookup_delete_eq | apply lookup_insert_eq].
  - destruct v; first [now apply lookup_delete_ne | now apply lookup_insert_ne].
Qed.

(** What a path of a freshly cast document holds: the cast of the first
    schema field of that name, nothing for a path outside the schema. *)
Lemma cast_fields_lookup (fs : list field_spec) (input d : doc) (k : string) :
  cast_fields fs input = Some d ->
  d !! k
  = match List.find (fun f => String.eqb (f_name f) k) fs with
    | Some f =>
        match cast_field f input with
        | Some v => if is_undef v then None else Some v
        | None => None
        end
    | None => None
    end.
Proof.
  revert d. induction fs as [|f fs IH]; intros d; cbn [cast_fields List.find].
  - intros [= <-]. apply lookup_empty.
  - destruct (cast_field f input) as [v|] eqn:Hv; [|discriminate].
    destruct (cast_fields fs input) as [d'|]; [|discriminate].
    intros [= <-]. rewrite lookup_set_field.
    destruct (String.eqb (f_name f) k).
    + now rewrite Hv.
    + now apply IH.
Qed.

Lemma lookup_created_doc (c : coll) (t : Z) (d0 : doc) (k : string) :
  k <> "__v" -> k <> "createdAt" -> k <> "updatedAt" ->
  created_doc c t d0 !! k = d0 !! k.
Proof.
  intros H1 H2 H3. unfold created_doc.
  rewrite lookup_insert_ne by congruence.
  destruct (s_timestamps (schema_of c)); [|reflexivity].
  now rewrite !lookup_insert_ne by congruence.
Qed.

(** ** The store primitives *)

Lemma await_store_spec (w : world) :
  exists o fs,
    await_store w = (o, mkWorld (db w) (next_id w) fs (now w) (console w))
    /\ (head (faults w) <> Some true -> o = Ok tt).
Proof.
  unfold await_store. destruct w as [s n [|[|] fs] t cs]; cbn.
  - exists (Ok tt), []. now split.
  - exists (Throw "MongoError"), fs. split; [reflexivity|congruence].
  - exists (Ok tt), fs. now split.
Qed.

Lemma insertOne_spec (c : coll) (id : oid) (d : doc) (w : world) :
  match insertOne c id d w with
  | (Ok _, w') =>
      coll_get c (db w) !! id = None
      /\ db w' = coll_set c (<[id := d]> (coll_get c (db w))) (db w)
      /\ now w' = now w
  | (Throw _, w') => db w' = db w
  end.
Proof.
  unfold insertOne, bind.
  destruct (await_store_spec w) as ([[]|e] & fs & -> & _); [|reflexivity].
  unfold read, write, throw. cbn.
  destruct (coll_get c (db w) !! id); cbn; auto.
Qed.

Lemma Model_create_spec (c : coll) (input : doc) (w : world) :
  match Model_create c input w with
  | (Ok (id, d), w') =>
      coll_get c (db w) !! id = None
      /\ db w' = coll_set c (<[id := d]> (coll_get c (db w))) (db w)
      /\ exists d0,
           cast_fields (s_fields (schema_of c)) input = Some d0
           /\ d = created_doc c (now w) d0
  | (Throw _, w') => db w' = db w
  end.
Proof.
  unfold Model_create, bind at 1, new_ObjectId.
  destruct (cast_fields (s_fields (schema_of c)) input) as [d0|];
    [|reflexivity].
  unfold bind at 1, new_Date. cbn [db next_id faults now console].
  unfold bind at 1.
  match goal with |- context [insertOne c ?i ?d ?w0] =>
    pose proof (insertOne_spec c i d w0) as Hi;
    destruct (insertOne c i d w0) as [[[]|e] w1]
  end; cbn in Hi |- *; [|exact Hi].
  destruct Hi as (Hf & Hdb & _). repeat split; [exact Hf|exact Hdb|].
  exists d0. split; [reflexivity|].
  unfold created_doc. now destruct (s_timestamps (schema_of c)).
Qed.

(** ** The middleware *)

Lemma authenticateToken_passes (req : request) (user : doc)
    (next : doc -> M response) :
  authenticated req = Some user ->
  authenticateToken req next = next user.
Proof.
  unfold authenticated, authenticateToken, js_and.
  destruct (authorization req) as [h|]; [|discriminate].
  destruct (split_space h !! 1%nat) as [t|]; [|discriminate].
  cbn [from_option truthy].
  destruct (String.eqb h ""); cbn [negb andb]; [discriminate|].
  destruct (String.eqb t "") eqn:Ht; cbn [negb]; [discriminate|].
  cbn [truthy]. rewrite Ht. now intros ->.
Qed.

Lemma authenticateToken_blocks (req : request) (next : doc -> M response)
    (w : world) :
  authenticated req = None ->
  exists r, authenticateToken req next w = (Ok r, w)
            /\ (status r = 401 \/ status r = 403)%nat.
Proof.
  unfold authenticated, authenticateToken, js_and.
  destruct (authorization req) as [h|].
  2: { intros _. eexists; split; [reflexivity|now left]. }
  destruct (split_space h !! 1%nat) as [t|]; cbn [from_option truthy].
  - destruct (String.eqb h "") eqn:Hh; cbn [negb andb].
    + intros _. cbn [truthy]. rewrite Hh.
      eexists; split; [reflexivity|now left].
    + destruct (String.eqb t "") eqn:Ht; cbn [negb truthy]; rewrite Ht.
      * intros _. eexists; split; [reflexivity|now left].
      * intros ->. eexists; split; [reflexivity|now right].
  - intros _. destruct (String.eqb h "") eqn:Hh; cbn [negb truthy].
    + rewrite Hh. eexists; split; [reflexivity|now left].
    + eexists; split; [reflexivity|now left].
Qed.

(** ** Lead submission *)

Lemma post_leads_falsy_phone (user body : doc) (w : world) :
  truthy (get body "phone") = false ->
  post_leads user body w
  = (Ok (status_json 400 [("error", VStr "phone and email are required")]), w).
Proof.
  intros Hp. unfold post_leads, try_catch. now rewrite Hp.
Qed.

(** C9. An authenticated lead submission whose body has no [phone] is
    answered 400 with the message that phone and email are required, and
    the world is the one before the request: no Lead is inserted, the
    store is unchanged. *)
Theorem lead_without_phone_rejected (req : request) (user : doc) (w : world) :
  authenticated req = Some user ->
  body req !! "phone" = None ->
  exists r w',
    route_post_leads req w = (Ok r, w')
    /\ status r = 400%nat
    /\ payload r = VObj (obj [("error", VStr "phone and email are required")])
    /\ leads (db w') = leads (db w)
    /\ db w' = db w.
Proof.
  intros Ha Hp. unfold route_post_leads.
  rewrite (authenticateToken_passes _ _ _ Ha).
  rewrite post_leads_falsy_phone by (unfold get; now rewrite Hp).
  eexists _, w. repeat split; reflexivity.
Qed.

(** ** Product update *)

Lemma is_str_false (v : value) (s : string) :
  v <> VStr s -> is_str v s = false.
Proof.
  intros Hv. destruct v; try reflexivity. simpl.
  destruct (String.eqb_spec s0 s); [subst; contradiction|reflexivity].
Qed.

Lemma is_str_true (v : value) (s : string) :
  is_str v s = true <-> v = VStr s.
Proof.
  split.
  - destruct v; try discriminate. simpl.
    intros Hs%String.eqb_eq. now subst.
  - intros ->. simpl. apply String.eqb_refl.
Qed.

(** C8. A product update by an authenticated caller who is not admin and
    whose [businessId], as a string, differs from that of the product the
    request names (the product is found, the lookup does not fail) is
    answered 403 Forbidden, and the store is unchanged. *)
Theorem update_foreign_product_forbidden (req : request) (user : doc)
    (o : oid) (p : doc) (w : world) :
  authenticated req = Some user ->
  get user "role" <> VStr "admin" ->
  parse_oid (param_id req) = Some o ->
  products (db w) !! o = Some p ->
  head (faults w) <> Some true ->
  ToString (get p "businessId") <> ToString (get user "businessId") ->
  exists w',
    route_update_product req w
    = (Ok (status_json 403 [("error", VStr "Forbidden")]), w')
    /\ db w' = db w
    /\ products (db w') !! o = Some p.
Proof.
  intros Ha Hrole Hid Hp Hf Hne.
  unfold route_update_product. rewrite (authenticateToken_passes _ _ _ Ha).
  unfold update_product, findById. rewrite Hid.
  apply is_str_false in Hrole.
  apply String.eqb_neq in Hne.
  unfold try_catch, bind, await_store, read, ret.
  destruct (faults w) as [|[|] fs] eqn:Hfs; simpl in Hf; try congruence;
    cbn [coll_get db]; rewrite Hp; cbn [fmap option_fmap option_map snd fst];
    rewrite Hrole, Hne; cbn [negb andb];
    eexists; (split; [reflexivity|split; [reflexivity|exact Hp]]).
Qed.

Lemma find_spec (c : coll) (filter : oid -> doc -> bool) (w : world) :
  match find c filter w with
  | (Ok l, w') =>
      l = List.filter (fun p => filter p.1 p.2)
                      (map_to_list (coll_get c (db w)))
      /\ db w' = db w
  | (Throw _, w') => db w' = db w
  end.
Proof.
  unfold find, bind.
  destruct (await_store_spec w) as ([[]|e] & fs & -> & _); [|reflexivity].
  unfold read, ret. cbn. now split.
Qed.

Lemma updateOne_by_id_spec (c : coll) (id : oid) (update : doc -> doc)
    (w : world) :
  match updateOne_by_id c id update w with
  | (Ok n, w') =>
      (coll_get c (db w) !! id = None /\ db w' = db w /\ n = 0%nat)
      \/ (exists d,
            coll_get c (db w) !! id = Some d
            /\ db w' = coll_set c (<[id := update d]> (coll_get c (db w)))
                                (db w)
            /\ n = 1%nat)
  | (Throw _, w') => db w' = db w
  end.
Proof.
  unfold updateOne_by_id, bind.
  destruct (await_store_spec w) as ([[]|e] & fs & -> & _); [|reflexivity].
  unfold read, write, ret. cbn.
  destruct (coll_get c (db w) !! id) as [d|] eqn:Hd; cbn.
  - right. exists d. now repeat split.
  - left. now repeat split.
Qed.

Lemma doc_save_spec (c : coll) (id : oid) (assigned : list (string * value))
    (w : world) :
  match doc_save c id assigned w with
  | (Ok _, w') =>
      exists d,
        coll_get c (db w) !! id = Some d
        /\ db w' = coll_set c
                     (<[id := saved_doc c (now w) assigned d]>
                        (coll_get c (db w)))
                     (db w)
  | (Throw _, w') => db w' = db w
  end.
Proof.
  unfold doc_save, bind.
  destruct (await_store_spec w) as ([[]|e] & fs & -> & _); [|reflexivity].
  unfold read, write, throw, new_Date. cbn.
  destruct (coll_get c (db w) !! id) as [d|] eqn:Hd; cbn; [|reflexivity].
  exists d. split; [reflexivity|]. unfold saved_doc.
  now destruct (s_timestamps (schema_of c)).
Qed.

Lemma Loose_create_spec (c : coll) (input : doc) (w : world) :
  match Loose_create c input w with
  | (Ok (id, d), w') =>
      coll_get c (db w) !! id = None
      /\ db w' = coll_set c (<[id := d]> (coll_get c (db w))) (db w)
      /\ d = <["__v" := VNum (num_of_Z 0)]>
               (filter (fun kv => is_undef kv.2 = false) input)
  | (Throw _, w') => db w' = db w
  end.
Proof.
  unfold Loose_create, bind at 1, new_ObjectId.
  unfold bind at 1.
  match goal with |- context [insertOne c ?i ?d ?w0] =>
    pose proof (insertOne_spec c i d w0) as Hi;
    destruct (insertOne c i d w0) as [[[]|e] w1]
  end; cbn in Hi |- *; [|exact Hi].
  destruct Hi as (Hf & Hdb & _). now repeat split.
Qed.

Lemma coll_get_set (c : coll) (m : gmap oid doc) (s : store) :
  coll_get c (coll_set c m s) = m.
Proof. now destruct c. Qed.

Lemma coll_set_set (c : coll) (m m' : gmap oid doc) (s : store) :
  coll_set c m' (coll_set c m s) = coll_set c m' s.
Proof. now destruct c. Qed.

(** ** Registration *)

(** The role the handler computes is the one the specification names. *)
Lemma register_role_normalised (body : doc) :
  let role := get body "role" ||| VStr "business" in
  (if negb (is_str role "business") && negb (is_str role "customer")
   then VStr "business" else role)
  = VStr (registered_role body).
Proof.
  unfold registered_role, js_or. cbv zeta.
  destruct (is_str (get body "role") "customer") eqn:Hc.
  - apply is_str_true in Hc. rewrite Hc. reflexivity.
  - destruct (truthy (get body "role")) eqn:Ht.
    + rewrite Hc. destruct (is_str (get body "role") "business") eqn:Hb.
      * now apply is_str_true in Hb.
      * reflexivity.
    + reflexivity.
Qed.

Lemma get_delete_ne (d : doc) (k k' : string) :
  k <> k' -> get (delete k d) k' = get d k'.
Proof. intros Hne. unfold get. now rewrite lookup_delete_ne. Qed.

Lemma get_delete_eq (d : doc) (k : string) : get (delete k d) k = VUndef.
Proof. unfold get. now rewrite lookup_delete_eq. Qed.

Lemma registered_role_cases (body : doc) :
  (registered_role body = "customer" /\ is_str (get body "role") "customer" = true)
  \/ (registered_role body = "business" /\ is_str (get body "role") "customer" = false).
Proof.
  unfold registered_role. destruct (is_str (get body "role") "customer"); auto.
Qed.

Lemma User_findOne_email_db (email : value) (w : world) :
  db (User_findOne_email email w).2 = db w.
Proof.
  unfold User_findOne_email. destruct (email_filter email) as [f|]; [|reflexivity].
  unfold bind.
  pose proof (find_spec Users (fun _ d => f d) w) as Hf.
  destruct (find Users (fun _ d => f d) w) as [[l|e] w1]; cbn; tauto.
Qed.

Lemma bcrypt_hash_js_cases (password : value) (w : world) :
  (exists e, bcrypt_hash_js password w = (Throw e, w))
  \/ (exists h, bcrypt_hash_js password w = (Ok h, w)).
Proof. destruct password; cbn; eauto. Qed.

Lemma registered_role_enum (body : doc) :
  existsb (String.eqb (registered_role body)) ["admin"; "business"; "customer"]
  = true.
Proof. unfold registered_role. now destruct (is_str _ _). Qed.

Lemma registered_user_doc (body : doc) (name email h : value) (d0 : doc) (t : Z) :
  cast_fields (s_fields userSchema)
    (obj [("name", name); ("email", email); ("password", h);
          ("role", VStr (registered_role body))]) = Some d0 ->
  new_user body (created_doc Users t d0).
Proof.
  intros Hcast. unfold new_user, I1.
  rewrite !lookup_created_doc by discriminate.
  rewrite !(cast_fields_lookup _ _ _ _ Hcast).
  cbn [List.find userSchema s_fields f_name plain String.eqb Ascii.eqb Bool.eqb].
  unfold cast_field. rewrite !get_obj.
  cbn -[registered_role existsb].
  rewrite registered_role_enum. auto.
Qed.

Lemma registered_business_doc (name : value) (uid : oid) (b0 : doc) (t : Z) :
  cast_fields (s_fields businessSchema)
    (obj [("name", name); ("owner", VOid uid); ("category", VStr "");
          ("location", VStr ""); ("description", VStr "")]) = Some b0 ->
  new_business uid (created_doc Businesses t b0).
Proof.
  intros Hcast. unfold new_business.
  rewrite !lookup_created_doc by discriminate.
  rewrite !(cast_fields_lookup _ _ _ _ Hcast).
  cbn [List.find businessSchema s_fields f_name plain String.eqb Ascii.eqb Bool.eqb].
  unfold cast_field. rewrite !get_obj.
  cbn. auto.
Qed.

Lemma unset_I1 (u : doc) : I1 u -> unset business_fields u = u.
Proof.
  intros (Hc & Hl & Hd). cbn.
  rewrite (delete_id _ "description") by exact Hd.
  rewrite (delete_id _ "location") by exact Hl.
  now apply delete_id.
Qed.

Lemma register_spec (body : doc) (w : world) :
  exists r w',
    register body w = (Ok r, w')
    /\ ((status r <> 200%nat /\ db w' = db w)
        \/ exists uid u,
             users (db w) !! uid = None /\ new_user body u
             /\ ((status r = 500%nat /\ registered_role body = "business"
                  /\ db w' = coll_set Users (<[uid := u]> (users (db w))) (db w))
                 \/ (registered_role body = "customer"
                     /\ r = json [("message", VStr "User registered");
                                  ("userId", VOid uid)]
                     /\ db w' = coll_set Users (<[uid := u]> (users (db w)))
                                         (db w))
                 \/ exists bid b,
                      businesses (db w) !! bid = None /\ new_business uid b
                      /\ registered_role body = "business"
                      /\ ((status r = 500%nat
                           /\ db w' = mkStore (<[uid := u]> (users (db w)))
                                              (<[bid := b]> (businesses (db w)))
                                              (leads (db w)) (products (db w)))
                          \/ (r = json [("message", VStr "Business registered");
                                        ("businessId", VOid bid)]
                              /\ db w' = mkStore
                                   (<[uid := <["businessId" := VOid bid]> u]>
                                      (users (db w)))
                                   (<[bid := b]> (businesses (db w)))
                                   (leads (db w)) (products (db w)))))).
Proof.
  unfold register. cbv zeta.
  repeat first [rewrite get_delete_eq | rewrite get_delete_ne by discriminate].
  pose proof (register_role_normalised body) as Hrole. cbv zeta in Hrole.
  rewrite !Hrole. clear Hrole.
  change (VUndef ||| VStr "") with (VStr "").
  unfold try_catch at 1. unfold bind at 1.
  pose proof (User_findOne_email_db (get body "email") w) as H1.
  destruct (User_findOne_email (get body "email") w) as [[found|e] w1];
    cbn [snd] in H1.
  2: { eexists _, _. split; [reflexivity|]. left. split; [discriminate|exact H1]. }
  destruct found as [found|].
  { eexists _, _. split; [reflexivity|]. left. split; [discriminate|exact H1]. }
  unfold bind at 1.
  destruct (bcrypt_hash_js_cases (get body "password") w1)
    as [(e & ->)|(h & ->)].
  { eexists _, _. split; [reflexivity|]. left. split; [discriminate|exact H1]. }
  unfold bind at 1.
  match goal with |- context [Model_create Users ?i w1] =>
    pose proof (Model_create_spec Users i w1) as H2;
    destruct (Model_create Users i w1) as [[[uid u]|e] w2]
  end.
  2: { eexists _, _. split; [reflexivity|]. left. split; [discriminate|].
       cbn. congruence. }
  destruct H2 as (Hfresh & Hdb2 & d0 & Hcast & Hu).
  apply (registered_user_doc _ _ _ _ _ (now w1)) in Hcast. rewrite <- Hu in Hcast.
  clear Hu d0. cbn [fst] in *. rewrite H1 in Hfresh, Hdb2. cbn [coll_get] in Hfresh, Hdb2.
  clear H1 w1.
  destruct (registered_role_cases body) as [[Hr Hc]|[Hr Hc]]; rewrite Hr;
    cbn [is_str String.eqb Ascii.eqb Bool.eqb].
  - (* customer *)
    assert (Hsame : forall w3, db w3 = db w2 \/
              (exists d, coll_get Users (db w2) !! uid = Some d
                 /\ db w3 = coll_set Users
                      (<[uid := unset business_fields d]> (coll_get Users (db w2)))
                      (db w2)) ->
              db w3 = coll_set Users (<[uid := u]> (users (db w))) (db w)).
    { intros w3 [->|(d & Hd & ->)]; [exact Hdb2|].
      rewrite Hdb2, coll_get_set in Hd |- *. rewrite lookup_insert_eq in Hd.
      injection Hd as <-. rewrite coll_set_set, insert_insert_eq.
      now rewrite (unset_I1 u) by apply Hcast. }
    unfold bind at 1. unfold try_catch at 1. unfold bind at 1.
    pose proof (updateOne_by_id_spec Users uid (unset business_fields) w2) as H3.
    destruct (updateOne_by_id Users uid (unset business_fields) w2)
      as [[n|e] w3];
      (eexists _, _; split; [reflexivity|]; right; exists uid, u;
       split; [exact Hfresh|]; split; [exact Hcast|]; right; left;
       split; [reflexivity|]; split; [reflexivity|]; apply Hsame).
    + destruct H3 as [(_ & ? & _)|(d & ? & ? & _)]; eauto.
    + now left.
  - (* business *)
    unfold bind at 1.
    match goal with |- context [Model_create Businesses ?i w2] =>
      pose proof (Model_create_spec Businesses i w2) as H3;
      destruct (Model_create Businesses i w2) as [[[bid b]|e] w3]
    end.
    2: { eexists _, _. split; [reflexivity|]. right. exists uid, u.
         split; [exact Hfresh|]. split; [exact Hcast|]. left.
         split; [reflexivity|]. split; [reflexivity|].
         cbn [bind console_log ret db snd]. now rewrite H3. }
    destruct H3 as (Hfreshb & Hdb3 & b0 & Hcastb & Hb).
    apply (registered_business_doc _ _ _ (now w2)) in Hcastb.
    rewrite <- Hb in Hcastb. clear Hb b0. cbn [fst] in *.
    assert (Hdb3' : db w3 = mkStore (<[uid := u]> (users (db w)))
                                   (<[bid := b]> (businesses (db w)))
                                   (leads (db w)) (products (db w))).
    { rewrite Hdb3, Hdb2. reflexivity. }
    rewrite Hdb2 in Hfreshb. cbn in Hfreshb. clear Hdb3 Hdb2 w2.
    unfold bind at 1.
    pose proof (doc_save_spec Users uid [("businessId", VOid bid)] w3) as H4.
    destruct (doc_save Users uid [("businessId", VOid bid)] w3)
      as [[[]|e] w4];
      (eexists _, _; split; [reflexivity|]; right; exists uid, u;
       split; [exact Hfresh|]; split; [exact Hcast|]; right; right;
       exists bid, b; split; [exact Hfreshb|]; split; [exact Hcastb|];
       split; [reflexivity|]).
    + right. split; [reflexivity|]. cbn [ret snd].
      destruct H4 as (d & Hd & ->). rewrite Hdb3' in Hd |- *.
      cbn [coll_get coll_set users businesses leads products] in Hd |- *.
      rewrite lookup_insert_eq in Hd. injection Hd as <-.
      now rewrite insert_insert_eq.
    + left. split; [reflexivity|].
      cbn [bind console_log ret db snd]. now rewrite H4.
Qed.

Lemma I2_linked (us bs ls ps : gmap oid doc) (uid bid : oid) (u b : doc) :
  new_business uid b ->
  I2 (mkStore (<[uid := <["businessId" := VOid bid]> u]> us)
              (<[bid := b]> bs) ls ps) uid.
Proof.
  intros (Ho & _). exists (<["businessId" := VOid bid]> u), bid, b.
  cbn [users businesses]. rewrite !lookup_insert_eq. now repeat split.
Qed.

(** On every path, the users after a registration are those before it or
    those with one more user, of the role of the specification. *)
Lemma register_users (body : doc) (w w' : world) (r : response) :
  register body w = (Ok r, w') ->
  users (db w') = users (db w)
  \/ exists uid u,
       users (db w) !! uid = None
       /\ users (db w') = <[uid := u]> (users (db w))
       /\ u !! "role" = Some (VStr (registered_role body))
       /\ I1 u
       /\ (registered_role body = "customer" -> u !! "businessId" = None).
Proof.
  intros Hreg. destruct (register_spec body w) as (r0 & w0 & Heq & Hcases).
  rewrite Hreg in Heq. injection Heq as <- <-.
  destruct Hcases as [(_ & ->)|(uid & u & Hfresh & (Hrole & Hbid & HI1) & Hcases)];
    [now left|].
  right. exists uid.
  destruct Hcases as [(_ & _ & ->)|[(_ & _ & ->)|(bid & b & _ & _ & Hb & Hcases)]].
  - exists u. cbn [coll_set users]. auto.
  - exists u. cbn [coll_set users]. auto.
  - destruct Hcases as [(_ & ->)|(_ & ->)]; cbn [users].
    + exists u. auto.
    + exists (<["businessId" := VOid bid]> u).
      destruct HI1 as (? & ? & ?). unfold I1.
      rewrite !lookup_insert_ne by discriminate.
      repeat split; auto. rewrite Hb. discriminate.
Qed.

(** C2. When a registration as a business succeeds, a user of role
    business has been added, and I2 holds for it in the store after the
    request: its [businessId] is an ObjectId, the Business of that id
    exists and its [owner] is the user's id. *)
Theorem register_business_links (body : doc) (w w' : world) (r : response) :
  register body w = (Ok r, w') ->
  status r = 200%nat ->
  registered_role body = "business" ->
  exists uid u,
    users (db w) !! uid = None
    /\ users (db w') !! uid = Some u
    /\ u !! "role" = Some (VStr "business")
    /\ I2 (db w') uid.
Proof.
  intros Hreg Hok Hrole.
  destruct (register_spec body w) as (r0 & w0 & Heq & Hcases).
  rewrite Hreg in Heq. injection Heq as <- <-.
  destruct Hcases as [(Hne & _)|(uid & u & Hfresh & (Hur & _) & Hcases)];
    [contradiction|].
  rewrite Hrole in Hur.
  destruct Hcases as [(H5 & _)|[(Hc & _)|(bid & b & _ & Hb & _ & Hcases)]];
    [congruence|congruence|].
  destruct Hcases as [(H5 & _)|(_ & Hdb)]; [congruence|].
  exists uid, (<["businessId" := VOid bid]> u). rewrite Hdb.
  split; [exact Hfresh|]. split; [apply lookup_insert_eq|].
  split; [now rewrite lookup_insert_ne by discriminate|].
  now apply I2_linked.
Qed.

(** C5. A registration whose body has role "customer" creates no Business
    on any path, and every user it persists has no [businessId] and none
    of [category], [location], [description] (I1); when it succeeds it has
    persisted exactly one such user, the one its response names. *)
Theorem register_customer_clean (body : doc) (w w' : world) (r : response) :
  get body "role" = VStr "customer" ->
  register body w = (Ok r, w') ->
  businesses (db w') = businesses (db w)
  /\ (forall uid u,
        users (db w) !! uid = None -> users (db w') !! uid = Some u ->
        u !! "role" = Some (VStr "customer")
        /\ u !! "businessId" = None /\ I1 u)
  /\ (status r = 200%nat ->
      exists uid u,
        users (db w) !! uid = None
        /\ users (db w') = <[uid := u]> (users (db w))
        /\ r = json [("message", VStr "User registered");
                     ("userId", VOid uid)]).
Proof.
  intros Hbody Hreg.
  assert (Hrole : registered_role body = "customer").
  { unfold registered_role. now rewrite Hbody. }
  destruct (register_spec body w) as (r0 & w0 & Heq & Hcases).
  rewrite Hreg in Heq. injection Heq as <- <-.
  destruct Hcases as [(Hne & Hdb)|(uid & u & Hfresh & (Hur & Hbid & HI1) & Hcases)].
  - rewrite Hdb. split; [reflexivity|]. split; [|contradiction].
    intros uid u Hn Hs. congruence.
  - rewrite Hrole in Hur.
    destruct Hcases as [(_ & Hb & _)|[(_ & -> & Hdb)|(bid & b & _ & _ & Hb & _)]];
      [congruence| |congruence].
    rewrite Hdb. cbn [coll_set users businesses].
    split; [reflexivity|]. split.
    + intros uid' u' Hn Hs.
      destruct (decide (uid = uid')) as [<-|Hne].
      * rewrite lookup_insert_eq in Hs. injection Hs as <-. auto.
      * rewrite lookup_insert_ne in Hs by exact Hne. congruence.
    + intros _. exists uid, u. auto.
Qed.

(** C6. Every user a registration persists has role "customer" when the
    body's role is the string "customer" and role "business" in every
    other case; and a registration that succeeds has persisted one user,
    for which, when its role is "business", a Business that was not there
    before now exists, with the user as [owner] and referenced by the
    user's [businessId]. *)
Theorem register_role_and_link (body : doc) (w w' : world) (r : response) :
  register body w = (Ok r, w') ->
  (forall uid u,
     users (db w) !! uid = None -> users (db w') !! uid = Some u ->
     u !! "role"
     = Some (VStr (if is_str (get body "role") "customer"
                   then "customer" else "business")))
  /\ (status r = 200%nat ->
      exists uid u,
        users (db w) !! uid = None
        /\ users (db w') = <[uid := u]> (users (db w))
        /\ (u !! "role" = Some (VStr "business") ->
            exists bid b,
              businesses (db w) !! bid = None
              /\ businesses (db w') = <[bid := b]> (businesses (db w))
              /\ b !! "owner" = Some (VOid uid)
              /\ u !! "businessId" = Some (VOid bid))).
Proof.
  intros Hreg. split.
  - intros uid u Hn Hs.
    destruct (register_users _ _ _ _ Hreg) as [Heq|(uid' & u' & _ & Heq & Hr & _)].
    + congruence.
    + rewrite Heq in Hs. destruct (decide (uid' = uid)) as [<-|Hne].
      * rewrite lookup_insert_eq in Hs. injection Hs as <-. exact Hr.
      * rewrite lookup_insert_ne in Hs by exact Hne. congruence.
  - intros Hok.
    destruct (register_spec body w) as (r0 & w0 & Heq & Hcases).
    rewrite Hreg in Heq. injection Heq as <- <-.
    destruct Hcases as [(Hne & _)|(uid & u & Hfresh & (Hur & Hbid & _) & Hcases)];
      [contradiction|].
    exists uid.
    destruct Hcases as [(H5 & _)|[(Hc & _ & ->)|(bid & b & Hfb & Hb & _ & Hcases)]];
      [congruence| |].
    + exists u. cbn [coll_set users]. split; [exact Hfresh|].
      split; [reflexivity|]. rewrite Hur, Hc. discriminate.
    + destruct Hcases as [(H5 & _)|(_ & ->)]; [congruence|].
      exists (<["businessId" := VOid bid]> u). cbn [users businesses].
      split; [exact Hfresh|]. split; [reflexivity|].
      intros _. exists bid, b. destruct Hb as (Ho & _).
      rewrite lookup_insert_eq. auto.
Qed.

(** The Business a successful registration creates has the empty string
    as [category], [location] and [description], whatever the body held. *)
Lemma register_business_fields_blank (body : doc) (w w' : world)
    (r : response) :
  register body w = (Ok r, w') ->
  status r = 200%nat ->
  registered_role body = "business" ->
  exists bid b,
    businesses (db w) !! bid = None
    /\ businesses (db w') = <[bid := b]> (businesses (db w))
    /\ b !! "category" = Some (VStr "")
    /\ b !! "location" = Some (VStr "")
    /\ b !! "description" = Some (VStr "").
Proof.
  intros Hreg Hok Hrole.
  destruct (register_spec body w) as (r0 & w0 & Heq & Hcases).
  rewrite Hreg in Heq. injection Heq as <- <-.
  destruct Hcases as [(Hne & _)|(uid & u & _ & _ & Hcases)]; [contradiction|].
  destruct Hcases as [(H5 & _)|[(Hc & _)|(bid & b & Hfb & Hb & _ & Hcases)]];
    [congruence|congruence|].
  destruct Hcases as [(H5 & _)|(_ & ->)]; [congruence|].
  exists bid, b. destruct Hb as (_ & ? & ? & ?). cbn [businesses]. auto.
Qed.

(** ** Product creation *)

Lemma cast_fields_field_ok (fs : list field_spec) (input d : doc)
    (k : string) (f : field_spec) :
  cast_fields fs input = Some d ->
  List.find (fun f => String.eqb (f_name f) k) fs = Some f ->
  is_Some (cast_field f input).
Proof.
  revert d. induction fs as [|g fs IH]; intros d; cbn [cast_fields List.find];
    [discriminate|].
  destruct (cast_field g input) as [v|] eqn:Hv; [|discriminate].
  destruct (cast_fields fs input) as [d'|]; [|discriminate].
  intros _. destruct (String.eqb (f_name g) k).
  - intros [= <-]. rewrite Hv. eauto.
  - now apply (IH d').
Qed.

Lemma cast_ObjectId_is_oid (v v' : value) :
  cast_ObjectId v = Some v' -> exists o, v' = VOid o.
Proof.
  unfold cast_ObjectId.
  assert (Hp : forall s, VOid <$> parse_oid s = Some v' -> exists o, v' = VOid o).
  { intros s. destruct (parse_oid s); cbn; intros [= <-]; eauto. }
  destruct v; try apply Hp.
  - intros [= <-]. eauto.
  - destruct (fields !! "_id") as [[]|]; try apply Hp.
    intros [= <-]. eauto.
Qed.

Lemma cast_field_ObjectId_truthy (k : string) (input : doc) (v : value) :
  truthy v = true ->
  get input k = v ->
  cast_field (plain k SObjectId) input = cast_ObjectId v.
Proof.
  intros Ht Hg. unfold cast_field. cbn [f_name f_type f_default f_enum plain].
  rewrite Hg. unfold enum_ok. cbn [f_enum].
  destruct v; try discriminate Ht; cbn [cast default];
    now destruct (cast_ObjectId _).
Qed.

Lemma create_product_spec (user body : doc) (w : world) :
  exists r w',
    create_product user body w = (Ok r, w')
    /\ ((status r <> 200%nat /\ db w' = db w)
        \/ (is_str (get user "role") "business"
            || is_str (get user "role") "admin" = true
            /\ exists pid p o,
                 products (db w) !! pid = None
                 /\ db w' = coll_set Products
                              (<[pid := p]> (products (db w))) (db w)
                 /\ cast_ObjectId (product_owner user body) = Some (VOid o)
                 /\ p !! "businessId" = Some (VOid o)
                 /\ r = json [("product", doc_value (pid, p))])).
Proof.
  unfold create_product. cbv zeta. fold (product_owner user body).
  unfold try_catch.
  destruct (negb (bool_decide (size (product_errors _ _ _) = 0%nat))).
  { eexists _, _. split; [reflexivity|]. left. now split. }
  destruct (truthy (product_owner user body)) eqn:Hbid; cbn [negb].
  2: { eexists _, _. split; [reflexivity|]. left. now split. }
  destruct (is_str (get user "role") "business"
            || is_str (get user "role") "admin") eqn:Hrole.
  2: { eexists _, _. split; [reflexivity|]. left. now split. }
  unfold bind at 1.
  match goal with |- context [Model_create Products ?i w] =>
    pose proof (Model_create_spec Products i w) as Hc;
    destruct (Model_create Products i w) as [[[pid p]|e] w1]
  end.
  2: { eexists _, _. split; [reflexivity|]. left.
       split; [discriminate|]. cbn [bind console_log ret db snd].
       exact Hc. }
  eexists _, _. split; [reflexivity|]. right. split; [reflexivity|].
  destruct Hc as (Hfresh & Hdb & d0 & Hcast & Hp).
  pose proof (cast_fields_lookup _ _ _ "businessId" Hcast) as Hl.
  destruct (cast_fields_field_ok _ _ _ "businessId"
              (plain "businessId" SObjectId) Hcast eq_refl) as [v Hv].
  cbn [List.find schema_of productSchema s_fields f_name plain
       String.eqb Ascii.eqb Bool.eqb] in Hl.
  rewrite Hv in Hl.
  rewrite (cast_field_ObjectId_truthy _ _ _ Hbid) in Hv
    by (rewrite get_obj; reflexivity).
  destruct (cast_ObjectId_is_oid _ _ Hv) as [o ->]. cbn [is_undef] in Hl.
  exists pid, p, o. cbn [coll_get] in *.
  split; [exact Hfresh|]. split; [exact Hdb|]. split; [exact Hv|].
  split; [|reflexivity].
  rewrite Hp, lookup_created_doc by discriminate. exact Hl.
Qed.

Lemma get_insert_ne (d : doc) (k k' : string) (x : value) :
  k <> k' -> get (<[k := x]> d) k' = get d k'.
Proof. intros Hne. unfold get. now rewrite lookup_insert_ne. Qed.

Lemma create_product_ignores_body_business (user body : doc) (x : value) :
  get user "role" = VStr "business" ->
  create_product user (<["businessId" := x]> body) = create_product user body.
Proof.
  intros Hrole. unfold create_product. cbv zeta. rewrite Hrole.
  cbn [is_str String.eqb Ascii.eqb Bool.eqb orb].
  now rewrite !get_insert_ne by discriminate.
Qed.

(** C10. Behind the middleware, product creation answers 200 only to a
    caller of role business or admin. For a business caller the outcome
    does not depend on the [businessId] of the body, and the product
    created carries the ObjectId the token's [businessId] casts to. The
    [businessId] of the body is the product's only for an admin caller;
    for any other role nothing is created. *)
Theorem create_product_scoped_to_caller (req : request) (user : doc)
    (w : world) :
  authenticated req = Some user ->
  (get user "role" = VStr "business" ->
   (forall x,
      route_create_product
        (mkRequest (authorization req) (<["businessId" := x]> (body req))
                   (param_id req)) w
      = route_create_product req w)
   /\ (forall r w',
         route_create_product req w = (Ok r, w') ->
         status r = 200%nat ->
         exists pid p o,
           products (db w) !! pid = None
           /\ products (db w') = <[pid := p]> (products (db w))
           /\ cast_ObjectId (get user "businessId") = Some (VOid o)
           /\ p !! "businessId" = Some (VOid o)
           /\ payload r = VObj (obj [("product", doc_value (pid, p))])))
  /\ (get user "role" = VStr "admin" ->
      forall r w',
        route_create_product req w = (Ok r, w') ->
        status r = 200%nat ->
        exists pid p o,
          products (db w) !! pid = None
          /\ products (db w') = <[pid := p]> (products (db w))
          /\ cast_ObjectId (get (body req) "businessId") = Some (VOid o)
          /\ p !! "businessId" = Some (VOid o))
  /\ (get user "role" <> VStr "business" ->
      get user "role" <> VStr "admin" ->
      forall r w',
        route_create_product req w = (Ok r, w') ->
        status r <> 200%nat /\ db w' = db w).
Proof.
  intros Ha. unfold route_create_product.
  rewrite (authenticateToken_passes _ _ _ Ha).
  destruct (create_product_spec user (body req) w) as (r0 & w0 & Heq & Hcases).
  rewrite Heq. split; [|split].
  - intros Hrole. split.
    + intros x.
      rewrite (authenticateToken_passes
                 (mkRequest (authorization req) _ (param_id req)) user)
        by exact Ha.
      cbn [body]. rewrite create_product_ignores_body_business by exact Hrole.
      exact Heq.
    + intros r w' [= <- <-] Hok.
      destruct Hcases as [(Hne & _)|(_ & pid & p & o & Hf & -> & Hc & Hp & ->)];
        [contradiction|].
      unfold product_owner in Hc. rewrite Hrole in Hc. cbn in Hc.
      exists pid, p, o. now repeat split.
  - intros Hrole r w' [= <- <-] Hok.
    destruct Hcases as [(Hne & _)|(_ & pid & p & o & Hf & -> & Hc & Hp & ->)];
      [contradiction|].
    unfold product_owner in Hc. rewrite Hrole in Hc. cbn in Hc.
    exists pid, p, o. now repeat split.
  - intros Hb Hadm r w' [= <- <-].
    apply is_str_false in Hb, Hadm.
    destruct Hcases as [Hsame|(Hrole & _)]; [exact Hsame|].
    rewrite Hb, Hadm in Hrole. discriminate.
Qed.

(** ** The cleanup runner *)

Lemma updateMany_unset_spec (c : coll) (f : doc -> bool) (ks : list string)
    (w : world) :
  match updateMany_unset c f ks w with
  | (Ok counts, w') =>
      counts.1 = length (List.filter (fun p => f p.2)
                                     (map_to_list (coll_get c (db w))))
      /\ (counts.2 <= counts.1)%nat
      /\ db w' = coll_set c ((fun d => if f d then unset ks d else d)
                               <$> coll_get c (db w)) (db w)
  | (Throw _, w') => db w' = db w
  end.
Proof.
  unfold updateMany_unset, bind.
  destruct (await_store_spec w) as ([[]|e] & fs & -> & _); [|reflexivity].
  unfold read, write, ret. cbn [db fst snd].
  split; [reflexivity|]. split; [|reflexivity].
  apply List.filter_length_le.
Qed.

Lemma has_business_field_I1 (u : doc) :
  Cleanup.has_business_field u = false <-> I1 u.
Proof.
  unfold Cleanup.has_business_field, mongo_exists, I1.
  rewrite !orb_false_iff.
  destruct (u !! "category"), (u !! "location"), (u !! "description");
    cbn; intuition (congruence || eauto).
Qed.

Lemma scrub_I1 (u : doc) : I1 (Cleanup.scrub u).
Proof.
  unfold Cleanup.scrub.
  destruct (Cleanup.has_business_field u) eqn:Hf.
  - unfold I1. cbn [unset business_fields foldr].
    rewrite lookup_delete_eq.
    rewrite (lookup_delete_ne _ "category" "location") by discriminate.
    rewrite lookup_delete_eq.
    rewrite !(lookup_delete_ne _ _ "description") by discriminate.
    now rewrite lookup_delete_eq.
  - now apply has_business_field_I1.
Qed.

Lemma scrub_clean (u : doc) :
  Cleanup.has_business_field u = false -> Cleanup.scrub u = u.
Proof. intros Hf. unfold Cleanup.scrub. now rewrite Hf. Qed.

Lemma filter_none {A} (f : A -> bool) (l : list A) :
  (forall x, x ∈ l -> f x = false) -> List.filter f l = [].
Proof.
  induction l as [|x l IH]; intros Hall; [reflexivity|]. cbn.
  rewrite (Hall x) by apply list_elem_of_here.
  apply IH. intros y Hy. apply Hall. now apply list_elem_of_further.
Qed.

Lemma coll_set_same (c : coll) (s : store) : coll_set c (coll_get c s) s = s.
Proof. now destruct c, s. Qed.

Lemma cleanup_run_spec (w : world) :
  match Cleanup.run w with
  | (Ok counts, w') =>
      counts.1 = length (List.filter (fun p => Cleanup.has_business_field p.2)
                                     (map_to_list (users (db w))))
      /\ (counts.2 <= counts.1)%nat
      /\ db w' = coll_set Users (Cleanup.scrub <$> users (db w)) (db w)
  | (Throw _, w') =>
      db w' = db w
      \/ db w' = coll_set Users (Cleanup.scrub <$> users (db w)) (db w)
  end.
Proof.
  unfold Cleanup.run, connect, disconnect. unfold bind at 1.
  destruct (await_store_spec w) as ([[]|e] & fs & -> & _); [|now left].
  unfold bind at 1. cbn [console_log db next_id faults now console].
  unfold bind at 1.
  match goal with |- context [updateMany_unset Users ?f ?ks ?w0] =>
    pose proof (updateMany_unset_spec Users f ks w0) as Hu;
    destruct (updateMany_unset Users f ks w0) as [[counts|e] w1]
  end; cbn [db coll_get] in Hu; [|now left].
  destruct Hu as (Hm & Hk & Hdb).
  unfold bind at 1. cbn [console_log db next_id faults now console].
  unfold bind at 1.
  match goal with |- context [await_store ?w0] =>
    destruct (await_store_spec w0) as ([[]|e] & fs' & -> & _)
  end; cbn [db]; [|now right].
  cbn. auto.
Qed.

Lemma cleanup_run_no_fault (w : world) :
  faults w = [] -> exists counts w', Cleanup.run w = (Ok counts, w').
Proof.
  intros Hf. destruct w as [s n fs t cs]. cbn in Hf. subst fs.
  unfold Cleanup.run, connect, disconnect, updateMany_unset, bind,
    await_store, console_log, read, write, ret.
  cbn [faults db next_id now console fst snd]. eauto.
Qed.

(** C4. When a cleanup run completes, every user that had one of
    [category], [location], [description] has lost all three and the other
    users are as they were, so no user is left with any of them; a second
    run on that store that completes has matched 0 documents (and modified
    0) and leaves the store as it is, and without store failures it does
    complete. *)
Theorem cleanup_second_run_matches_nothing (w w1 : world) (c1 : nat * nat) :
  Cleanup.run w = (Ok c1, w1) ->
  users (db w1) = Cleanup.scrub <$> users (db w)
  /\ (forall uid u, users (db w1) !! uid = Some u -> I1 u)
  /\ forall w1',
       db w1' = db w1 ->
       (forall c2 w2,
          Cleanup.run w1' = (Ok c2, w2) -> c2 = (0, 0)%nat /\ db w2 = db w1)
       /\ (faults w1' = [] ->
           exists w2, Cleanup.run w1' = (Ok (0, 0)%nat, w2)).
Proof.
  intros Hrun. pose proof (cleanup_run_spec w) as H1. rewrite Hrun in H1.
  destruct H1 as (_ & _ & Hdb).
  assert (Hus : users (db w1) = Cleanup.scrub <$> users (db w))
    by now rewrite Hdb.
  assert (Hclean : forall uid u, users (db w1) !! uid = Some u -> I1 u).
  { intros uid u. rewrite Hus, lookup_fmap.
    destruct (users (db w) !! uid) as [d|]; [|discriminate].
    intros [= <-]. apply scrub_I1. }
  split; [exact Hus|]. split; [exact Hclean|].
  intros w1' Hsame.
  assert (Hsecond : forall c2 w2,
            Cleanup.run w1' = (Ok c2, w2) -> c2 = (0, 0)%nat /\ db w2 = db w1).
  { intros c2 w2 Hrun2. pose proof (cleanup_run_spec w1') as H2.
    rewrite Hrun2, Hsame in H2. destruct H2 as (Hm & Hk & Hdb2).
    rewrite filter_none in Hm.
    2: { intros [uid u] Hin%elem_of_map_to_list.
         apply has_business_field_I1. eapply Hclean, Hin. }
    cbn [length] in Hm. split.
    - destruct c2 as [m k]. cbn [fst snd] in *. f_equal; lia.
    - rewrite Hdb2.
      replace (Cleanup.scrub <$> users (db w1)) with (users (db w1));
        [apply (coll_set_same Users)|].
      apply map_eq. intros uid.
      rewrite lookup_fmap. destruct (users (db w1) !! uid) as [u|] eqn:Hu;
        [|reflexivity].
      cbn. f_equal. symmetry. apply scrub_clean, has_business_field_I1.
      eapply Hclean, Hu. }
  split; [exact Hsecond|].
  intros Hnf. destruct (cleanup_run_no_fault _ Hnf) as (c2 & w2 & Hrun2).
  exists w2. rewrite Hrun2. f_equal. f_equal. now apply (Hsecond c2 w2).
Qed.

(** ** The migration runner *)

Lemma js_or_str_defined (a : value) (s : string) :
  is_undef (a ||| VStr s) = false.
Proof.
  unfold js_or. destruct (truthy a) eqn:Ha; [|reflexivity].
  now destruct a.
Qed.

Lemma js_or_chain (a b c : value) :
  a ||| b ||| c = if truthy a then a else if truthy b then b else c.
Proof.
  unfold js_or. destruct (truthy a) eqn:Ha; [now rewrite Ha|reflexivity].
Qed.

Lemma business_of_synthesized (u : oid * doc) (c1 c2 : value) :
  Migrate.synthesized u
    (<["__v" := VNum (num_of_Z 0)]>
       (filter (fun kv => is_undef kv.2 = false) (Migrate.business_of u c1 c2))).
Proof.
  unfold Migrate.synthesized. rewrite <- js_or_chain.
  fold (js_or (get u.2 "category") (VStr "")).
  fold (js_or (get u.2 "location") (VStr "")).
  fold (js_or (get u.2 "description") (VStr "")).
  rewrite !lookup_insert_ne by discriminate.
  repeat split; apply map_lookup_filter_Some;
    (split; [unfold Migrate.business_of; now rewrite lookup_obj|]);
    cbn [snd]; first [apply js_or_str_defined | reflexivity].
Qed.

Lemma migrated_refl (l : list (oid * doc)) (s : store) : Migrate.migrated l s s.
Proof.
  unfold Migrate.migrated. repeat split; auto.
  intros bid b Hn Hs. congruence.
Qed.

Lemma migrated_weaken (l l' : list (oid * doc)) (s s' : store) :
  (forall u, u ∈ l -> u ∈ l') ->
  Migrate.migrated l s s' -> Migrate.migrated l' s s'.
Proof.
  intros Hsub (Hl & Hp & Hkeep & Hnew & Hus). unfold Migrate.migrated.
  repeat split; auto.
  - intros bid b Hn Hs. destruct (Hnew bid b Hn Hs) as (u & Hu & Hsyn). eauto.
  - intros uid. destruct (Hus uid) as [Heq|(u & d & bid & b & Hu & Hrest)];
      [now left|].
    right. exists u, d, bid, b. split; [now apply Hsub|exact Hrest].
Qed.

Lemma migrated_trans (l : list (oid * doc)) (s1 s2 s3 : store) :
  Migrate.migrated l s1 s2 -> Migrate.migrated l s2 s3 ->
  Migrate.migrated l s1 s3.
Proof.
  intros (Hl1 & Hp1 & Hkeep1 & Hnew1 & Hus1) (Hl2 & Hp2 & Hkeep2 & Hnew2 & Hus2).
  unfold Migrate.migrated. repeat split.
  - congruence.
  - congruence.
  - auto.
  - intros bid b Hn Hs. destruct (businesses s2 !! bid) as [b2|] eqn:H2.
    + apply Hkeep2 in H2 as H3. rewrite Hs in H3. injection H3 as ->.
      now apply (Hnew1 bid).
    + now apply (Hnew2 bid).
  - intros uid.
    destruct (Hus1 uid) as [Heq1|(u1 & d1 & bid1 & b1 & Hu1 & Hd1 & Hd1' & Hb1 & Ho1)];
    destruct (Hus2 uid) as [Heq2|(u2 & d2 & bid2 & b2 & Hu2 & Hd2 & Hd2' & Hb2 & Ho2)].
    + left. congruence.
    + right. exists u2, d2, bid2, b2. rewrite <- Heq1. now repeat split.
    + right. exists u1, d1, bid1, b1. rewrite Heq2.
      repeat split; auto.
    + right. exists u2, d1, bid2, b2. rewrite Hd1' in Hd2. injection Hd2 as <-.
      rewrite insert_insert_eq in Hd2'. now repeat split.
Qed.

Lemma migrate_user_migrated (u : oid * doc) (w : world) :
  exists w',
    Migrate.migrate_user u w = (Ok tt, w')
    /\ Migrate.migrated [u] (db w) (db w').
Proof.
  unfold Migrate.migrate_user, try_catch.
  unfold bind at 1. cbn [new_Date]. unfold bind at 1. cbn [new_Date].
  unfold bind at 1.
  match goal with |- context [Loose_create Businesses ?i w] =>
    pose proof (Loose_create_spec Businesses i w) as Hc;
    destruct (Loose_create Businesses i w) as [[[bid b]|e] w1]
  end.
  2: { eexists. split; [reflexivity|]. cbn [console_log db].
       rewrite Hc. apply migrated_refl. }
  destruct Hc as (Hfresh & Hdb1 & Hb). cbn [coll_get] in Hfresh, Hdb1.
  assert (Hsyn : Migrate.synthesized u b).
  { rewrite Hb. apply business_of_synthesized. }
  assert (Hstep : Migrate.migrated [u] (db w) (db w1)).
  { rewrite Hdb1. unfold Migrate.migrated.
    cbn [coll_set users businesses leads products]. repeat split; auto.
    - intros bid' b' Hs. rewrite lookup_insert_ne; [exact Hs|congruence].
    - intros bid' b' Hn Hs. exists u. split; [apply list_elem_of_here|].
      destruct (decide (bid = bid')) as [<-|Hne].
      + rewrite lookup_insert_eq in Hs. now injection Hs as <-.
      + rewrite lookup_insert_ne in Hs by exact Hne. congruence. }
  cbn [fst]. unfold bind at 1.
  match goal with |- context [updateOne_by_id Users ?i ?f w1] =>
    pose proof (updateOne_by_id_spec Users i f w1) as Hu;
    destruct (updateOne_by_id Users i f w1) as [[n|e] w2]
  end.
  2: { eexists. split; [reflexivity|]. cbn [console_log db].
       now rewrite Hu. }
  eexists. split; [reflexivity|]. cbn [console_log db].
  destruct Hu as [(_ & -> & _)|(d & Hd & Hdb2 & _)]; [exact Hstep|].
  apply (migrated_trans _ _ (db w1)); [exact Hstep|].
  rewrite Hdb2. unfold Migrate.migrated.
  cbn [coll_get coll_set users businesses leads products] in Hd |- *.
  repeat split; auto.
  - intros bid' b' Hn Hs. congruence.
  - intros uid. destruct (decide (u.1 = uid)) as [<-|Hne].
    + right. exists u.2, d, bid, b. rewrite lookup_insert_eq.
      split; [destruct u; apply list_elem_of_here|].
      split; [exact Hd|]. split; [reflexivity|].
      rewrite Hdb1. cbn [coll_set businesses]. rewrite lookup_insert_eq.
      split; [reflexivity|apply Hsyn].
    + left. now rewrite lookup_insert_ne.
Qed.

Lemma for_each_migrated (l : list (oid * doc)) (w : world) :
  exists w',
    Migrate.for_each l w = (Ok tt, w')
    /\ Migrate.migrated l (db w) (db w').
Proof.
  revert w. induction l as [|u l IH]; intros w.
  - exists w. split; [reflexivity|apply migrated_refl].
  - cbn [Migrate.for_each]. unfold bind.
    destruct (migrate_user_migrated u w) as (w1 & -> & H1).
    destruct (IH w1) as (w2 & -> & H2).
    exists w2. split; [reflexivity|].
    apply (migrated_trans _ _ (db w1)).
    + eapply migrated_weaken; [|exact H1].
      intros x ->%list_elem_of_singleton. apply list_elem_of_here.
    + eapply migrated_weaken; [|exact H2].
      intros x Hx. now apply list_elem_of_further.
Qed.

(** The candidates a run finds in a store. *)
Lemma elem_of_candidates (s : store) (uid : oid) (u : doc) :
  (uid, u) ∈ List.filter (fun p => Migrate.candidate p.2)
                         (map_to_list (users s))
  <-> users s !! uid = Some u /\ Migrate.candidate u = true.
Proof.
  rewrite list_elem_of_In, filter_In, <- list_elem_of_In, elem_of_map_to_list.
  reflexivity.
Qed.

Lemma migrate_run_spec (w w' : world) (r : outcome nat) :
  Migrate.run w = (r, w') ->
  let l := List.filter (fun p => Migrate.candidate p.2)
                       (map_to_list (users (db w))) in
  Migrate.migrated l (db w) (db w')
  /\ (l = [] -> db w' = db w)
  /\ (forall n, r = Ok n -> n = length l).
Proof.
  unfold Migrate.run, connect, disconnect. unfold bind at 1.
  destruct (await_store_spec w) as ([[]|e] & fs & -> & _).
  2: { intros [= <- <-]. cbn [db]. split; [apply migrated_refl|].
       split; [reflexivity|discriminate]. }
  unfold bind at 1.
  match goal with |- context [find Users ?f ?w0] =>
    pose proof (find_spec Users f w0) as Hf;
    destruct (find Users f w0) as [[l|e] w1]
  end; cbn [db coll_get fst snd] in Hf.
  2: { intros [= <- <-]. rewrite Hf. split; [apply migrated_refl|].
       split; [reflexivity|discriminate]. }
  destruct Hf as (-> & Hdb1).
  unfold bind at 1. cbn [console_log]. unfold bind at 1.
  match goal with |- context [Migrate.for_each ?l ?w0] =>
    destruct (for_each_migrated l w0) as (w2 & -> & Hm)
  end.
  cbn [db] in Hm. rewrite Hdb1 in Hm.
  assert (Hnil : List.filter (fun p => Migrate.candidate p.2)
                   (map_to_list (users (db w))) = [] -> db w2 = db w).
  { intros Hl. rewrite Hl in *.
    destruct Hm as (Hl' & Hp & Hkeep & Hnew & Hus).
    assert (Hu : users (db w2) = users (db w)).
    { apply map_eq. intros uid.
      destruct (Hus uid) as [Heq|(u & d & bid & b & Hin & _)]; [exact Heq|].
      now apply elem_of_nil in Hin. }
    assert (Hb : businesses (db w2) = businesses (db w)).
    { apply map_eq. intros bid.
      destruct (businesses (db w) !! bid) as [b|] eqn:Hb; [now apply Hkeep|].
      destruct (businesses (db w2) !! bid) as [b|] eqn:Hb2; [|reflexivity].
      destruct (Hnew bid b Hb Hb2) as (u & Hin & _).
      now apply elem_of_nil in Hin. }
    destruct (db w2), (db w). cbn in *. congruence. }
  unfold bind at 1.
  match goal with |- context [await_store ?w0] =>
    destruct (await_store_spec w0) as ([[]|e] & fs' & -> & _)
  end; cbn [db bind console_log ret]; intros [= <- <-]; cbn [db];
    (split; [exact Hm|]; split; [exact Hnil|]).
  - now intros n [= <-].
  - discriminate.
Qed.

Lemma candidate_linked (d : doc) (bid : oid) :
  Migrate.candidate (<["businessId" := VOid bid]> d) = false.
Proof.
  unfold Migrate.candidate. rewrite lookup_insert_eq.
  apply andb_false_r.
Qed.

(** What one run does, whatever fails on the way. *)
Lemma migrate_run_effect (w w' : world) (r : outcome nat) :
  Migrate.run w = (r, w') ->
  (forall uid u, users (db w) !! uid = Some u -> Migrate.candidate u = false ->
                 users (db w') !! uid = Some u)
  /\ (forall uid u, users (db w') !! uid = Some u ->
                    Migrate.candidate u = true ->
                    users (db w) !! uid = Some u)
  /\ (forall uid u, users (db w) !! uid = Some u ->
                    Migrate.candidate u = true ->
                    users (db w') !! uid = Some u \/ I2 (db w') uid)
  /\ (forall bid b, businesses (db w) !! bid = None ->
                    businesses (db w') !! bid = Some b ->
                    exists uid u,
                      users (db w) !! uid = Some u
                      /\ Migrate.candidate u = true
                      /\ Migrate.synthesized (uid, u) b)
  /\ ((forall uid u, users (db w) !! uid = Some u ->
                     Migrate.candidate u = false) ->
      db w' = db w /\ forall n, r = Ok n -> n = 0%nat).
Proof.
  intros Hrun. destruct (migrate_run_spec _ _ _ Hrun) as (Hm & Hnil & Hn).
  destruct Hm as (_ & _ & Hkeep & Hnew & Hus).
  split; [|split; [|split; [|split]]].
  - intros uid u Hu Hc.
    destruct (Hus uid) as [Heq|(u0 & d & bid & b & Hin & Hd & _)];
      [congruence|].
    apply elem_of_candidates in Hin as (Hu0 & Hc0). congruence.
  - intros uid u Hu Hc.
    destruct (Hus uid) as [Heq|(u0 & d & bid & b & _ & _ & Hd' & _)];
      [congruence|].
    rewrite Hu in Hd'. injection Hd' as ->.
    now rewrite candidate_linked in Hc.
  - intros uid u Hu Hc.
    destruct (Hus uid) as [Heq|(u0 & d & bid & b & _ & _ & Hd' & Hb & Ho)];
      [left; congruence|].
    right. exists (<["businessId" := VOid bid]> d), bid, b.
    rewrite lookup_insert_eq. auto.
  - intros bid b Hnone Hsome.
    destruct (Hnew bid b Hnone Hsome) as ([uid u] & Hin & Hsyn).
    apply elem_of_candidates in Hin as (Hu & Hc). eauto.
  - intros Hzero.
    assert (Hl : List.filter (fun p => Migrate.candidate p.2)
                   (map_to_list (users (db w))) = []).
    { apply filter_none. intros [uid u] Hin%elem_of_map_to_list.
      now apply (Hzero uid). }
    split; [now apply Hnil|].
    intros n Hr. rewrite (Hn n Hr), Hl. reflexivity.
Qed.

Lemma migrate_run_zero_completes (w : world) :
  faults w = [] ->
  (forall uid u, users (db w) !! uid = Some u -> Migrate.candidate u = false) ->
  exists w', Migrate.run w = (Ok 0%nat, w').
Proof.
  intros Hf Hzero.
  assert (Hl : List.filter (fun p => Migrate.candidate p.2)
                 (map_to_list (users (db w))) = []).
  { apply filter_none. intros [uid u] Hin%elem_of_map_to_list.
    now apply (Hzero uid). }
  destruct w as [s n fs t cs]. cbn [faults db] in Hf, Hl. subst fs.
  unfold Migrate.run, connect, disconnect, find, bind, await_store,
    console_log, read, ret.
  cbn [faults db next_id now console coll_get fst snd]. rewrite Hl.
  cbn [Migrate.for_each ret length faults]. eauto.
Qed.

(** C3. The candidates of a run are found in the store as it is when the
    run starts: a run on a store without candidates leaves it as it is and
    finds 0. After a first run, whatever failed in it, a second run on
    the resulting store: has as candidates only first-run candidates whose
    document the first run left as it was (the others are linked, I2);
    leaves every user that is not a candidate untouched; creates a
    Business only for a user that still is a candidate; and when no user
    is a candidate any more it leaves the store, so the Businesses, as
    they are, and finds 0 candidates (it does complete when the store
    does not fail). *)
Theorem migration_rerun_only_unlinked (w w1 w1' w2 : world)
    (r1 r2 : outcome nat) :
  Migrate.run w = (r1, w1) ->
  db w1' = db w1 ->
  Migrate.run w1' = (r2, w2) ->
  ((forall uid u, users (db w) !! uid = Some u ->
                  Migrate.candidate u = false) ->
   db w1 = db w /\ forall n, r1 = Ok n -> n = 0%nat)
  /\ (forall uid u, users (db w1) !! uid = Some u ->
                    Migrate.candidate u = true ->
                    users (db w) !! uid = Some u)
  /\ (forall uid u, users (db w) !! uid = Some u ->
                    Migrate.candidate u = true ->
                    users (db w1) !! uid = Some u \/ I2 (db w1) uid)
  /\ (forall uid u, users (db w1) !! uid = Some u ->
                    Migrate.candidate u = false ->
                    users (db w2) !! uid = Some u)
  /\ (forall bid b, businesses (db w1) !! bid = None ->
                    businesses (db w2) !! bid = Some b ->
                    exists uid u,
                      users (db w1) !! uid = Some u
                      /\ Migrate.candidate u = true
                      /\ b !! "owner" = Some (VOid uid))
  /\ ((forall uid u, users (db w1) !! uid = Some u ->
                     Migrate.candidate u = false) ->
      db w2 = db w1
      /\ businesses (db w2) = businesses (db w1)
      /\ (forall n, r2 = Ok n -> n = 0%nat)
      /\ (faults w1' = [] -> r2 = Ok 0%nat)).
Proof.
  intros Hrun1 Hsame Hrun2.
  destruct (migrate_run_effect _ _ _ Hrun1) as (_ & Hsub & Hlink & _ & Hzero1).
  destruct (migrate_run_effect _ _ _ Hrun2) as (Hkeep & _ & _ & Hnew & Hzero).
  pose proof (migrate_run_zero_completes w1') as Hdone.
  rewrite Hsame in Hkeep, Hnew, Hzero, Hdone.
  split; [exact Hzero1|].
  split; [exact Hsub|]. split; [exact Hlink|]. split; [exact Hkeep|].
  split.
  - intros bid b Hn Hs. destruct (Hnew bid b Hn Hs) as (uid & u & Hu & Hc & Hsyn).
    exists uid, u. split; [exact Hu|]. split; [exact Hc|]. apply Hsyn.
  - intros Hnone. destruct (Hzero Hnone) as (Hdb & Hn).
    split; [exact Hdb|]. split; [now rewrite Hdb|]. split; [exact Hn|].
    intros Hf. destruct (Hdone Hf Hnone) as (w2' & Hrun2').
    rewrite Hrun2 in Hrun2'. now injection Hrun2' as -> _.
Qed.

(** C7 (amended). Every Business a run creates is synthesized from a
    candidate user of the store the run started on: its [owner] is that
    user, its [name] is the user's [name] when that is truthy, else the
    user's [email] when that is truthy, else "Unnamed Business", and each
    of [category], [location], [description] is the user's when truthy
    and the empty string otherwise. *)
Theorem migrate_synthesizes_business (w w' : world) (r : outcome nat)
    (bid : oid) (b : doc) :
  Migrate.run w = (r, w') ->
  businesses (db w) !! bid = None ->
  businesses (db w') !! bid = Some b ->
  exists uid u,
    users (db w) !! uid = Some u
    /\ Migrate.candidate u = true
    /\ Migrate.synthesized (uid, u) b.
Proof.
  intros Hrun Hn Hs.
  destruct (migrate_run_effect _ _ _ Hrun) as (_ & _ & _ & Hnew & _).
  now apply (Hnew bid).
Qed.

End Properties.

(** * Properties of the other routes and of the scripts *)

Section MoreProperties.
Context {rt : JsRuntime} {auth : AuthRuntime} {sr : StoreRuntime}.

(** ** The middleware, on every request *)

(** X1. The middleware answers a request without an Authorization header
    401 and leaves the world as it is; on any request it either answers
    401 or 403 with the world unchanged, or is the handler run on the
    payload [jwt.verify] returned for the second space-separated part of
    the header. *)
Theorem authenticateToken_gate (req : request) (next : doc -> M response)
    (w : world) :
  (authorization req = None ->
   authenticateToken req next w
   = (Ok (status_json 401 [("error", VStr "Token missing")]), w))
  /\ ((exists r, authenticateToken req next w = (Ok r, w)
                 /\ (status r = 401 \/ status r = 403)%nat)
      \/ (exists h t user,
            authorization req = Some h
            /\ split_space h !! 1%nat = Some t
            /\ t <> ""
            /\ jwt_verify t = Some user
            /\ authenticateToken req next w = next user w)).
Proof.
  split.
  - intros Hn. unfold authenticateToken. now rewrite Hn.
  - destruct (authenticated req) as [user|] eqn:Ha.
    + right. pose proof Ha as Ha'. unfold authenticated in Ha'.
      destruct (authorization req) as [h|]; [|discriminate].
      destruct (split_space h !! 1%nat) as [t|] eqn:Ht; [|discriminate].
      destruct (truthy (VStr h)); [|discriminate]. cbn [andb] in Ha'.
      destruct (truthy (VStr t)) eqn:Htt; [|discriminate].
      exists h, t, user. repeat split; auto.
      * intros ->. discriminate.
      * now rewrite (authenticateToken_passes _ _ _ Ha).
    + left. now apply authenticateToken_blocks.
Qed.

(** ** Lists and the first document a filter finds *)

Lemma head_filter_is_Some {A} (f : A -> bool) (l : list A) (x : A) :
  x ∈ l -> f x = true -> is_Some (head (List.filter f l)).
Proof.
  intros Hin Hf.
  assert (Hx : x ∈ List.filter f l).
  { apply list_elem_of_In, filter_In. split; [now apply list_elem_of_In|exact Hf]. }
  destruct (List.filter f l); [now apply elem_of_nil in Hx|eauto].
Qed.

Lemma head_filter_Some {A} (f : A -> bool) (l : list A) (x : A) :
  head (List.filter f l) = Some x -> x ∈ l /\ f x = true.
Proof.
  intros Hh.
  assert (Hx : x ∈ List.filter f l).
  { destruct (List.filter f l); [discriminate|].
    injection Hh as ->. apply list_elem_of_here. }
  apply list_elem_of_In, filter_In in Hx as [Hin Hf].
  split; [now apply list_elem_of_In|exact Hf].
Qed.

Lemma head_filter_None {A} (f : A -> bool) (l : list A) (x : A) :
  head (List.filter f l) = None -> x ∈ l -> f x = false.
Proof.
  intros Hh Hin. destruct (f x) eqn:Hf; [|reflexivity].
  destruct (head_filter_is_Some f l x Hin Hf) as [y Hy]. congruence.
Qed.

Lemma await_store_ok (w : world) :
  head (faults w) <> Some true ->
  exists w', await_store w = (Ok tt, w') /\ db w' = db w /\ now w' = now w
             /\ (faults w = [] -> w' = w).
Proof.
  unfold await_store. destruct w as [s n [|[|] fs] t cs]; cbn.
  - intros _. eexists. repeat split.
  - congruence.
  - intros _. eexists. repeat split. discriminate.
Qed.

(** ** Registration with a taken email *)

Lemma User_findOne_email_taken (e : string) (uid : oid) (u : doc) (w : world) :
  users (db w) !! uid = Some u ->
  u !! "email" = Some (VStr e) ->
  head (faults w) <> Some true ->
  exists p w',
    User_findOne_email (VStr e) w = (Ok (Some p), w') /\ db w' = db w.
Proof.
  intros Hu He Hf. unfold User_findOne_email, email_filter, find, bind.
  destruct (await_store_ok w Hf) as (w1 & -> & Hdb & _).
  unfold read, ret. cbn [coll_get].
  match goal with |- context [head (List.filter ?f ?l)] =>
    destruct (head_filter_is_Some f l (uid, u)) as [p Hp]
  end.
  - rewrite Hdb. now apply elem_of_map_to_list.
  - cbn [snd ToString]. rewrite He. cbn. apply String.eqb_refl.
  - exists p, w1. now rewrite Hp.
Qed.

(** X2. A registration whose email is a string some stored user already
    has is answered 400 "Email already exists" and nothing is written,
    whatever the rest of the body and the role. *)
Theorem register_taken_email (body : doc) (e : string) (uid : oid) (u : doc)
    (w : world) :
  get body "email" = VStr e ->
  users (db w) !! uid = Some u ->
  u !! "email" = Some (VStr e) ->
  head (faults w) <> Some true ->
  exists w',
    register body w
    = (Ok (status_json 400 [("error", VStr "Email already exists")]), w')
    /\ db w' = db w.
Proof.
  intros Hb Hu He Hf.
  destruct (User_findOne_email_taken e uid u w Hu He Hf) as (p & w' & Hfind & Hdb).
  exists w'. split; [|exact Hdb].
  unfold register. cbv zeta. rewrite Hb. unfold try_catch, bind at 1.
  now rewrite Hfind.
Qed.

(** ** Lead submission, when it goes through *)

(** X3. When the token carries a non-empty string email, a lead
    submission writes nothing but at most one new Lead, and a Lead it
    stores carries the email of the token, whatever email the body names,
    and the time of the request as its timestamp; it is stored only when
    the phone of the body is truthy. *)
Theorem lead_carries_token_email (user body : doc) (e : string)
    (w w' : world) (r : response) :
  get user "email" = VStr e ->
  e <> "" ->
  post_leads user body w = (Ok r, w') ->
  users (db w') = users (db w)
  /\ businesses (db w') = businesses (db w)
  /\ products (db w') = products (db w)
  /\ ((status r <> 200%nat /\ leads (db w') = leads (db w))
      \/ exists lid lead,
           leads (db w) !! lid = None
           /\ leads (db w') = <[lid := lead]> (leads (db w))
           /\ lead !! "email" = Some (VStr e)
           /\ lead !! "timestamp" = Some (VDate (now w))
           /\ truthy (get body "phone") = true
           /\ r = json [("message", VStr "Lead sent");
                        ("lead", doc_value (lid, lead))]).
Proof.
  intros He Hne. unfold post_leads, try_catch. cbv zeta. rewrite He.
  assert (Ht : truthy (VStr e) = true).
  { cbn. destruct (String.eqb_spec e ""); [contradiction|reflexivity]. }
  assert (Hor : VStr e ||| get body "email" = VStr e)
    by (unfold js_or; now rewrite Ht).
  rewrite !Hor, Ht. cbn [negb]. rewrite orb_false_r.
  destruct (truthy (get body "phone")) eqn:Hp; cbn [negb].
  2: { intros [= <- <-]. repeat split; auto. }
  unfold bind at 1. cbn [new_Date]. unfold bind at 1.
  match goal with |- context [Model_create Leads ?i w] =>
    pose proof (Model_create_spec Leads i w) as Hc;
    destruct (Model_create Leads i w) as [[[lid lead]|err] w1]
  end.
  2: { intros [= <- <-]. rewrite Hc. repeat split; auto. }
  cbn [ret]. intros [= <- <-].
  destruct Hc as (Hfresh & Hdb & d0 & Hcast & Hl). cbn [coll_get] in *.
  rewrite Hdb. cbn [coll_set users businesses products leads].
  repeat split; auto. right. exists lid, lead.
  split; [exact Hfresh|]. split; [reflexivity|].
  rewrite Hl, !lookup_created_doc by discriminate.
  rewrite !(cast_fields_lookup _ _ _ _ Hcast).
  cbn [List.find schema_of leadSchema s_fields f_name plain
       String.eqb Ascii.eqb Bool.eqb].
  unfold cast_field. rewrite !get_obj.
  cbn. auto.
Qed.

(** ** Product validation *)

Lemma product_errors_none (name price quantity : value) :
  size (product_errors name price quantity) = 0%nat ->
  (negb (truthy name) || blank (ToString name)) = false
  /\ (isNaN (ToNumber (price ||| VNum (num_of_Z 0)))
      || num_lt0 (ToNumber (price ||| VNum (num_of_Z 0)))) = false
  /\ (negb (isInteger (ToNumber (quantity ||| VNum (num_of_Z 0))))
      || num_lt0 (ToNumber (quantity ||| VNum (num_of_Z 0)))) = false.
Proof.
  unfold product_errors. cbv zeta.
  destruct (negb (truthy name) || blank (ToString name));
  destruct (isNaN _ || num_lt0 _);
  destruct (negb (isInteger _) || num_lt0 _);
    intros Hs; try (apply map_size_empty_iff in Hs;
                    now apply insert_non_empty in Hs).
  auto.
Qed.

Lemma product_errors_some (name price quantity : value) :
  (negb (truthy name) || blank (ToString name)) = true
  \/ (isNaN (ToNumber (price ||| VNum (num_of_Z 0)))
      || num_lt0 (ToNumber (price ||| VNum (num_of_Z 0)))) = true
  \/ (negb (isInteger (ToNumber (quantity ||| VNum (num_of_Z 0))))
      || num_lt0 (ToNumber (quantity ||| VNum (num_of_Z 0)))) = true ->
  size (product_errors name price quantity) <> 0%nat.
Proof.
  intros H Hs. apply product_errors_none in Hs as (H1 & H2 & H3).
  rewrite H1, H2, H3 in H. intuition discriminate.
Qed.

Lemma cast_Number_num (n : jsnum) :
  isNaN n = false -> cast SNumber (VNum n) = Some (VNum n).
Proof. intros Hn. cbn. now rewrite Hn. Qed.

(** X4. A product that creation stores has passed the validation: its
    name was truthy and not blank, its price is a number that is neither
    NaN nor negative, and its quantity is a non-negative integer; an
    input that fails the validation is answered 400 and nothing is
    written. *)
Theorem created_product_is_valid (user body : doc) (w w' : world)
    (r : response) :
  create_product user body w = (Ok r, w') ->
  (size (product_errors (get body "name") (get body "price")
                        (get body "quantity")) <> 0%nat ->
   status r = 400%nat /\ w' = w)
  /\ (status r = 200%nat ->
      exists pid p price quantity,
        products (db w) !! pid = None
        /\ products (db w') = <[pid := p]> (products (db w))
        /\ truthy (get body "name") = true
        /\ blank (ToString (get body "name")) = false
        /\ p !! "price" = Some (VNum price)
        /\ isNaN price = false /\ num_lt0 price = false
        /\ p !! "quantity" = Some (VNum quantity)
        /\ isInteger quantity = true /\ num_lt0 quantity = false).
Proof.
  unfold create_product, try_catch. cbv zeta.
  destruct (bool_decide (size (product_errors _ _ _) = 0%nat)) eqn:Hs;
    cbn [negb].
  2: { apply bool_decide_eq_false in Hs. intros [= <- <-].
       split; [now intros _|discriminate]. }
  apply bool_decide_eq_true in Hs.
  intros Hrun. split; [intros Hne; contradiction|]. revert Hrun.
  apply product_errors_none in Hs as (Hname & Hprice & Hqty).
  apply orb_false_iff in Hname as (Hn1 & Hn2).
  apply orb_false_iff in Hprice as (Hp1 & Hp2).
  apply orb_false_iff in Hqty as (Hq1 & Hq2).
  apply negb_false_iff in Hn1, Hq1.
  match goal with |- context [negb (truthy ?b)] =>
    destruct (truthy b); cbn [negb]
  end.
  2: { intros [= <- <-]. discriminate. }
  destruct (is_str (get user "role") "business"
            || is_str (get user "role") "admin").
  2: { intros [= <- <-]. discriminate. }
  unfold bind at 1.
  match goal with |- context [Model_create Products ?i w] =>
    pose proof (Model_create_spec Products i w) as Hc;
    destruct (Model_create Products i w) as [[[pid p]|err] w1]
  end.
  2: { cbn. intros [= <- <-]. discriminate. }
  cbn [ret]. intros [= <- <-] _.
  destruct Hc as (Hfresh & Hdb & d0 & Hcast & Hpd). cbn [coll_get] in *.
  exists pid, p, (ToNumber (get body "price" ||| VNum (num_of_Z 0))),
    (ToNumber (get body "quantity" ||| VNum (num_of_Z 0))).
  rewrite Hdb. cbn [coll_set products].
  split; [exact Hfresh|]. split; [reflexivity|].
  split; [exact Hn1|]. split; [exact Hn2|].
  rewrite Hpd, !lookup_created_doc by discriminate.
  rewrite !(cast_fields_lookup _ _ _ _ Hcast).
  cbn [List.find schema_of productSchema s_fields f_name plain
       String.eqb Ascii.eqb Bool.eqb].
  unfold cast_field. rewrite !get_obj.
  cbn [assoc List.find fst snd String.eqb Ascii.eqb Bool.eqb fmap option_fmap
       option_map default from_option id f_name f_type f_default f_enum plain
       enum_ok].
  assert (Hq3 : isNaN (ToNumber (get body "quantity" ||| VNum (num_of_Z 0)))
                = false).
  { revert Hq1.
    now destruct (ToNumber (get body "quantity" ||| VNum (num_of_Z 0))). }
  rewrite !cast_Number_num by assumption. cbn [is_undef]. repeat split; auto.
Qed.

(** ** Products: update, delete, read *)

Lemma findById_spec (c : coll) (id : string) (w : world) :
  match findById c id w with
  | (Ok found, w') =>
      db w' = db w
      /\ exists o, parse_oid id = Some o
                   /\ found = (fun d => (o, d)) <$> coll_get c (db w) !! o
  | (Throw _, w') => db w' = db w
  end.
Proof.
  unfold findById. destruct (parse_oid id) as [o|]; [|reflexivity].
  unfold bind.
  destruct (await_store_spec w) as ([[]|e] & fs & -> & _); [|reflexivity].
  unfold read, ret. cbn. split; [reflexivity|]. now exists o.
Qed.

Lemma assign_cast_keys (fs : list field_spec)
    (updates casted : list (string * value)) :
  assign_cast fs updates = Some casted -> casted.*1 = updates.*1.
Proof.
  revert casted. induction updates as [|[k v] l IH]; intros casted;
    cbn [assign_cast].
  - now intros [= <-].
  - destruct (cast _ v); [|discriminate].
    destruct (assign_cast fs l) as [l'|]; [|discriminate].
    intros [= <-]. cbn. f_equal. now apply IH.
Qed.

Lemma lookup_foldl_set_field (l : list (string * value)) (d : doc)
    (k : string) :
  k ∉ l.*1 ->
  foldl (fun acc kv => set_field kv.1 kv.2 acc) d l !! k = d !! k.
Proof.
  revert d. induction l as [|[k' v] l IH]; intros d Hk; [reflexivity|].
  cbn [foldl fst snd]. cbn in Hk. apply not_elem_of_cons in Hk as [Hne Hk].
  rewrite IH by exact Hk. rewrite lookup_set_field.
  destruct (String.eqb_spec k' k); [congruence|reflexivity].
Qed.

(** X5. A product update writes nothing outside the products, creates
    and deletes no product, and changes at most the product the request
    names; that product keeps its [businessId] and its [createdAt], and it
    is changed only for an admin or for a caller whose [businessId], as a
    string, is the product's. *)
Theorem update_product_keeps_owner (user : doc) (id : string) (body : doc)
    (w w' : world) (r : response) :
  update_product user id body w = (Ok r, w') ->
  users (db w') = users (db w)
  /\ businesses (db w') = businesses (db w)
  /\ leads (db w') = leads (db w)
  /\ forall o,
       products (db w') !! o = products (db w) !! o
       \/ (parse_oid id = Some o
           /\ exists p p',
                products (db w) !! o = Some p
                /\ products (db w') !! o = Some p'
                /\ p' !! "businessId" = p !! "businessId"
                /\ p' !! "createdAt" = p !! "createdAt"
                /\ (get user "role" = VStr "admin"
                    \/ ToString (get p "businessId")
                       = ToString (get user "businessId"))).
Proof.
  unfold update_product, try_catch. unfold bind at 1.
  pose proof (findById_spec Products id w) as Hf.
  destruct (findById Products id w) as [[found|e] w1].
  2: { intros [= <- <-]. rewrite Hf. repeat split; auto. }
  destruct Hf as (Hdb1 & o & Hid & Hfound). cbn [coll_get] in Hfound.
  destruct found as [[o' p]|].
  2: { intros [= <- <-]. rewrite Hdb1. repeat split; auto. }
  destruct (products (db w) !! o) as [p0|] eqn:Hp; [|discriminate].
  injection Hfound as -> ->. cbn [fst snd].
  destruct (negb (is_str (get user "role") "admin")
            && negb (String.eqb (ToString (get p0 "businessId"))
                                (ToString (get user "businessId")))) eqn:Hgate.
  { intros [= <- <-]. rewrite Hdb1. repeat split; auto. }
  assert (Hmay : get user "role" = VStr "admin"
                 \/ ToString (get p0 "businessId")
                    = ToString (get user "businessId")).
  { apply andb_false_iff in Hgate as [H|H]; apply negb_false_iff in H.
    - left. now apply is_str_true.
    - right. now apply String.eqb_eq. }
  cbv zeta.
  destruct (negb (bool_decide (size (product_errors _ _ _) = 0%nat))).
  { intros [= <- <-]. rewrite Hdb1. repeat split; auto. }
  destruct (assign_cast (s_fields productSchema) _) as [assigned|] eqn:Has.
  2: { intros [= <- <-]. rewrite Hdb1. repeat split; auto. }
  apply assign_cast_keys in Has. cbn [fmap list_fmap fst] in Has.
  unfold bind at 1.
  pose proof (doc_save_spec Products o assigned w1) as Hs.
  destruct (doc_save Products o assigned w1) as [[[]|e] w2].
  2: { intros [= <- <-]. rewrite Hs, Hdb1. repeat split; auto. }
  cbn [bind read ret]. intros [= <- <-].
  destruct Hs as (d & Hd & ->). rewrite Hdb1 in Hd |- *.
  cbn [coll_get coll_set users businesses leads products] in Hd |- *.
  rewrite Hp in Hd. injection Hd as <-.
  repeat split; auto. intros o'.
  destruct (decide (o = o')) as [<-|Hne];
    [|left; now rewrite lookup_insert_ne].
  right. split; [exact Hid|]. exists p0, (saved_doc Products (now w1) assigned p0).
  rewrite lookup_insert_eq. split; [exact Hp|]. split; [reflexivity|].
  unfold saved_doc. cbn [schema_of productSchema s_timestamps].
  rewrite !lookup_insert_ne by discriminate.
  rewrite !lookup_foldl_set_field; [auto| |]; rewrite Has;
    intros Hin%list_elem_of_In; cbn in Hin; intuition discriminate.
Qed.

Lemma findByIdAndDelete_spec (c : coll) (id : string) (w : world) :
  match findByIdAndDelete c id w with
  | (Ok found, w') =>
      exists o, parse_oid id = Some o
                /\ db w' = coll_set c (delete o (coll_get c (db w))) (db w)
  | (Throw _, w') => db w' = db w
  end.
Proof.
  unfold findByIdAndDelete. destruct (parse_oid id) as [o|]; [|reflexivity].
  unfold bind.
  destruct (await_store_spec w) as ([[]|e] & fs & -> & _); [|reflexivity].
  unfold read, write, ret. cbn [db].
  destruct (coll_get c (db w) !! o) eqn:Ho; cbn [db fst snd]; exists o.
  - now split.
  - split; [reflexivity|]. rewrite delete_id by exact Ho.
    now rewrite coll_set_same.
Qed.

(** X6. A product delete writes nothing outside the products; it either
    leaves the store as it is, with a status other than 200, or answers
    200 after deleting exactly the product the request names, and that
    only for an admin or for a caller whose [businessId], as a string, is
    the product's. *)
Theorem delete_product_effect (user : doc) (id : string) (w w' : world)
    (r : response) :
  delete_product user id w = (Ok r, w') ->
  users (db w') = users (db w)
  /\ businesses (db w') = businesses (db w)
  /\ leads (db w') = leads (db w)
  /\ ((status r <> 200%nat /\ db w' = db w)
      \/ exists o p,
           parse_oid id = Some o
           /\ products (db w) !! o = Some p
           /\ products (db w') = delete o (products (db w))
           /\ (get user "role" = VStr "admin"
               \/ ToString (get p "businessId")
                  = ToString (get user "businessId"))
           /\ r = json [("message", VStr "Deleted")]).
Proof.
  unfold delete_product, try_catch. unfold bind at 1.
  pose proof (findById_spec Products id w) as Hf.
  destruct (findById Products id w) as [[found|e] w1].
  2: { intros [= <- <-]. rewrite Hf. repeat split; auto. }
  destruct Hf as (Hdb1 & o & Hid & Hfound). cbn [coll_get] in Hfound.
  destruct found as [[o' p]|].
  2: { intros [= <- <-]. rewrite Hdb1. repeat split; auto. }
  destruct (products (db w) !! o) as [p0|] eqn:Hp; [|discriminate].
  injection Hfound as -> ->. cbn [fst snd].
  destruct (negb (is_str (get user "role") "admin")
            && negb (String.eqb (ToString (get p0 "businessId"))
                                (ToString (get user "businessId")))) eqn:Hgate.
  { intros [= <- <-]. rewrite Hdb1. repeat split; auto. }
  assert (Hmay : get user "role" = VStr "admin"
                 \/ ToString (get p0 "businessId")
                    = ToString (get user "businessId")).
  { apply andb_false_iff in Hgate as [H|H]; apply negb_false_iff in H.
    - left. now apply is_str_true.
    - right. now apply String.eqb_eq. }
  unfold bind at 1.
  pose proof (findByIdAndDelete_spec Products id w1) as Hd.
  destruct (findByIdAndDelete Products id w1) as [[gone|e] w2].
  2: { intros [= <- <-]. rewrite Hd, Hdb1. repeat split; auto. }
  cbn [ret]. intros [= <- <-].
  destruct Hd as (o2 & Hid2 & ->). rewrite Hid in Hid2. injection Hid2 as <-.
  rewrite Hdb1. cbn [coll_get coll_set users businesses leads products].
  repeat split; auto. right. exists o, p0. auto.
Qed.

(** X7. Reading one product writes nothing, and it answers 200, with the
    product the request names, only to an admin or to a caller of role
    business whose [businessId], as a string, is the product's. *)
Theorem get_product_gate (user : doc) (id : string) (w w' : world)
    (r : response) :
  get_product user id w = (Ok r, w') ->
  db w' = db w
  /\ (status r = 200%nat ->
      exists o p,
        parse_oid id = Some o
        /\ products (db w) !! o = Some p
        /\ payload r = doc_value (o, p)
        /\ (get user "role" = VStr "admin"
            \/ (get user "role" = VStr "business"
                /\ ToString (get p "businessId")
                   = ToString (get user "businessId")))).
Proof.
  unfold get_product, try_catch. unfold bind at 1.
  pose proof (findById_spec Products id w) as Hf.
  destruct (findById Products id w) as [[found|e] w1].
  2: { intros [= <- <-]. split; [exact Hf|discriminate]. }
  destruct Hf as (Hdb1 & o & Hid & Hfound). cbn [coll_get] in Hfound.
  destruct found as [[o' p]|].
  2: { intros [= <- <-]. split; [exact Hdb1|discriminate]. }
  destruct (products (db w) !! o) as [p0|] eqn:Hp; [|discriminate].
  injection Hfound as -> ->. cbn [fst snd].
  destruct (is_str (get user "role") "admin") eqn:Hadm.
  { intros [= <- <-]. split; [exact Hdb1|]. intros _.
    exists o, p0. apply is_str_true in Hadm. repeat split; auto. }
  destruct (is_str (get user "role") "business"
            && String.eqb (ToString (get p0 "businessId"))
                          (ToString (get user "businessId"))) eqn:Hgate.
  2: { intros [= <- <-]. split; [exact Hdb1|discriminate]. }
  intros [= <- <-]. split; [exact Hdb1|]. intros _.
  apply andb_true_iff in Hgate as [Hb He].
  apply is_str_true in Hb. apply String.eqb_eq in He.
  exists o, p0. repeat split; auto.
Qed.

(** ** Scoped listings *)

Lemma elem_of_sort_desc (k : string) (l : list (oid * doc)) (p : oid * doc) :
  p ∈ sort_desc k l <-> p ∈ l.
Proof. now rewrite (sort_desc_perm k l). Qed.

Lemma elem_of_find (c : coll) (f : oid -> doc -> bool) (s : store)
    (p : oid * doc) :
  p ∈ List.filter (fun p => f p.1 p.2) (map_to_list (coll_get c s))
  <-> coll_get c s !! p.1 = Some p.2 /\ f p.1 p.2 = true.
Proof.
  rewrite list_elem_of_In, filter_In, <- list_elem_of_In.
  destruct p as [i d]. now rewrite elem_of_map_to_list.
Qed.

Lemma path_filter_oid_string (k s : string) :
  path_filter SObjectId k (VStr s)
  = (fun o (d : doc) => mongo_eq (VOid o) (d !! k)) <$> parse_oid s.
Proof.
  unfold path_filter. cbn [cast cast_ObjectId ToString].
  now destruct (parse_oid s).
Qed.

Lemma find_by_oid_string_spec (c : coll) (k s by_ : string) (w : world) :
  match find_by c SObjectId k (VStr s) by_ w with
  | (Ok l, w') =>
      db w' = db w
      /\ exists o,
           parse_oid s = Some o
           /\ forall p, p ∈ l <-> coll_get c (db w) !! p.1 = Some p.2
                                  /\ mongo_eq (VOid o) (p.2 !! k) = true
  | (Throw _, w') => db w' = db w
  end.
Proof.
  unfold find_by. rewrite path_filter_oid_string.
  destruct (parse_oid s) as [o|]; cbn [fmap option_fmap option_map];
    [|reflexivity].
  unfold bind.
  match goal with |- context [find c ?f w] =>
    pose proof (find_spec c f w) as Hf; destruct (find c f w) as [[l|e] w1]
  end; [|exact Hf].
  destruct Hf as (-> & Hdb). cbn [ret]. split; [exact Hdb|].
  exists o. split; [reflexivity|]. intros p.
  rewrite elem_of_sort_desc.
  apply (elem_of_find c (fun _ d => mongo_eq (VOid o) (d !! k))).
Qed.

Lemma find_all_spec (c : coll) (by_ : string) (w : world) :
  match find_all c by_ w with
  | (Ok l, w') =>
      db w' = db w /\ l ≡ₚ map_to_list (coll_get c (db w))
  | (Throw _, w') => db w' = db w
  end.
Proof.
  unfold find_all, bind.
  match goal with |- context [find c ?f w] =>
    pose proof (find_spec c f w) as Hf; destruct (find c f w) as [[l|e] w1]
  end; [|exact Hf].
  destruct Hf as (-> & Hdb). cbn [ret]. split; [exact Hdb|].
  rewrite sort_desc_perm.
  induction (map_to_list (coll_get c (db w))) as [|x l IH]; [reflexivity|].
  cbn. now rewrite IH.
Qed.

(** X8. For a caller who is not admin and whose token holds a string
    [businessId], listing products writes nothing and answers 200 only
    to role business, with exactly the products whose [businessId] is the
    ObjectId that string spells: none when it spells none. *)
Theorem list_products_scoped (user : doc) (s : string) (w w' : world)
    (r : response) :
  get user "role" <> VStr "admin" ->
  get user "businessId" = VStr s ->
  list_products user w = (Ok r, w') ->
  db w' = db w
  /\ (status r = 200%nat ->
      get user "role" = VStr "business"
      /\ exists l,
           r = json_docs l
           /\ forall i d,
                (i, d) ∈ l
                <-> exists o,
                      parse_oid s = Some o
                      /\ products (db w) !! i = Some d
                      /\ mongo_eq (VOid o) (d !! "businessId") = true).
Proof.
  intros Hadm%is_str_false Hbid. unfold list_products, try_catch.
  rewrite Hadm, Hbid.
  destruct (is_str (get user "role") "business") eqn:Hb.
  2: { intros [= <- <-]. split; [reflexivity|discriminate]. }
  apply is_str_true in Hb.
  destruct (truthy (VStr s)) eqn:Ht; cbn [negb].
  2: { intros [= <- <-]. split; [reflexivity|]. intros _.
       split; [exact Hb|]. exists []. split; [reflexivity|].
       intros i d. split; [intros Hin; now apply elem_of_nil in Hin|].
       intros (o & Ho & _). cbn in Ht. apply negb_false_iff in Ht.
       apply String.eqb_eq in Ht. subst s. discriminate. }
  unfold bind at 1.
  pose proof (find_by_oid_string_spec Products "businessId" s "createdAt" w)
    as Hf.
  destruct (find_by Products SObjectId "businessId" (VStr s) "createdAt" w)
    as [[l|e] w1].
  2: { intros [= <- <-]. split; [exact Hf|discriminate]. }
  cbn [ret]. intros [= <- <-]. destruct Hf as (Hdb & o & Ho & Hl).
  split; [exact Hdb|]. intros _. split; [exact Hb|].
  exists l. split; [reflexivity|]. intros i d.
  rewrite (Hl (i, d)). cbn [fst snd coll_get]. split.
  - intros [H1 H2]. exists o. auto.
  - intros (o' & Ho' & H1 & H2). rewrite Ho in Ho'. injection Ho' as <-. auto.
Qed.

(** X9. For a caller who is not admin, whose token holds a string [id]
    and, when the role is business, a string [businessId], listing leads
    writes nothing and answers 200 with exactly: for role business, the
    leads whose [businessId] is the ObjectId the token's [businessId]
    spells; for any other role, the leads whose [submittedBy] is the
    ObjectId the token's [id] spells. *)
Theorem get_leads_scoped (user : doc) (sid s : string) (w w' : world)
    (r : response) :
  get user "role" <> VStr "admin" ->
  get user "id" = VStr sid ->
  (get user "role" = VStr "business" -> get user "businessId" = VStr s) ->
  get_leads user w = (Ok r, w') ->
  db w' = db w
  /\ (status r = 200%nat ->
      exists l,
        r = json_docs l
        /\ forall i d,
             (i, d) ∈ l
             <-> exists o,
                   leads (db w) !! i = Some d
                   /\ ((get user "role" = VStr "business"
                        /\ parse_oid s = Some o
                        /\ mongo_eq (VOid o) (d !! "businessId") = true)
                       \/ (get user "role" <> VStr "business"
                           /\ parse_oid sid = Some o
                           /\ mongo_eq (VOid o) (d !! "submittedBy") = true))).
Proof.
  intros Hadm%is_str_false Hid Hbid. unfold get_leads, try_catch.
  rewrite Hadm, Hid.
  destruct (is_str (get user "role") "business") eqn:Hb.
  - apply is_str_true in Hb. rewrite (Hbid Hb).
    destruct (truthy (VStr s)) eqn:Ht; cbn [negb].
    2: { intros [= <- <-]. split; [reflexivity|]. intros _.
         exists []. split; [reflexivity|].
         intros i d. split; [intros Hin; now apply elem_of_nil in Hin|].
         cbn in Ht. apply negb_false_iff in Ht.
         apply String.eqb_eq in Ht. subst s.
         intros (o & _ & [(_ & Ho & _)|(Hnb & _)]);
           [discriminate|contradiction]. }
    unfold bind at 1.
    pose proof (find_by_oid_string_spec Leads "businessId" s "timestamp" w)
      as Hf.
    destruct (find_by Leads SObjectId "businessId" (VStr s) "timestamp" w)
      as [[l|e] w1].
    2: { intros [= <- <-]. split; [exact Hf|discriminate]. }
    cbn [ret]. intros [= <- <-]. destruct Hf as (Hdb & o & Ho & Hl).
    split; [exact Hdb|]. intros _.
    exists l. split; [reflexivity|]. intros i d.
    rewrite (Hl (i, d)). cbn [fst snd coll_get]. split.
    + intros [H1 H2]. exists o. split; [exact H1|]. left. auto.
    + intros (o' & H1 & [(_ & Ho' & H2)|(Hnb & _)]); [|contradiction].
      rewrite Ho in Ho'. injection Ho' as <-. auto.
  - assert (Hnb : get user "role" <> VStr "business").
    { intros Heq. rewrite Heq in Hb. discriminate. }
    unfold bind at 1.
    pose proof (find_by_oid_string_spec Leads "submittedBy" sid "timestamp" w)
      as Hf.
    destruct (find_by Leads SObjectId "submittedBy" (VStr sid) "timestamp" w)
      as [[l|e] w1].
    2: { intros [= <- <-]. split; [exact Hf|discriminate]. }
    cbn [ret]. intros [= <- <-]. destruct Hf as (Hdb & o & Ho & Hl).
    split; [exact Hdb|]. intros _.
    exists l. split; [reflexivity|]. intros i d.
    rewrite (Hl (i, d)). cbn [fst snd coll_get]. split.
    + intros [H1 H2]. exists o. split; [exact H1|]. right. auto.
    + intros (o' & H1 & [(Hyes & _)|(_ & Ho' & H2)]); [contradiction|].
      rewrite Ho in Ho'. injection Ho' as <-. auto.
Qed.

(** ** The public reads of Businesses *)

Lemma lookup_select (ks : list string) (d : doc) (k : string) :
  select ks d !! k = if bool_decide (k ∈ ks) then d !! k else None.
Proof.
  unfold select. case_bool_decide as Hk.
  - destruct (d !! k) as [v|] eqn:Hd.
    + apply map_lookup_filter_Some. now split.
    + apply map_lookup_filter_None. left. exact Hd.
  - apply map_lookup_filter_None. right. intros v _. exact Hk.
Qed.

Lemma elem_of_select_all (ks : list string) (l : list (oid * doc))
    (i : oid) (d : doc) :
  (i, d) ∈ select_all ks l <-> exists b, (i, b) ∈ l /\ d = select ks b.
Proof.
  unfold select_all. rewrite list_elem_of_fmap. split.
  - intros ([i' b] & [= -> ->] & Hin). eauto.
  - intros (b & Hin & ->). exists (i, b). auto.
Qed.

(** X10. The two public reads of Businesses write nothing and show of a
    Business only its [_id], [name], [category], [location] and
    [description], never its [owner]: the list holds one such card for
    each stored Business, and the read by id holds the card of the
    Business of that id. When the store does not fail, the list is
    answered 200, and so is the read of a stored Business. *)
Theorem business_reads_show_card_only :
  (forall w w' r,
     list_businesses w = (Ok r, w') ->
     db w' = db w
     /\ (status r = 200%nat ->
         exists l,
           r = json_docs l
           /\ length l = size (businesses (db w))
           /\ forall i d,
                (i, d) ∈ l
                <-> exists b,
                      businesses (db w) !! i = Some b
                      /\ d = select business_card b))
  /\ (forall id w w' r,
        get_business id w = (Ok r, w') ->
        db w' = db w
        /\ (status r = 200%nat ->
            exists o b,
              parse_oid id = Some o
              /\ businesses (db w) !! o = Some b
              /\ payload r = doc_value (o, select business_card b)))
  /\ (forall b k,
        select business_card b !! k
        = if bool_decide (k ∈ business_card) then b !! k else None)
  /\ (forall b, select business_card b !! "owner" = None)
  /\ (forall w,
        head (faults w) <> Some true ->
        exists r w', list_businesses w = (Ok r, w') /\ status r = 200%nat)
  /\ (forall id o b w,
        parse_oid id = Some o ->
        businesses (db w) !! o = Some b ->
        head (faults w) <> Some true ->
        exists w',
          get_business id w
          = (Ok (mkResponse 200 (doc_value (o, select business_card b))),
             w')).
Proof.
  split; [|split; [|split; [|split; [|split]]]].
  - intros w w' r. unfold list_businesses, try_catch, bind at 1.
    pose proof (find_all_spec Businesses "createdAt" w) as Hf.
    destruct (find_all Businesses "createdAt" w) as [[l|e] w1].
    2: { intros [= <- <-]. split; [exact Hf|discriminate]. }
    cbn [ret]. intros [= <- <-]. destruct Hf as (Hdb & Hl).
    split; [exact Hdb|]. intros _. cbn [coll_get] in Hl.
    exists (select_all business_card l). split; [reflexivity|]. split.
    + unfold select_all. rewrite length_fmap, Hl.
      apply length_map_to_list.
    + intros i d. rewrite elem_of_select_all. split.
      * intros (b & Hin & ->). exists b. split; [|reflexivity].
        rewrite Hl in Hin. now apply elem_of_map_to_list.
      * intros (b & Hb & ->). exists b. split; [|reflexivity].
        rewrite Hl. now apply elem_of_map_to_list.
  - intros id w w' r. unfold get_business, try_catch, bind at 1.
    pose proof (findById_spec Businesses id w) as Hf.
    destruct (findById Businesses id w) as [[found|e] w1].
    2: { intros [= <- <-]. split; [exact Hf|discriminate]. }
    destruct Hf as (Hdb & o & Hid & ->). cbn [coll_get].
    destruct (businesses (db w) !! o) as [b|] eqn:Hb;
      cbn [fmap option_fmap option_map ret]; intros [= <- <-];
      (split; [exact Hdb|]); [|discriminate].
    intros _. exists o, b. auto.
  - intros b k. apply lookup_select.
  - intros b. now rewrite lookup_select.
  - intros w Hw. unfold list_businesses, try_catch, find_all, find, bind.
    destruct (await_store_ok w Hw) as (w1 & -> & _).
    cbn [read ret]. eexists _, _. split; reflexivity.
  - intros id o b w Hid Hb Hw.
    unfold get_business, try_catch, findById, bind. rewrite Hid.
    destruct (await_store_ok w Hw) as (w1 & -> & Hdb & _).
    cbn [read ret coll_get]. rewrite Hdb, Hb.
    cbn [fmap option_fmap option_map ret fst snd]. eexists. reflexivity.
Qed.

(** ** The admin's list of unlinked users *)

(** X11. The admin's list of business users without a Business writes
    nothing, is refused (403, the world unchanged) to any caller who is
    not admin, and lists exactly the users that are candidates of the
    migration script on the same store, as many as a migration run on that
    store reports to have found. *)
Theorem users_without_business_are_candidates (user : doc) (w w' : world)
    (r : response) :
  users_without_business user w = (Ok r, w') ->
  db w' = db w
  /\ (get user "role" <> VStr "admin" -> status r = 403%nat /\ w' = w)
  /\ (status r = 200%nat ->
      exists l,
        r = json_docs l
        /\ (forall i,
              i ∈ l.*1
              <-> exists u, users (db w) !! i = Some u
                            /\ Migrate.candidate u = true)
        /\ forall wm wm' n,
             db wm = db w -> Migrate.run wm = (Ok n, wm') -> n = length l).
Proof.
  unfold users_without_business, try_catch.
  destruct (is_str (get user "role") "admin") eqn:Hadm; cbn [negb].
  2: { intros [= <- <-]. split; [reflexivity|]. split; [auto|discriminate]. }
  apply is_str_true in Hadm. unfold bind at 1.
  match goal with |- context [find Users ?f w] =>
    pose proof (find_spec Users f w) as Hf;
    destruct (find Users f w) as [[l|e] w1]
  end.
  2: { intros [= <- <-]. split; [exact Hf|]. split; [congruence|discriminate]. }
  cbn [ret]. intros [= <- <-]. destruct Hf as (Hl & Hdb).
  split; [exact Hdb|]. split; [congruence|]. intros _.
  eexists. split; [reflexivity|]. cbn [coll_get fst snd] in Hl. split.
  - intros i. unfold select_all. rewrite <- list_fmap_compose.
    rewrite list_elem_of_fmap. split.
    + intros ([i' u] & -> & Hin). cbn [compose fst].
      apply elem_of_sort_desc in Hin. rewrite Hl in Hin.
      apply elem_of_candidates in Hin. eauto.
    + intros (u & Hu & Hc). exists (i, u). split; [reflexivity|].
      apply elem_of_sort_desc. rewrite Hl. now apply elem_of_candidates.
  - intros wm wm' n Hsame Hrun.
    destruct (migrate_run_spec _ _ _ Hrun) as (_ & _ & Hn).
    rewrite (Hn n eq_refl), Hsame. unfold select_all.
    rewrite length_fmap, sort_desc_perm, Hl. reflexivity.
Qed.

(** ** Login, and login after registration *)

Lemma User_findOne_email_spec (email : value) (w : world) :
  match User_findOne_email email w with
  | (Ok found, w') =>
      db w' = db w /\ now w' = now w
      /\ exists f,
           email_filter email = Some f
           /\ found = head (List.filter (fun p => f p.2)
                                        (map_to_list (users (db w))))
  | (Throw _, w') => db w' = db w
  end.
Proof.
  unfold User_findOne_email.
  destruct (email_filter email) as [f|]; [|reflexivity].
  unfold find, bind.
  destruct (await_store_spec w) as ([[]|e] & fs & -> & _); [|reflexivity].
  unfold read, ret. cbn. repeat split. now exists f.
Qed.


Lemma register_ok_inv (body : doc) (w w' : world) (r : response) :
  register body w = (Ok r, w') ->
  status r = 200%nat ->
  exists uid u0 p,
    users (db w) !! uid = None
    /\ get body "password" = VStr p
    /\ (forall f i d,
          email_filter (get body "email") = Some f ->
          users (db w) !! i = Some d -> f d = false)
    /\ u0 !! "password" = Some (VStr (bcrypt_hash p))
    /\ (forall e, get body "email" = VStr e -> u0 !! "email" = Some (VStr e))
    /\ new_user body u0
    /\ ((registered_role body = "customer"
         /\ db w' = coll_set Users (<[uid := u0]> (users (db w))) (db w))
        \/ (registered_role body = "business"
            /\ exists bid b,
                 businesses (db w) !! bid = None
                 /\ new_business uid b
                 /\ db w' = mkStore
                      (<[uid := <["businessId" := VOid bid]> u0]>
                         (users (db w)))
                      (<[bid := b]> (businesses (db w)))
                      (leads (db w)) (products (db w)))).
Proof.
  unfold register. cbv zeta.
  repeat first [rewrite get_delete_eq | rewrite get_delete_ne by discriminate].
  pose proof (register_role_normalised body) as Hrole. cbv zeta in Hrole.
  rewrite !Hrole. clear Hrole.
  change (VUndef ||| VStr "") with (VStr "").
  unfold try_catch at 1. unfold bind at 1.
  pose proof (User_findOne_email_spec (get body "email") w) as H1.
  destruct (User_findOne_email (get body "email") w) as [[found|e] w1].
  2: { intros [= <- <-]. discriminate. }
  destruct H1 as (H1 & _ & f & Hfil & ->).
  match goal with |- context [head ?l] => destruct (head l) eqn:Hh end.
  { intros [= <- <-]. discriminate. }
  assert (Hfree : forall f' i d,
            email_filter (get body "email") = Some f' ->
            users (db w) !! i = Some d -> f' d = false).
  { intros f' i d Hf' Hd. rewrite Hfil in Hf'. injection Hf' as <-.
    apply (head_filter_None _ _ (i, d) Hh). now apply elem_of_map_to_list. }
  unfold bind at 1. unfold bcrypt_hash_js at 1.
  destruct (get body "password") as [| | | |p| | | |];
    try (intros [= <- <-]; discriminate).
  cbn [ret]. unfold bind at 1.
  match goal with |- context [Model_create Users ?i w1] =>
    pose proof (Model_create_spec Users i w1) as H2;
    destruct (Model_create Users i w1) as [[[uid u]|e] w2]
  end.
  2: { intros [= <- <-]. discriminate. }
  destruct H2 as (Hfresh & Hdb2 & d0 & Hcast & Hu).
  assert (Hpw : u !! "password" = Some (VStr (bcrypt_hash p))).
  { rewrite Hu, lookup_created_doc by discriminate.
    rewrite (cast_fields_lookup _ _ _ _ Hcast).
    cbn [List.find schema_of userSchema s_fields f_name plain String.eqb
         Ascii.eqb Bool.eqb].
    unfold cast_field. rewrite get_obj. reflexivity. }
  assert (Hem : forall e, get body "email" = VStr e ->
                          u !! "email" = Some (VStr e)).
  { intros e He. rewrite Hu, lookup_created_doc by discriminate.
    rewrite (cast_fields_lookup _ _ _ _ Hcast).
    cbn [List.find schema_of userSchema s_fields f_name plain String.eqb
         Ascii.eqb Bool.eqb].
    unfold cast_field. rewrite get_obj, He. reflexivity. }
  apply (registered_user_doc _ _ _ _ _ (now w1)) in Hcast.
  rewrite <- Hu in Hcast. clear Hu d0. cbn [fst] in *.
  rewrite H1 in Hfresh, Hdb2. cbn [coll_get] in Hfresh, Hdb2.
  destruct (registered_role_cases body) as [[Hr Hc]|[Hr Hc]]; rewrite Hr;
    cbn [is_str String.eqb Ascii.eqb Bool.eqb].
  - unfold bind at 1. unfold try_catch at 1. unfold bind at 1.
    pose proof (updateOne_by_id_spec Users uid (unset business_fields) w2) as H3.
    destruct (updateOne_by_id Users uid (unset business_fields) w2)
      as [[n|e] w3]; cbn [ret console_log]; intros [= <- <-] _;
      exists uid, u, p; (repeat (split; [assumption || reflexivity|]));
      left; (split; [reflexivity|]); cbn [db].
    + destruct H3 as [(_ & -> & _)|(d & Hd & -> & _)]; [exact Hdb2|].
      rewrite Hdb2, coll_get_set in Hd |- *. rewrite lookup_insert_eq in Hd.
      injection Hd as <-. rewrite coll_set_set, insert_insert_eq.
      now rewrite (unset_I1 u) by apply Hcast.
    + now rewrite H3.
  - unfold bind at 1.
    match goal with |- context [Model_create Businesses ?i w2] =>
      pose proof (Model_create_spec Businesses i w2) as H3;
      destruct (Model_create Businesses i w2) as [[[bid b]|e] w3]
    end.
    2: { intros [= <- <-]. discriminate. }
    destruct H3 as (Hfreshb & Hdb3 & b0 & Hcastb & Hb).
    apply (registered_business_doc _ _ _ (now w2)) in Hcastb.
    rewrite <- Hb in Hcastb. clear Hb b0. cbn [fst] in *.
    unfold bind at 1.
    pose proof (doc_save_spec Users uid [("businessId", VOid bid)] w3) as H4.
    destruct (doc_save Users uid [("businessId", VOid bid)] w3)
      as [[[]|e] w4].
    2: { intros [= <- <-]. discriminate. }
    cbn [ret]. intros [= <- <-] _.
    exists uid, u, p. repeat (split; [assumption || reflexivity|]).
    right. split; [reflexivity|]. exists bid, b.
    rewrite Hdb2 in Hfreshb. cbn in Hfreshb.
    split; [exact Hfreshb|]. split; [exact Hcastb|].
    destruct H4 as (d & Hd & ->). rewrite Hdb3, Hdb2 in Hd |- *.
    cbn [coll_get coll_set users businesses leads products] in Hd |- *.
    rewrite lookup_insert_eq in Hd. injection Hd as <-.
    now rewrite insert_insert_eq.
Qed.

(** X13. With a [bcrypt.compare] that accepts a password against its own
    hash: after a registration with a string email has succeeded, a login
    with the same body on the resulting store (the lookup not failing)
    answers 200 with a token that signs the new user's [_id], the role
    the registration gave it, and, for a business, the [_id] of the
    Business it now owns. *)
Theorem login_after_register (body : doc) (e : string) (w w' w1 : world)
    (r : response) :
  (forall s, bcrypt_compare s (bcrypt_hash s) = true) ->
  get body "email" = VStr e ->
  register body w = (Ok r, w') ->
  status r = 200%nat ->
  db w1 = db w' ->
  head (faults w1) <> Some true ->
  exists uid u w1',
    users (db w) !! uid = None
    /\ users (db w') !! uid = Some u
    /\ login body w1
       = (Ok (json [("token",
                     VStr (jwt_sign (now w1) (token_payload (uid, u))));
                    ("user", user_view u)]), w1')
    /\ db w1' = db w1
    /\ get (token_payload (uid, u)) "id" = VOid uid
    /\ get (token_payload (uid, u)) "role" = VStr (registered_role body)
    /\ (registered_role body = "business" ->
        exists bid b,
          get (token_payload (uid, u)) "businessId" = VOid bid
          /\ businesses (db w') !! bid = Some b
          /\ b !! "owner" = Some (VOid uid)).
Proof.
  intros Hbc He Hreg Hok Hsame Hnf.
  destruct (register_ok_inv _ _ _ _ Hreg Hok)
    as (uid & u0 & p & Hfresh & Hp & Hfree & Hpw & Hem & (Hrole & Hnb & HI1) & Hcases).
  specialize (Hem e He). rewrite He in Hfree.
  assert (Hfree' : forall i d,
            users (db w) !! i = Some d ->
            mongo_eq (VStr e) (d !! "email") = false).
  { intros i d Hd. exact (Hfree _ i d eq_refl Hd). }
  (* the user as stored after the request *)
  assert (Hfinal : exists u,
             users (db w') = <[uid := u]> (users (db w))
             /\ u !! "email" = Some (VStr e)
             /\ u !! "password" = Some (VStr (bcrypt_hash p))
             /\ u !! "role" = Some (VStr (registered_role body))
             /\ (registered_role body = "business" ->
                 exists bid b,
                   u !! "businessId" = Some (VOid bid)
                   /\ businesses (db w') !! bid = Some b
                   /\ b !! "owner" = Some (VOid uid))).
  { destruct Hcases as [(Hc & ->)|(Hb & bid & b & _ & (Ho & _) & ->)].
    - exists u0. cbn [coll_set users]. repeat split; auto. congruence.
    - exists (<["businessId" := VOid bid]> u0). cbn [users businesses].
      rewrite !lookup_insert_ne by discriminate. repeat split; auto.
      intros _. exists bid, b. now rewrite !lookup_insert_eq. }
  destruct Hfinal as (u & Hus & Hue & Hup & Hur & Hub).
  assert (Hfind : exists w2,
             User_findOne_email (VStr e) w1 = (Ok (Some (uid, u)), w2)
             /\ db w2 = db w1 /\ now w2 = now w1).
  { pose proof (User_findOne_email_spec (VStr e) w1) as Hf.
    destruct (User_findOne_email_taken e uid u w1) as (q & w2 & Hq & _).
    - rewrite Hsame, Hus. apply lookup_insert_eq.
    - exact Hue.
    - exact Hnf.
    - rewrite Hq in Hf. destruct Hf as (Hdb & Hnow & f & Hf & Hhead).
      cbn in Hf. injection Hf as <-. exists w2.
      split; [|now split]. rewrite Hq. do 3 f_equal.
      symmetry in Hhead. apply head_filter_Some in Hhead as [Hin Hm].
      destruct q as [i d]. apply elem_of_map_to_list in Hin.
      rewrite Hsame, Hus in Hin. cbn [snd] in Hm.
      destruct (decide (uid = i)) as [<-|Hne].
      + rewrite lookup_insert_eq in Hin. congruence.
      + rewrite lookup_insert_ne in Hin by exact Hne.
        rewrite (Hfree' i d Hin) in Hm. discriminate. }
  destruct Hfind as (w2 & Hfind & Hdb2 & Hnow2).
  exists uid, u. eexists.
  split; [exact Hfresh|]. split; [rewrite Hus; apply lookup_insert_eq|].
  split; [|split; [|split; [|split]]].
  - unfold login, try_catch. cbv zeta. rewrite He, Hp.
    unfold bind at 1. rewrite Hfind. unfold bind at 1, bcrypt_compare_js.
    cbn [snd]. unfold get at 1. rewrite Hup. cbn [default from_option id ret].
    rewrite Hbc. cbn [negb]. unfold bind, jwt_sign_js, ret.
    rewrite Hnow2. reflexivity.
  - exact Hdb2.
  - unfold token_payload. now rewrite get_obj.
  - unfold token_payload. rewrite get_obj. cbn. unfold get. now rewrite Hur.
  - intros Hb. destruct (Hub Hb) as (bid & b & Hbid & Hbs & Ho).
    exists bid, b. split; [|auto].
    unfold token_payload. rewrite get_obj. cbn. unfold get. now rewrite Hbid.
Qed.

(** ** Updates by id: the profile and the admin's edit of a Business *)

Lemma lookup_foldl_update_path (l : list (string * value)) (d : doc)
    (k : string) :
  k ∉ l.*1 ->
  foldl (fun acc kv => update_path kv.1 kv.2 acc) d l !! k = d !! k.
Proof.
  revert d. induction l as [|[k' v] l IH]; intros d Hk; [reflexivity|].
  cbn [foldl fst snd]. cbn in Hk. apply not_elem_of_cons in Hk as [Hne Hk].
  rewrite IH by exact Hk. unfold update_path.
  destruct v; try (now rewrite lookup_insert_ne).
  destruct omit_undefined; [reflexivity|now rewrite lookup_insert_ne].
Qed.

Lemma findByIdAndUpdate_spec (c : coll) (id : value)
    (updates : list (string * value)) (w : world) :
  match findByIdAndUpdate c id updates w with
  | (Ok found, w') =>
      (found = None /\ db w' = db w)
      \/ exists f i d d',
           id_filter id = Some f /\ f i = true
           /\ coll_get c (db w) !! i = Some d
           /\ found = Some (i, d')
           /\ db w' = coll_set c (<[i := d']> (coll_get c (db w))) (db w)
           /\ forall k,
                k ∉ updates.*1 ->
                (s_timestamps (schema_of c) = true -> k <> "updatedAt") ->
                d' !! k = d !! k
  | (Throw _, w') => db w' = db w
  end.
Proof.
  unfold findByIdAndUpdate.
  destruct (id_filter id) as [f|]; [|reflexivity].
  destruct (assign_cast _ updates) as [casted|] eqn:Hc; [|reflexivity].
  apply assign_cast_keys in Hc. unfold bind at 1.
  destruct (await_store_spec w) as ([[]|e] & fs & -> & _); [|reflexivity].
  unfold bind at 1, read. cbn [db].
  match goal with |- context [head ?l] => destruct (head l) as [[i d]|] eqn:Hh end.
  2: { left. now split. }
  apply head_filter_Some in Hh as [Hin Hf]. apply elem_of_map_to_list in Hin.
  cbn [fst snd] in *. unfold bind, new_Date, write, ret. cbn [db now fst snd].
  right. eexists f, i, d, _. repeat split; try eassumption; try reflexivity.
  intros k Hk Hne. rewrite <- Hc in Hk.
  destruct (s_timestamps (schema_of c)).
  - rewrite lookup_insert_ne by (intros <-; now apply Hne).
    now apply lookup_foldl_update_path.
  - now apply lookup_foldl_update_path.
Qed.

Lemma profile_updates_keys (body : doc) (k : string) :
  k ∈ (profile_updates body).*1 -> k ∈ allowed.
Proof.
  unfold profile_updates. intros ([k' v] & -> & Hin)%list_elem_of_fmap.
  apply list_elem_of_omap in Hin as (a & Ha & Hv).
  destruct (body !! a); [|discriminate]. cbn in Hv. now injection Hv as <- _.
Qed.

Lemma id_filter_string (s : string) (f : oid -> bool) (i : oid) :
  id_filter (VStr s) = Some f -> f i = true -> parse_oid s = Some i.
Proof.
  unfold id_filter. cbn [cast_ObjectId ToString].
  destruct (parse_oid s) as [o|]; cbn; [|discriminate].
  intros [= <-] Hi%N.eqb_eq. now subst.
Qed.

(** X14. A profile update writes nothing outside the users and changes at
    most one user, in which every path other than [name], [phone],
    [address] and [bio] is as before: the [role], the [businessId], the
    [email] and the [password] cannot be changed through it. When the
    token's [id] is a string, the user changed is the one it spells. *)
Theorem profile_update_scope (user body : doc) (w w' : world) (r : response) :
  update_profile user body w = (Ok r, w') ->
  businesses (db w') = businesses (db w)
  /\ leads (db w') = leads (db w)
  /\ products (db w') = products (db w)
  /\ (users (db w') = users (db w)
      \/ exists i u u',
           users (db w) !! i = Some u
           /\ users (db w') = <[i := u']> (users (db w))
           /\ (forall k, k ∉ allowed -> u' !! k = u !! k)
           /\ u' !! "role" = u !! "role"
           /\ u' !! "businessId" = u !! "businessId"
           /\ u' !! "email" = u !! "email"
           /\ u' !! "password" = u !! "password"
           /\ (forall s, get user "id" = VStr s -> parse_oid s = Some i)).
Proof.
  unfold update_profile, try_catch. cbv zeta. unfold bind at 1.
  pose proof (findByIdAndUpdate_spec Users (get user "id")
                (profile_updates body) w) as Hf.
  destruct (findByIdAndUpdate Users (get user "id") (profile_updates body) w)
    as [[found|e] w1].
  2: { intros [= <- <-]. rewrite Hf. repeat split; auto. }
  destruct Hf as [(-> & Hdb)|(f & i & u & u' & Hid & Hfi & Hu & -> & Hdb & Hkeep)].
  { intros [= <- <-]. rewrite Hdb. repeat split; auto. }
  cbn [ret]. intros [= <- <-]. rewrite Hdb.
  cbn [coll_get coll_set users businesses leads products] in *.
  repeat split; auto. right. exists i, u, u'.
  assert (Hk : forall k, k ∉ allowed -> u' !! k = u !! k).
  { intros k Hk. apply Hkeep.
    - intros Hin. apply Hk. now apply profile_updates_keys in Hin.
    - discriminate. }
  split; [exact Hu|]. split; [reflexivity|]. split; [exact Hk|].
  repeat split; try (apply Hk; unfold allowed; intros Hin%list_elem_of_In;
                     cbn in Hin; intuition discriminate).
  intros s Hs. rewrite Hs in Hid. now apply (id_filter_string s f).
Qed.

(** X15. The admin's edit of a Business is refused (403, the world
    unchanged) to any caller who is not admin; it writes nothing outside
    the Businesses and changes at most the Business the request names,
    which keeps its [owner], its [createdAt] and every path other than
    [name], [category], [location], [description] and [updatedAt]. *)
Theorem admin_update_keeps_owner (user : doc) (id : string) (body : doc)
    (w w' : world) (r : response) :
  admin_update_business user id body w = (Ok r, w') ->
  users (db w') = users (db w)
  /\ leads (db w') = leads (db w)
  /\ products (db w') = products (db w)
  /\ (get user "role" <> VStr "admin" -> status r = 403%nat /\ w' = w)
  /\ (businesses (db w') = businesses (db w)
      \/ exists o b b',
           parse_oid id = Some o
           /\ businesses (db w) !! o = Some b
           /\ businesses (db w') = <[o := b']> (businesses (db w))
           /\ b' !! "owner" = b !! "owner"
           /\ b' !! "createdAt" = b !! "createdAt"
           /\ forall k,
                k ∉ ["name"; "category"; "location"; "description";
                     "updatedAt"] ->
                b' !! k = b !! k).
Proof.
  unfold admin_update_business, try_catch.
  destruct (is_str (get user "role") "admin") eqn:Hadm; cbn [negb].
  2: { intros [= <- <-]. repeat split; auto. }
  apply is_str_true in Hadm. cbv zeta. unfold bind at 1.
  match goal with |- context [findByIdAndUpdate Businesses ?i ?u w] =>
    pose proof (findByIdAndUpdate_spec Businesses i u w) as Hf;
    destruct (findByIdAndUpdate Businesses i u w) as [[found|e] w1]
  end.
  2: { intros [= <- <-]. rewrite Hf. repeat split; auto; congruence. }
  destruct Hf as [(-> & Hdb)|(f & o & b & b' & Hid & Hfi & Hb & -> & Hdb & Hkeep)].
  { intros [= <- <-]. rewrite Hdb. repeat split; auto; congruence. }
  cbn [ret]. intros [= <- <-]. rewrite Hdb.
  cbn [coll_get coll_set users businesses leads products] in *.
  repeat split; auto; try congruence. right. exists o, b, b'.
  split; [now apply (id_filter_string id f)|]. split; [exact Hb|].
  split; [reflexivity|].
  assert (Hk : forall k,
            k ∉ ["name"; "category"; "location"; "description"; "updatedAt"] ->
            b' !! k = b !! k).
  { intros k Hk. apply Hkeep.
    - cbn. intros Hin. apply Hk. rewrite !elem_of_cons, elem_of_nil in Hin.
      rewrite !elem_of_cons. tauto.
    - intros _ ->. apply Hk. rewrite !elem_of_cons. tauto. }
  repeat split; try exact Hk; apply Hk; rewrite !elem_of_cons, elem_of_nil;
    intuition discriminate.
Qed.

(** ** Deleting a Business *)

Lemma updateOne_unset_spec (c : coll) (t : schematype) (k : string)
    (q : value) (ks : list string) (w : world) :
  match updateOne_unset c t k q ks w with
  | (Ok n, w') =>
      exists f,
        path_filter t k q = Some f
        /\ ((db w' = db w
             /\ forall i d, coll_get c (db w) !! i = Some d -> f d = false)
            \/ exists i d,
                 coll_get c (db w) !! i = Some d /\ f d = true
                 /\ db w' = coll_set c (<[i := unset ks d]> (coll_get c (db w)))
                                     (db w))
  | (Throw _, w') => db w' = db w
  end.
Proof.
  unfold updateOne_unset.
  destruct (path_filter t k q) as [f|]; [|reflexivity].
  unfold bind at 1.
  destruct (await_store_spec w) as ([[]|e] & fs & -> & _); [|reflexivity].
  unfold bind at 1, read. cbn [db].
  match goal with |- context [head ?l] => destruct (head l) as [[i d]|] eqn:Hh end.
  - apply head_filter_Some in Hh as [Hin Hf]. apply elem_of_map_to_list in Hin.
    unfold bind, write, ret. cbn [db fst snd] in *.
    exists f. split; [reflexivity|]. right. exists i, d. auto.
  - cbn [ret db]. exists f. split; [reflexivity|]. left.
    split; [reflexivity|]. intros i d Hd.
    apply (head_filter_None _ _ (i, d) Hh). now apply elem_of_map_to_list.
Qed.

Lemma try_catch_total {A} (c : M A) (h : string -> A) (w : world) :
  exists r w', try_catch c (fun e => ret (h e)) w = (Ok r, w').
Proof.
  unfold try_catch. destruct (c w) as [[r|e] w']; cbn [ret]; eauto.
Qed.

(** What the admin's delete does, on every path. *)
Lemma admin_delete_business_spec (user : doc) (id : string) (w : world) :
  match admin_delete_business user id w with
  | (Ok r, w') =>
      leads (db w') = leads (db w)
      /\ products (db w') = products (db w)
      /\ (get user "role" <> VStr "admin" -> status r = 403%nat /\ w' = w)
      /\ ((db w' = db w /\ status r <> 200%nat)
          \/ exists bid,
               parse_oid id = Some bid
               /\ is_Some (businesses (db w) !! bid)
               /\ businesses (db w') = delete bid (businesses (db w))
               /\ ((users (db w') = users (db w)
                    /\ (status r = 200%nat ->
                        forall i d, users (db w) !! i = Some d ->
                                    mongo_eq (VOid bid) (d !! "businessId")
                                    = false))
                   \/ exists i d,
                        users (db w) !! i = Some d
                        /\ mongo_eq (VOid bid) (d !! "businessId") = true
                        /\ users (db w') = <[i := delete "businessId" d]>
                                             (users (db w))
                        /\ status r = 200%nat))
  | (Throw _, _) => False
  end.
Proof.
  destruct (admin_delete_business user id w) as [[r|e] w'] eqn:Hrun.
  2: { unfold admin_delete_business in Hrun.
       match type of Hrun with
       | try_catch ?c (fun _ => ret ?x) w = _ =>
           destruct (try_catch_total c (fun _ => x) w) as (r & w'' & H)
       end.
       cbv beta in H. congruence. }
  revert Hrun.
  unfold admin_delete_business, try_catch.
  destruct (is_str (get user "role") "admin") eqn:Hadm; cbn [negb].
  2: { intros [= <- <-]. repeat split; auto; try (left; now split). }
  apply is_str_true in Hadm. unfold bind at 1.
  pose proof (findByIdAndDelete_spec Businesses id w) as Hd.
  unfold findByIdAndDelete in *.
  destruct (parse_oid id) as [bid|] eqn:Hid.
  2: { intros [= <- <-]. repeat split; auto; try congruence; try (left; now split). }
  unfold bind at 1. unfold bind at 1 in Hd.
  destruct (await_store_spec w) as ([[]|e] & fs & Haw & _); rewrite Haw in *.
  2: { intros [= <- <-]. repeat split; auto; try congruence; try (left; now split). }
  unfold bind at 1. unfold bind at 1 in Hd. unfold read in *. cbn [db coll_get] in *.
  destruct (businesses (db w) !! bid) as [b|] eqn:Hb.
  2: { cbn [ret]. intros [= <- <-]. repeat split; auto; try congruence; try (left; now split). }
  unfold bind at 1, write at 1. cbn [ret db faults next_id now console].
  unfold bind at 1.
  match goal with |- context [updateOne_unset Users ?t ?k ?q ?ks ?w0] =>
    pose proof (updateOne_unset_spec Users t k q ks w0) as Hu;
    destruct (updateOne_unset Users t k q ks w0) as [[n|e] w2]
  end; cbn [db coll_get coll_set users businesses leads products] in Hu.
  - cbn [ret]. intros [= <- <-]. destruct Hu as (f & Hf & Hu).
    rewrite path_filter_oid_string, Hid in Hf. cbn in Hf. injection Hf as <-.
    destruct Hu as [(-> & Hnone)|(i & d & Hi & Hfd & ->)];
      cbn [coll_set users businesses leads products];
      (repeat split; auto; try congruence); right; exists bid;
      (repeat split; eauto).
    right. exists i, d. repeat split; auto.
  - intros [= <- <-]. rewrite Hu.
    cbn [coll_set users businesses leads products].
    repeat split; auto; try congruence. right. exists bid.
    repeat split; eauto. left. split; [reflexivity|discriminate].
Qed.

(** X16. The admin's delete of a Business is refused (403, the world
    unchanged) to any caller who is not admin. It writes nothing to leads
    and products, deletes at most the Business the request names, and
    changes at most one user, a user whose [businessId] was that
    Business, by removing its [businessId]; when it answers 200 the
    Business is gone and either one such user was unlinked or no user
    referenced the Business. *)
Theorem admin_delete_effect (user : doc) (id : string) (w w' : world)
    (r : response) :
  admin_delete_business user id w = (Ok r, w') ->
  leads (db w') = leads (db w)
  /\ products (db w') = products (db w)
  /\ (get user "role" <> VStr "admin" -> status r = 403%nat /\ w' = w)
  /\ ((db w' = db w /\ status r <> 200%nat)
      \/ exists bid,
           parse_oid id = Some bid
           /\ is_Some (businesses (db w) !! bid)
           /\ businesses (db w') = delete bid (businesses (db w))
           /\ ((users (db w') = users (db w)
                /\ (status r = 200%nat ->
                    forall i d, users (db w) !! i = Some d ->
                                mongo_eq (VOid bid) (d !! "businessId")
                                = false))
               \/ exists i d,
                    users (db w) !! i = Some d
                    /\ mongo_eq (VOid bid) (d !! "businessId") = true
                    /\ users (db w') = <[i := delete "businessId" d]>
                                         (users (db w))
                    /\ status r = 200%nat)).
Proof.
  intros Hrun. pose proof (admin_delete_business_spec user id w) as H.
  now rewrite Hrun in H.
Qed.

(** X17. When an admin deletes the Business that exactly one user
    references, and the request answers 200, that user loses its
    [businessId], every other user is as before, and, if its role is
    business, the user is again a candidate of the migration script. *)
Theorem admin_delete_makes_candidate (user : doc) (id : string) (bid uid : oid)
    (u : doc) (w w' : world) (r : response) :
  get user "role" = VStr "admin" ->
  parse_oid id = Some bid ->
  users (db w) !! uid = Some u ->
  u !! "businessId" = Some (VOid bid) ->
  (forall i d, users (db w) !! i = Some d ->
               mongo_eq (VOid bid) (d !! "businessId") = true -> i = uid) ->
  admin_delete_business user id w = (Ok r, w') ->
  status r = 200%nat ->
  businesses (db w') !! bid = None
  /\ users (db w') = <[uid := delete "businessId" u]> (users (db w))
  /\ (mongo_eq (VStr "business") (u !! "role") = true ->
      Migrate.candidate (delete "businessId" u) = true).
Proof.
  intros Hadm Hid Hu Hbid Huniq Hrun Hok.
  pose proof (admin_delete_business_spec user id w) as H. rewrite Hrun in H.
  destruct H as (_ & _ & _ & Hcases).
  assert (Hm : mongo_eq (VOid bid) (u !! "businessId") = true).
  { rewrite Hbid. cbn. apply N.eqb_refl. }
  destruct Hcases as [(_ & Hne)|(bid' & Hid' & _ & Hbs & Hus)]; [contradiction|].
  rewrite Hid in Hid'. injection Hid' as <-.
  split; [rewrite Hbs; apply lookup_delete_eq|].
  split.
  - destruct Hus as [(_ & Hnone)|(i & d & Hi & Hd & -> & _)].
    + rewrite (Hnone Hok uid u Hu) in Hm. discriminate.
    + pose proof (Huniq i d Hi Hd) as ->. congruence.
  - intros Hrole. unfold Migrate.candidate.
    rewrite lookup_delete_ne by discriminate. rewrite Hrole.
    now rewrite lookup_delete_eq.
Qed.

(** ** The seed route *)

(** X18. The seed route writes nothing outside the users. Without a
    non-empty [SEED_ADMIN_KEY] in the environment, or with a [key] in the
    body that is not that very string, it answers 403 and leaves the world
    as it is. Otherwise it adds at most one user, of role admin and
    without a [businessId], and answers 200 when it has. *)
Theorem seed_admin_guard (seedKey : option string) (body : doc)
    (w w' : world) (r : response) :
  seed_admin seedKey body w = (Ok r, w') ->
  businesses (db w') = businesses (db w)
  /\ leads (db w') = leads (db w)
  /\ products (db w') = products (db w)
  /\ ((forall k, seedKey = Some k -> k = "" \/ get body "key" <> VStr k) ->
      status r = 403%nat /\ w' = w)
  /\ ((users (db w') = users (db w) /\ status r <> 200%nat)
      \/ exists uid u k,
           seedKey = Some k /\ k <> "" /\ get body "key" = VStr k
           /\ users (db w) !! uid = None
           /\ users (db w') = <[uid := u]> (users (db w))
           /\ u !! "role" = Some (VStr "admin")
           /\ u !! "businessId" = None
           /\ status r = 200%nat).
Proof.
  unfold seed_admin, try_catch.
  destruct seedKey as [k|].
  2: { intros [= <- <-]. repeat split; auto; try (left; now split). }
  destruct (truthy (VStr k)) eqn:Hk; cbn [negb].
  2: { intros [= <- <-]. repeat split; auto; try (left; now split). }
  assert (Hk' : k <> "").
  { intros ->. discriminate. }
  cbv zeta.
  destruct (negb (truthy (get body "key")) || negb (is_str (get body "key") k))
    eqn:Hkey.
  { intros [= <- <-]. repeat split; auto; try (left; now split). }
  apply orb_false_iff in Hkey as [_ Hkey%negb_false_iff%is_str_true].
  assert (Hguard : (forall k0, Some k = Some k0 ->
                               k0 = "" \/ get body "key" <> VStr k0) -> False).
  { intros H. destruct (H k eq_refl); contradiction. }
  destruct (negb (truthy (get body "email")) || negb (truthy (get body "password"))).
  { intros [= <- <-]. repeat split; auto; try (exfalso; apply Hguard; assumption);
      try (left; now split). }
  unfold bind at 1.
  pose proof (User_findOne_email_spec (get body "email") w) as H1.
  destruct (User_findOne_email (get body "email") w) as [[found|e] w1].
  2: { intros [= <- <-]. rewrite H1.
       repeat split; auto; try (exfalso; apply Hguard; assumption);
         try (left; now split). }
  destruct H1 as (H1 & _).
  destruct found.
  { intros [= <- <-]. rewrite H1.
    repeat split; auto; try (exfalso; apply Hguard; assumption);
      try (left; now split). }
  unfold bind at 1.
  destruct (bcrypt_hash_js_cases (get body "password") w1)
    as [(e & ->)|(h & ->)].
  { intros [= <- <-]. rewrite H1.
    repeat split; auto; try (exfalso; apply Hguard; assumption);
      try (left; now split). }
  unfold bind at 1.
  match goal with |- context [Model_create Users ?i w1] =>
    pose proof (Model_create_spec Users i w1) as H2;
    destruct (Model_create Users i w1) as [[[uid u]|e] w2]
  end.
  2: { intros [= <- <-]. rewrite H2, H1.
       repeat split; auto; try (exfalso; apply Hguard; assumption);
         try (left; now split). }
  unfold bind, jwt_sign_js, ret. intros [= <- <-].
  destruct H2 as (Hfresh & Hdb2 & d0 & Hcast & Hu).
  rewrite Hdb2, H1 in *. cbn [coll_get coll_set users businesses leads products] in *.
  repeat split; auto; try (exfalso; apply Hguard; assumption).
  right. exists uid, u, k.
  repeat (split; [assumption || reflexivity|]).
  rewrite Hu, !lookup_created_doc by discriminate.
  rewrite !(cast_fields_lookup _ _ _ _ Hcast).
  cbn [List.find schema_of userSchema s_fields f_name plain String.eqb
       Ascii.eqb Bool.eqb].
  unfold cast_field. rewrite !get_obj. cbn. auto.
Qed.

(** ** The cleanup script and the other paths of a user *)

Lemma scrub_other_paths (u : doc) (k : string) :
  k ∉ business_fields -> Cleanup.scrub u !! k = u !! k.
Proof.
  unfold business_fields. rewrite !not_elem_of_cons. intros (H1 & H2 & H3 & _).
  unfold Cleanup.scrub. destruct (Cleanup.has_business_field u); [|reflexivity].
  cbn [unset business_fields foldr].
  now rewrite !lookup_delete_ne by congruence.
Qed.

Lemma scrub_candidate (u : doc) :
  Migrate.candidate (Cleanup.scrub u) = Migrate.candidate u.
Proof.
  unfold Migrate.candidate.
  rewrite !scrub_other_paths; [reflexivity| |];
    unfold business_fields; rewrite !not_elem_of_cons;
    (repeat split; [discriminate..|apply not_elem_of_nil]).
Qed.

(** X19. Whatever fails on the way, the cleanup script writes nothing
    outside the users, adds and removes no user, and a user keeps every
    path other than [category], [location] and [description]; so the
    users the migration script selects are the same before and after. *)
Theorem cleanup_keeps_other_paths (w w' : world) (r : outcome (nat * nat)) :
  Cleanup.run w = (r, w') ->
  businesses (db w') = businesses (db w)
  /\ leads (db w') = leads (db w)
  /\ products (db w') = products (db w)
  /\ forall uid,
       match users (db w) !! uid, users (db w') !! uid with
       | Some u, Some u' =>
           (forall k, k ∉ business_fields -> u' !! k = u !! k)
           /\ Migrate.candidate u' = Migrate.candidate u
       | None, None => True
       | _, _ => False
       end.
Proof.
  intros Hrun. pose proof (cleanup_run_spec w) as H. rewrite Hrun in H.
  assert (Hdb : db w' = db w
                \/ db w' = coll_set Users (Cleanup.scrub <$> users (db w)) (db w)).
  { destruct r as [counts|e]; [right; apply H|exact H]. }
  clear H Hrun. destruct Hdb as [->| ->].
  - repeat split; auto. intros uid. now destruct (users (db w) !! uid).
  - cbn [coll_set users businesses leads products]. repeat split; auto.
    intros uid. rewrite lookup_fmap.
    destruct (users (db w) !! uid) as [u|]; cbn; [|exact I].
    split; [intros k; apply scrub_other_paths|apply scrub_candidate].
Qed.

(** ** A migration without store failures *)

Lemma migrate_user_no_fault (u : oid * doc) (w : world) :
  faults w = [] -> fresh_ids w -> users (db w) !! u.1 = Some u.2 ->
  exists w' b,
    Migrate.migrate_user u w = (Ok tt, w')
    /\ faults w' = [] /\ next_id w' = (next_id w + 1)%N
    /\ businesses (db w') = <[next_id w := b]> (businesses (db w))
    /\ b !! "owner" = Some (VOid u.1)
    /\ users (db w')
       = <[u.1 := <["businessId" := VOid (next_id w)]> u.2]> (users (db w))
    /\ leads (db w') = leads (db w) /\ products (db w') = products (db w).
Proof.
  intros Hf Hfresh Hu. destruct w as [s n f t c]. cbn [faults db next_id] in *.
  subst f. pose proof (Hfresh n (N.le_refl _)) as Hn. cbn [db next_id] in Hn.
  unfold Migrate.migrate_user, try_catch.
  unfold bind at 1. cbn [new_Date now]. unfold bind at 1. cbn [new_Date now].
  unfold bind at 1. unfold Loose_create. unfold bind at 1.
  cbn [new_ObjectId next_id db faults now console]. unfold bind at 1.
  unfold insertOne. unfold bind at 1. cbn [await_store faults].
  unfold bind at 1. cbn [read db coll_get]. rewrite Hn.
  cbn [write ret db next_id faults now console coll_set fst snd].
  unfold bind at 1. unfold updateOne_by_id. unfold bind at 1.
  cbn [await_store faults]. unfold bind at 1.
  cbn [read db coll_get coll_set users]. rewrite Hu.
  unfold bind at 1.
  cbn [write ret db next_id faults now console coll_set fst snd console_log
       users businesses leads products].
  eexists _, _. split; [reflexivity|].
  cbn [db next_id faults users businesses leads products].
  repeat split.
  apply (business_of_synthesized u).
Qed.

Lemma for_each_no_fault (l : list (oid * doc)) :
  forall w,
    faults w = [] -> fresh_ids w -> NoDup l.*1 ->
    (forall uid u, (uid, u) ∈ l -> users (db w) !! uid = Some u) ->
    exists w',
      Migrate.for_each l w = (Ok tt, w')
      /\ faults w' = [] /\ fresh_ids w'
      /\ (forall bid b, businesses (db w) !! bid = Some b ->
                        businesses (db w') !! bid = Some b)
      /\ (forall uid, uid ∉ l.*1 ->
                      users (db w') !! uid = users (db w) !! uid)
      /\ (forall uid u, (uid, u) ∈ l ->
            exists bid b,
              users (db w') !! uid = Some (<["businessId" := VOid bid]> u)
              /\ businesses (db w) !! bid = None
              /\ businesses (db w') !! bid = Some b
              /\ b !! "owner" = Some (VOid uid)).
Proof.
  induction l as [|[uid0 u0] l IH]; intros w Hf Hfresh Hnd Hin.
  { exists w. cbn. repeat split; auto. intros uid u Hu. inversion Hu. }
  cbn [fmap list_fmap fst] in Hnd. apply NoDup_cons in Hnd as [Hnotin Hnd].
  destruct (migrate_user_no_fault (uid0, u0) w Hf Hfresh)
    as (w1 & b0 & Hrun & Hf1 & Hn1 & Hb1 & Hown & Hu1 & _ & _).
  { apply Hin, list_elem_of_here. }
  cbn [fst snd] in *.
  assert (Hfresh1 : fresh_ids w1).
  { intros i Hi. rewrite Hb1, lookup_insert_ne by lia. apply Hfresh. lia. }
  destruct (IH w1 Hf1 Hfresh1 Hnd)
    as (w2 & Hrun2 & Hf2 & Hfresh2 & Hmono & Hout & Hlinked).
  { intros uid u Hu. rewrite Hu1, lookup_insert_ne.
    - apply Hin. now apply list_elem_of_further.
    - intros <-. apply Hnotin. apply list_elem_of_fmap. now exists (uid0, u). }
  exists w2. cbn [Migrate.for_each]. unfold bind. rewrite Hrun, Hrun2.
  assert (Hnone : businesses (db w) !! next_id w = None)
    by (apply Hfresh; lia).
  repeat split; auto.
  - intros bid b Hb. apply Hmono. rewrite Hb1.
    rewrite lookup_insert_ne; [exact Hb|congruence].
  - intros uid Hnot. cbn [fmap list_fmap fst] in Hnot.
    apply not_elem_of_cons in Hnot as [Hne Hnot].
    rewrite (Hout uid Hnot), Hu1. now rewrite lookup_insert_ne.
  - intros uid u Hu. apply elem_of_cons in Hu as [[= -> ->]|Hu].
    + exists (next_id w), b0. rewrite (Hout uid0 Hnotin), Hu1.
      rewrite lookup_insert_eq. repeat split; auto.
      apply Hmono. rewrite Hb1. apply lookup_insert_eq.
    + destruct (Hlinked uid u Hu) as (bid & b & H1 & H2 & H3 & H4).
      exists bid, b. repeat split; auto.
      destruct (businesses (db w) !! bid) as [b'|] eqn:Hb'; [|reflexivity].
      rewrite Hb1, lookup_insert_ne in H2; [congruence|].
      intros <-. congruence.
Qed.

(** X20. A migration during which no store operation fails, on a store
    where no Business has an [_id] the generator is yet to give out, runs
    to completion and reports the number of its candidates; every
    candidate ends up with the [businessId] of a Business that did not
    exist before and that it owns, and no user of the store is a
    candidate any more. *)
Theorem migrate_links_every_candidate (w : world) :
  faults w = [] ->
  (forall i, (next_id w <= i)%N -> businesses (db w) !! i = None) ->
  exists w',
    Migrate.run w
    = (Ok (length (List.filter (fun p => Migrate.candidate p.2)
                               (map_to_list (users (db w))))), w')
    /\ (forall uid u,
          users (db w) !! uid = Some u -> Migrate.candidate u = true ->
          exists bid b,
            users (db w') !! uid = Some (<["businessId" := VOid bid]> u)
            /\ businesses (db w) !! bid = None
            /\ businesses (db w') !! bid = Some b
            /\ b !! "owner" = Some (VOid uid))
    /\ (forall uid u',
          users (db w') !! uid = Some u' -> Migrate.candidate u' = false).
Proof.
  intros Hf Hfresh.
  set (l := List.filter (fun p => Migrate.candidate p.2)
                        (map_to_list (users (db w)))).
  assert (Hl : forall uid u, (uid, u) ∈ l
               <-> users (db w) !! uid = Some u /\ Migrate.candidate u = true).
  { intros uid u. apply elem_of_candidates. }
  assert (Hnd : NoDup l.*1).
  { unfold l. clear Hl.
    pose proof (NoDup_fst_map_to_list (users (db w))) as Hnd.
    induction (map_to_list (users (db w))) as [|[i d] m IH]; [constructor|].
    cbn [fmap list_fmap fst] in Hnd. apply NoDup_cons in Hnd as [Hi Hnd].
    cbn [List.filter snd]. destruct (Migrate.candidate d); [|now apply IH].
    cbn [fmap list_fmap fst]. apply NoDup_cons. split; [|now apply IH].
    intros Hin. apply Hi. apply list_elem_of_fmap in Hin as ([i' d'] & -> & Hin).
    apply list_elem_of_fmap. exists (i', d'). split; [reflexivity|].
    apply list_elem_of_In in Hin. apply filter_In in Hin as [Hin _].
    now apply list_elem_of_In. }
  destruct w as [s n f t c]. cbn [faults db next_id] in *. subst f.
  unfold Migrate.run, connect, disconnect. unfold bind at 1.
  cbn [await_store faults]. unfold bind at 1. unfold find. unfold bind at 1.
  cbn [await_store faults]. unfold bind at 1.
  cbn [read db coll_get ret fst snd]. fold l.
  unfold bind at 1. cbn [console_log db next_id faults now console].
  unfold bind at 1.
  match goal with |- context [Migrate.for_each l ?w0] =>
    destruct (for_each_no_fault l w0) as (w2 & -> & Hf2 & _ & _ & Hout & Hlinked)
  end; auto.
  { intros uid u Hu. now apply Hl in Hu. }
  cbn [db] in *. unfold bind at 1.
  destruct w2 as [s2 n2 f2 t2 c2]. cbn [faults] in Hf2. subst f2.
  cbn [await_store faults fst snd]. unfold bind.
  cbn [console_log ret db next_id faults now console fst snd].
  eexists. split; [reflexivity|]. cbn [db] in *. split.
  - intros uid u Hu Hc. apply Hlinked. now apply Hl.
  - intros uid u' Hu'.
    destruct (decide (uid ∈ l.*1)) as [Hin|Hnot].
    + apply list_elem_of_fmap in Hin as ([i u] & -> & Hin).
      destruct (Hlinked i u Hin) as (bid & b & H1 & _). cbn [fst] in Hu'.
      rewrite H1 in Hu'. injection Hu' as <-. apply candidate_linked.
    + rewrite (Hout uid Hnot) in Hu'.
      destruct (Migrate.candidate u') eqn:Hc; [|reflexivity].
      exfalso. apply Hnot. apply list_elem_of_fmap. exists (uid, u').
      split; [reflexivity|]. now apply Hl.
Qed.

(** ** The script that seeds an admin *)

(** What [SeedAdmin.run] may turn store [s] into: nothing changes, or one
    user of role admin is added while no user has the string [email]. *)
Lemma seed_run_spec (email password name : value) (w w' : world)
    (r : outcome nat) :
  SeedAdmin.run email password name w = (r, w') ->
  businesses (db w') = businesses (db w)
  /\ leads (db w') = leads (db w)
  /\ products (db w') = products (db w)
  /\ (users (db w') = users (db w)
      \/ exists uid u,
           users (db w) !! uid = None
           /\ users (db w') = <[uid := u]> (users (db w))
           /\ u !! "role" = Some (VStr "admin")
           /\ u !! "businessId" = None
           /\ forall e, email = VStr e ->
                forall i d, users (db w) !! i = Some d ->
                            d !! "email" <> Some (VStr e)).
Proof.
  unfold SeedAdmin.run, connect, disconnect. unfold bind at 1.
  destruct (await_store_spec w) as ([[]|e] & fs & -> & _).
  2: { intros [= <- <-]. cbn [db]. repeat split; auto. }
  unfold bind at 1.
  match goal with |- context [User_findOne_email email ?w0] =>
    pose proof (User_findOne_email_spec email w0) as H1;
    destruct (User_findOne_email email w0) as [[found|e] w1]
  end; cbn [db] in H1.
  2: { intros [= <- <-]. rewrite H1. repeat split; auto. }
  destruct H1 as (H1 & _ & f & Hf & Hfound).
  destruct found as [p|].
  { unfold bind at 1. cbn [console_log]. unfold bind at 1.
    match goal with |- context [await_store ?w0] =>
      destruct (await_store_spec w0) as ([[]|e] & fs' & -> & _)
    end; cbn [ret db]; intros [= <- <-]; cbn [db]; rewrite H1;
      repeat split; auto. }
  unfold bind at 1.
  destruct (bcrypt_hash_js_cases password w1) as [(e & ->)|(h & ->)].
  { intros [= <- <-]. rewrite H1. repeat split; auto. }
  unfold bind at 1. unfold SeedAdmin.User_create. unfold bind at 1.
  cbn [new_ObjectId].
  destruct (cast_fields _ _) as [d0|] eqn:Hcast.
  2: { intros [= <- <-]. cbn [db]. rewrite H1. repeat split; auto. }
  unfold bind at 1.
  match goal with |- context [insertOne Users ?i ?d ?w0] =>
    pose proof (insertOne_spec Users i d w0) as H2;
    destruct (insertOne Users i d w0) as [[[]|e] w2]
  end; cbn [db coll_get] in H2.
  2: { intros [= <- <-]. rewrite H2, H1. repeat split; auto. }
  destruct H2 as (Hfresh & Hdb2 & _). rewrite H1 in Hfresh, Hdb2.
  assert (Hnew : exists uid u,
             users (db w) !! uid = None
             /\ users (db w2) = <[uid := u]> (users (db w))
             /\ u !! "role" = Some (VStr "admin")
             /\ u !! "businessId" = None
             /\ forall e, email = VStr e ->
                  forall i d, users (db w) !! i = Some d ->
                              d !! "email" <> Some (VStr e)).
  { eexists _, _. split; [exact Hfresh|]. rewrite Hdb2.
    split; [reflexivity|].
    rewrite !lookup_insert_ne by discriminate.
    rewrite !(cast_fields_lookup _ _ _ _ Hcast).
    cbn [List.find SeedAdmin.userSchema s_fields f_name plain String.eqb
         Ascii.eqb Bool.eqb].
    unfold cast_field. rewrite !get_obj. cbn.
    repeat split. intros e -> i d Hd Hem.
    cbn in Hf. injection Hf as <-.
    symmetry in Hfound.
    pose proof (head_filter_None _ _ (i, d) Hfound) as Hnone.
    cbn [snd] in Hnone. rewrite Hem in Hnone. cbn in Hnone.
    rewrite String.eqb_refl in Hnone.
    enough (true = false) by discriminate. apply Hnone.
    now apply elem_of_map_to_list. }
  cbn [ret fst snd]. unfold bind at 1. cbn [console_log]. unfold bind at 1.
  match goal with |- context [await_store ?w0] =>
    destruct (await_store_spec w0) as ([[]|e] & fs' & -> & _)
  end; cbn [ret db]; intros [= <- <-]; cbn [db]; rewrite Hdb2;
    cbn [coll_set users businesses leads products];
    (repeat split; auto); right; rewrite Hdb2 in Hnew; exact Hnew.
Qed.

(** X21. The script that seeds an admin always ends with an exit code.
    It writes nothing outside the users; without an email or a password it
    exits 1 and leaves the store as it is; otherwise it changes nothing or
    adds one user, of role admin and without a [businessId], and it adds
    that user only when no user of the store has the email. *)
Theorem seed_script_effect (email password name : value) (w : world) :
  exists c w',
    SeedAdmin.main email password name w = (Ok c, w')
    /\ businesses (db w') = businesses (db w)
    /\ leads (db w') = leads (db w)
    /\ products (db w') = products (db w)
    /\ (truthy email = false \/ truthy password = false ->
        c = 1%nat /\ db w' = db w)
    /\ (users (db w') = users (db w)
        \/ exists uid u,
             users (db w) !! uid = None
             /\ users (db w') = <[uid := u]> (users (db w))
             /\ u !! "role" = Some (VStr "admin")
             /\ u !! "businessId" = None
             /\ forall e, email = VStr e ->
                  forall i d, users (db w) !! i = Some d ->
                              d !! "email" <> Some (VStr e)).
Proof.
  unfold SeedAdmin.main.
  destruct (negb (truthy email) || negb (truthy password)) eqn:Hg.
  { eexists _, _. unfold bind. cbn [console_log ret]. split; [reflexivity|].
    cbn [db]. repeat split; auto. }
  apply orb_false_iff in Hg as [He%negb_false_iff Hp%negb_false_iff].
  assert (Hno : truthy email = false \/ truthy password = false -> False)
    by (intros [H|H]; congruence).
  unfold try_catch.
  destruct (SeedAdmin.run email password name w) as [[c|e] w1] eqn:Hrun;
    apply seed_run_spec in Hrun as (Hb & Hl & Hp' & Hu).
  - exists c, w1. split; [reflexivity|]. repeat split; auto;
      exfalso; apply Hno; assumption.
  - eexists _, _. unfold bind. cbn [console_log ret]. split; [reflexivity|].
    cbn [db]. repeat split; auto;
      exfalso; apply Hno; assumption.
Qed.

(** ** The public products of a Business *)

(** X22. The public list of a Business's products writes nothing; an id
    that spells no ObjectId is answered 500; a 200 answer lists exactly
    the products whose [businessId] is the ObjectId the id spells, each
    cut down to its [name], [sku], [price], [quantity], [description] and
    [images], so never with its [businessId]. *)
Theorem business_products_public (id : string) (w w' : world) (r : response) :
  list_business_products id w = (Ok r, w') ->
  db w' = db w
  /\ (parse_oid id = None -> status r = 500%nat)
  /\ (status r = 200%nat ->
      exists o l,
        parse_oid id = Some o
        /\ r = json_docs l
        /\ (forall i d,
              (i, d) ∈ l
              <-> exists p,
                    products (db w) !! i = Some p
                    /\ mongo_eq (VOid o) (p !! "businessId") = true
                    /\ d = select product_card p)
        /\ forall i d, (i, d) ∈ l -> d !! "businessId" = None).
Proof.
  unfold list_business_products, try_catch. unfold bind at 1.
  pose proof (find_by_oid_string_spec Products "businessId" id "createdAt" w)
    as Hf.
  destruct (find_by Products SObjectId "businessId" (VStr id) "createdAt" w)
    as [[l|e] w1].
  2: { unfold bind. cbn [console_log ret]. intros [= <- <-]. cbn [db].
       split; [exact Hf|]. split; [reflexivity|discriminate]. }
  cbn [ret]. intros [= <- <-]. destruct Hf as (Hdb & o & Ho & Hl).
  split; [exact Hdb|]. split; [congruence|]. intros _.
  exists o, (select_all product_card l).
  assert (Hin : forall i d,
            (i, d) ∈ select_all product_card l
            <-> exists p,
                  products (db w) !! i = Some p
                  /\ mongo_eq (VOid o) (p !! "businessId") = true
                  /\ d = select product_card p).
  { intros i d. rewrite elem_of_select_all. split.
    - intros (p & Hp & ->). apply Hl in Hp as [H1 H2]. exists p. auto.
    - intros (p & H1 & H2 & ->). exists p. split; [|reflexivity].
      apply Hl. auto. }
  repeat split; try apply Hin; auto.
  intros i d (p & _ & _ & ->)%Hin. now rewrite lookup_select.
Qed.

End MoreProperties.

(** * The properties on the example runtime *)

#[local] Existing Instance example_runtime.

(** C1. On the scenario of the specification (Acme registers as a business
    with category "Food", on an empty store) the request succeeds, the user
    256 is linked to the Business 257 it owns, and the [category] of that
    Business is the empty string, not "Food": the handler deletes
    [category] from the body before it reads it for the Business. *)
Theorem register_acme_category_dropped :
  get acme_request "category" = VStr "Food"
  /\ (register acme_request empty_world).1
     = Ok (json [("message", VStr "Business registered");
                 ("businessId", VOid 257)])
  /\ (fun u => u !! "businessId")
       <$> users (db (register acme_request empty_world).2) !! 256%N
     = Some (Some (VOid 257))
  /\ (fun b => b !! "owner")
       <$> businesses (db (register acme_request empty_world).2) !! 257%N
     = Some (Some (VOid 256))
  /\ (fun b => b !! "category")
       <$> businesses (db (register acme_request empty_world).2) !! 257%N
     = Some (Some (VStr ""))
  /\ (fun b => b !! "category")
       <$> businesses (db (register acme_request empty_world).2) !! 257%N
     <> Some (Some (VStr "Food")).
Proof.
  repeat split; try (vm_compute; reflexivity).
  vm_compute. discriminate.
Qed.

(** Bob registers without a role, on an empty store. *)
Lemma register_business_links_witness :
  register bob_request empty_world
  = (Ok (json [("message", VStr "Business registered");
               ("businessId", VOid 257)]),
     (register bob_request empty_world).2)
  /\ registered_role bob_request = "business"
  /\ exists uid u,
       users (db empty_world) !! uid = None
       /\ users (db (register bob_request empty_world).2) !! uid = Some u
       /\ u !! "role" = Some (VStr "business")
       /\ I2 (db (register bob_request empty_world).2) uid.
Proof.
  assert (H1 : register bob_request empty_world
               = (Ok (json [("message", VStr "Business registered");
                            ("businessId", VOid 257)]),
                  (register bob_request empty_world).2))
    by (vm_compute; reflexivity).
  assert (H2 : registered_role bob_request = "business")
    by (vm_compute; reflexivity).
  split; [exact H1|]. split; [exact H2|].
  exact (register_business_links bob_request empty_world _ _ H1 eq_refl H2).
Defined.

(** A first run in which the store fails once links one of the two
    candidates; the second run finds the other. *)
Lemma migration_rerun_only_unlinked_witness :
  let w1 := (Migrate.run legacy_world).2 in
  let w2 := (Migrate.run w1).2 in
  Migrate.run legacy_world = (Ok 2%nat, w1)
  /\ db w1 = db w1
  /\ Migrate.run w1 = (Ok 1%nat, w2)
  /\ ((forall uid u, users (db legacy_world) !! uid = Some u ->
                     Migrate.candidate u = false) ->
      db w1 = db legacy_world /\ forall n, Ok 2%nat = Ok n -> n = 0%nat)
  /\ (forall uid u, users (db w1) !! uid = Some u ->
                    Migrate.candidate u = true ->
                    users (db legacy_world) !! uid = Some u)
  /\ (forall uid u, users (db legacy_world) !! uid = Some u ->
                    Migrate.candidate u = true ->
                    users (db w1) !! uid = Some u \/ I2 (db w1) uid)
  /\ (forall uid u, users (db w1) !! uid = Some u ->
                    Migrate.candidate u = false ->
                    users (db w2) !! uid = Some u)
  /\ (forall bid b, businesses (db w1) !! bid = None ->
                    businesses (db w2) !! bid = Some b ->
                    exists uid u,
                      users (db w1) !! uid = Some u
                      /\ Migrate.candidate u = true
                      /\ b !! "owner" = Some (VOid uid))
  /\ ((forall uid u, users (db w1) !! uid = Some u ->
                     Migrate.candidate u = false) ->
      db w2 = db w1
      /\ businesses (db w2) = businesses (db w1)
      /\ (forall n, Ok 1%nat = Ok n -> n = 0%nat)
      /\ (faults w1 = [] -> Ok 1%nat = Ok 0%nat)).
Proof.
  intros w1 w2.
  assert (H1 : Migrate.run legacy_world = (Ok 2%nat, w1))
    by (vm_compute; reflexivity).
  assert (H2 : Migrate.run w1 = (Ok 1%nat, w2)) by (vm_compute; reflexivity).
  split; [exact H1|]. split; [reflexivity|]. split; [exact H2|].
  exact (migration_rerun_only_unlinked legacy_world w1 w1 w2 _ _
           H1 eq_refl H2).
Defined.

(** One of the three legacy users has a [category]: the first run matches
    it, the second matches nothing. *)
Lemma cleanup_second_run_matches_nothing_witness :
  let w1 := (Cleanup.run (example_world legacy_store [])).2 in
  Cleanup.run (example_world legacy_store []) = (Ok (1, 1)%nat, w1)
  /\ Cleanup.run w1 = (Ok (0, 0)%nat, (Cleanup.run w1).2)
  /\ users (db w1) = Cleanup.scrub <$> users legacy_store
  /\ (forall uid u, users (db w1) !! uid = Some u -> I1 u)
  /\ forall w1',
       db w1' = db w1 ->
       (forall c2 w2,
          Cleanup.run w1' = (Ok c2, w2) -> c2 = (0, 0)%nat /\ db w2 = db w1)
       /\ (faults w1' = [] ->
           exists w2, Cleanup.run w1' = (Ok (0, 0)%nat, w2)).
Proof.
  intros w1.
  assert (H1 : Cleanup.run (example_world legacy_store [])
               = (Ok (1, 1)%nat, w1)) by (vm_compute; reflexivity).
  split; [exact H1|]. split; [vm_compute; reflexivity|].
  exact (cleanup_second_run_matches_nothing _ _ _ H1).
Defined.

(** Carol registers as a customer, with a [category] in the body. *)
Lemma register_customer_clean_witness :
  let out := register carol_request empty_world in
  get carol_request "role" = VStr "customer"
  /\ out = (Ok (json [("message", VStr "User registered");
                      ("userId", VOid 256)]), out.2)
  /\ businesses (db out.2) = businesses (db empty_world)
  /\ (forall uid u,
        users (db empty_world) !! uid = None ->
        users (db out.2) !! uid = Some u ->
        u !! "role" = Some (VStr "customer")
        /\ u !! "businessId" = None /\ I1 u)
  /\ (status (json [("message", VStr "User registered");
                    ("userId", VOid 256)]) = 200%nat ->
      exists uid u,
        users (db empty_world) !! uid = None
        /\ users (db out.2) = <[uid := u]> (users (db empty_world))
        /\ json [("message", VStr "User registered"); ("userId", VOid 256)]
           = json [("message", VStr "User registered");
                   ("userId", VOid uid)]).
Proof.
  intros out.
  assert (H1 : get carol_request "role" = VStr "customer")
    by (vm_compute; reflexivity).
  assert (H2 : out = (Ok (json [("message", VStr "User registered");
                                ("userId", VOid 256)]), out.2))
    by (vm_compute; reflexivity).
  split; [exact H1|]. split; [exact H2|].
  exact (register_customer_clean carol_request empty_world _ _ H1 H2).
Defined.

(** Bob, again: no role in the body, so a business. *)
Lemma register_role_and_link_witness :
  let out := register bob_request empty_world in
  out = (Ok (json [("message", VStr "Business registered");
                   ("businessId", VOid 257)]), out.2)
  /\ (forall uid u,
        users (db empty_world) !! uid = None ->
        users (db out.2) !! uid = Some u ->
        u !! "role"
        = Some (VStr (if is_str (get bob_request "role") "customer"
                      then "customer" else "business")))
  /\ (status (json [("message", VStr "Business registered");
                    ("businessId", VOid 257)]) = 200%nat ->
      exists uid u,
        users (db empty_world) !! uid = None
        /\ users (db out.2) = <[uid := u]> (users (db empty_world))
        /\ (u !! "role" = Some (VStr "business") ->
            exists bid b,
              businesses (db empty_world) !! bid = None
              /\ businesses (db out.2)
                 = <[bid := b]> (businesses (db empty_world))
              /\ b !! "owner" = Some (VOid uid)
              /\ u !! "businessId" = Some (VOid bid))).
Proof.
  intros out.
  assert (H1 : out = (Ok (json [("message", VStr "Business registered");
                                ("businessId", VOid 257)]), out.2))
    by (vm_compute; reflexivity).
  split; [exact H1|].
  exact (register_role_and_link bob_request empty_world _ _ H1).
Defined.

(** C7, as stated, fails on a user whose [name] is present and empty: the
    specification's wording gives the Business that empty name, the run
    gives it the user's email. *)
Lemma migrate_present_empty_name_counterexample :
  let w' := (Migrate.run (example_world legacy_store [])).2 in
  users legacy_store !! 1%N = Some legacy_user
  /\ Migrate.candidate legacy_user = true
  /\ legacy_user !! "name" = Some (VStr "")
  /\ Migrate.spec_name legacy_user = VStr ""
  /\ (fun b => b !! "owner") <$> businesses (db w') !! 257%N
     = Some (Some (VOid 1))
  /\ (fun b => b !! "name") <$> businesses (db w') !! 257%N
     = Some (Some (VStr "a@x.com"))
  /\ (fun b => b !! "name") <$> businesses (db w') !! 257%N
     <> Some (Some (Migrate.spec_name legacy_user)).
Proof.
  intros w'. repeat split; try (vm_compute; reflexivity).
  vm_compute. discriminate.
Qed.

(** The Business the run creates for the user with the empty name. *)
Lemma migrate_synthesizes_business_witness :
  let out := Migrate.run (example_world legacy_store []) in
  out = (out.1, out.2)
  /\ businesses legacy_store !! 257%N = None
  /\ businesses (db out.2) !! 257%N
     = Some (<["__v" := VNum (num_of_Z 0)]>
               (Migrate.business_of (1%N, legacy_user)
                  (VDate 1700000000000) (VDate 1700000000000)))
  /\ exists uid u,
       users legacy_store !! uid = Some u
       /\ Migrate.candidate u = true
       /\ Migrate.synthesized (uid, u)
            (<["__v" := VNum (num_of_Z 0)]>
               (Migrate.business_of (1%N, legacy_user)
                  (VDate 1700000000000) (VDate 1700000000000))).
Proof.
  intros out.
  assert (H1 : out = (out.1, out.2)) by apply surjective_pairing.
  assert (H2 : businesses legacy_store !! 257%N = None) by reflexivity.
  assert (H3 : businesses (db out.2) !! 257%N
               = Some (<["__v" := VNum (num_of_Z 0)]>
                         (Migrate.business_of (1%N, legacy_user)
                            (VDate 1700000000000) (VDate 1700000000000))))
    by (vm_compute; reflexivity).
  split; [exact H1|]. split; [exact H2|]. split; [exact H3|].
  exact (migrate_synthesizes_business (example_world legacy_store [])
           out.2 out.1 257%N _ H1 H2 H3).
Defined.

(** The owner of b1 updates a product of b2. *)
Lemma update_foreign_product_forbidden_witness :
  authenticated update_request = Some example_business_token
  /\ get example_business_token "role" <> VStr "admin"
  /\ parse_oid (param_id update_request) = Some 193%N
  /\ products (db product_world) !! 193%N = Some foreign_product
  /\ head (faults product_world) <> Some true
  /\ ToString (get foreign_product "businessId")
     <> ToString (get example_business_token "businessId")
  /\ exists w',
       route_update_product update_request product_world
       = (Ok (status_json 403 [("error", VStr "Forbidden")]), w')
       /\ db w' = db product_world
       /\ products (db w') !! 193%N = Some foreign_product.
Proof.
  assert (H1 : authenticated update_request = Some example_business_token)
    by (vm_compute; reflexivity).
  assert (H2 : get example_business_token "role" <> VStr "admin")
    by (vm_compute; discriminate).
  assert (H3 : parse_oid (param_id update_request) = Some 193%N)
    by (vm_compute; reflexivity).
  assert (H4 : products (db product_world) !! 193%N = Some foreign_product)
    by (vm_compute; reflexivity).
  assert (H5 : head (faults product_world) <> Some true)
    by (vm_compute; discriminate).
  assert (H6 : ToString (get foreign_product "businessId")
               <> ToString (get example_business_token "businessId"))
    by (vm_compute; discriminate).
  repeat (split; [assumption|]).
  exact (update_foreign_product_forbidden update_request
           example_business_token 193%N foreign_product product_world
           H1 H2 H3 H4 H5 H6).
Defined.

(** The customer submits a lead without a phone. *)
Lemma lead_without_phone_rejected_witness :
  authenticated lead_request = Some example_customer_token
  /\ body lead_request !! "phone" = None
  /\ exists r w',
       route_post_leads lead_request empty_world = (Ok r, w')
       /\ status r = 400%nat
       /\ payload r
          = VObj (obj [("error", VStr "phone and email are required")])
       /\ leads (db w') = leads (db empty_world)
       /\ db w' = db empty_world.
Proof.
  assert (H1 : authenticated lead_request = Some example_customer_token)
    by (vm_compute; reflexivity).
  assert (H2 : body lead_request !! "phone" = None)
    by (vm_compute; reflexivity).
  split; [exact H1|]. split; [exact H2|].
  exact (lead_without_phone_rejected lead_request example_customer_token
           empty_world H1 H2).
Defined.

(** The owner of b1 creates a product with b2 in the body: the answer is
    200 and the product stored is of b1. *)
Lemma create_product_scoped_to_caller_witness :
  exists r w',
    authenticated widget_request = Some example_business_token
    /\ get example_business_token "role" = VStr "business"
    /\ get (body widget_request) "businessId"
       = VStr "0000000000000000000000b2"
    /\ route_create_product widget_request empty_world = (Ok r, w')
    /\ status r = 200%nat
    /\ (forall x,
          route_create_product
            (mkRequest (authorization widget_request)
                       (<["businessId" := x]> (body widget_request))
                       (param_id widget_request)) empty_world
          = route_create_product widget_request empty_world)
    /\ exists pid p,
         products (db empty_world) !! pid = None
         /\ products (db w') = <[pid := p]> (products (db empty_world))
         /\ cast_ObjectId (get example_business_token "businessId")
            = Some (VOid 177)
         /\ p !! "businessId" = Some (VOid 177)
         /\ payload r = VObj (obj [("product", doc_value (pid, p))]).
Proof.
  assert (Hrun : exists r w',
             route_create_product widget_request empty_world = (Ok r, w')
             /\ status r = 200%nat)
    by (vm_compute; do 2 eexists; split; reflexivity).
  destruct Hrun as (r & w' & Hrun & Hs). exists r, w'.
  assert (H1 : authenticated widget_request = Some example_business_token)
    by (vm_compute; reflexivity).
  assert (H2 : get example_business_token "role" = VStr "business")
    by (vm_compute; reflexivity).
  assert (H3 : get (body widget_request) "businessId"
               = VStr "0000000000000000000000b2")
    by (vm_compute; reflexivity).
  assert (Hc : cast_ObjectId (get example_business_token "businessId")
               = Some (VOid 177))
    by (vm_compute; reflexivity).
  destruct (create_product_scoped_to_caller widget_request
              example_business_token empty_world H1) as (Hb & _ & _).
  destruct (Hb H2) as (Hind & Hcreated).
  destruct (Hcreated r w' Hrun Hs) as (pid & p & o & Hf & Hp & Hco & Hpb & Hpay).
  rewrite Hc in Hco. injection Hco as <-.
  repeat (split; [assumption|]). exists pid, p. now repeat split.
Defined.

(** The product of the example carries b1, the caller's Business, and not
    the b2 of the body. *)
Example widget_belongs_to_caller :
  (fun p => p !! "businessId")
    <$> products (db (route_create_product widget_request empty_world).2)
        !! 256%N
  = Some (Some (VOid 177))
  /\ parse_oid "0000000000000000000000b1" = Some 177%N
  /\ get (body widget_request) "businessId"
     = VStr "0000000000000000000000b2".
Proof. repeat split; vm_compute; reflexivity. Qed.

(** * The other properties on the example runtimes *)

#[local] Existing Instance example_auth.
#[local] Existing Instance example_order.

(** [establish H tac]: prove the first conjunct of the goal with [tac] and
    keep it as [H]. *)
Ltac establish H tac :=
  match goal with
  | |- ?P /\ _ => assert (H : P) by tac; split; [exact H|]
  end.

(** The scenario's registration on the legacy store, whose first user has its
    email. *)
Lemma register_taken_email_witness :
  get acme_request "email" = VStr "a@x.com"
  /\ users (db legacy_world) !! 1%N = Some legacy_user
  /\ legacy_user !! "email" = Some (VStr "a@x.com")
  /\ head (faults legacy_world) <> Some true
  /\ (exists w',
         register acme_request legacy_world
         = (Ok (status_json 400 [("error", VStr "Email already exists")]), w')
         /\ db w' = db legacy_world).
Proof.
  establish H1 ltac:(vm_compute; reflexivity).
  establish H2 ltac:(vm_compute; reflexivity).
  establish H3 ltac:(vm_compute; reflexivity).
  establish H4 ltac:(vm_compute; discriminate).
  exact (register_taken_email _ _ _ _ _ H1 H2 H3 H4).
Defined.

(** The customer sends a lead with a phone; the body names another email. *)
Lemma lead_carries_token_email_witness :
  exists r w',
    get example_customer_token "email" = VStr "c@x.com"
    /\ "c@x.com" <> ""
    /\ post_leads example_customer_token phone_lead empty_world = (Ok r, w')
    /\ status r = 200%nat
    /\ (users (db w') = users (db empty_world)
         /\ businesses (db w') = businesses (db empty_world)
         /\ products (db w') = products (db empty_world)
         /\ ((status r <> 200%nat /\ leads (db w') = leads (db empty_world))
             \/ exists lid lead,
                  leads (db empty_world) !! lid = None
                  /\ leads (db w') = <[lid := lead]> (leads (db empty_world))
                  /\ lead !! "email" = Some (VStr "c@x.com")
                  /\ lead !! "timestamp" = Some (VDate (now empty_world))
                  /\ truthy (get phone_lead "phone") = true
                  /\ r = json [("message", VStr "Lead sent");
                               ("lead", doc_value (lid, lead))])).
Proof.
  assert (Hrun : exists r w',
             post_leads example_customer_token phone_lead empty_world
             = (Ok r, w') /\ status r = 200%nat)
    by (vm_compute; do 2 eexists; split; reflexivity).
  destruct Hrun as (r & w' & Hrun & Hs).
  exists r, w'.
  establish H1 ltac:(vm_compute; reflexivity).
  establish H2 ltac:(discriminate).
  split; [exact Hrun|].
  split; [exact Hs|].
  exact (lead_carries_token_email _ _ _ _ _ _ H1 H2 Hrun).
Defined.

(** The owner of b1 creates the widget. *)
Lemma created_product_is_valid_witness :
  exists r w',
    create_product example_business_token (body widget_request) empty_world
        = (Ok r, w')
    /\ status r = 200%nat
    /\ ((size (product_errors (get (body widget_request) "name") (get (body
        widget_request) "price")
                               (get (body widget_request) "quantity"))
                                   <> 0%nat ->
          status r = 400%nat /\ w' = empty_world)
         /\ (status r = 200%nat ->
             exists pid p price quantity,
               products (db empty_world) !! pid = None
               /\ products (db w') = <[pid := p]> (products (db empty_world))
               /\ truthy (get (body widget_request) "name") = true
               /\ blank (ToString (get (body widget_request) "name")) = false
               /\ p !! "price" = Some (VNum price)
               /\ isNaN price = false /\ num_lt0 price = false
               /\ p !! "quantity" = Some (VNum quantity)
               /\ isInteger quantity = true /\ num_lt0 quantity = false)).
Proof.
  assert (Hrun : exists r w',
             create_product example_business_token (body widget_request)
                 empty_world
             = (Ok r, w') /\ status r = 200%nat)
    by (vm_compute; do 2 eexists; split; reflexivity).
  destruct Hrun as (r & w' & Hrun & Hs).
  exists r, w'.
  split; [exact Hrun|].
  split; [exact Hs|].
  exact (created_product_is_valid _ _ _ _ _ Hrun).
Defined.

(** A product whose name is one no-break space fails the validation,
    as does a name of spaces; nothing is written. *)
Example blank_name_rejected :
  blank no_break_space = true
  /\ create_product example_business_token
       (obj [("name", VStr no_break_space); ("price", VNum (num_of_Z 5))])
       empty_world
     = (Ok (validation_failed {[ "name" := VStr "Name is required" ]}),
        empty_world)
  /\ create_product example_business_token
       (obj [("name", VStr "  "); ("price", VNum (num_of_Z 5))])
       empty_world
     = (Ok (validation_failed {[ "name" := VStr "Name is required" ]}),
        empty_world).
Proof. repeat split; vm_compute; reflexivity. Qed.

(** The owner of b1 updates its own product. *)
Lemma update_product_keeps_owner_witness :
  exists r w',
    update_product example_business_token "0000000000000000000000c1" (body
        update_request) shelf_world = (Ok r, w')
    /\ status r = 200%nat
    /\ (users (db w') = users (db shelf_world)
         /\ businesses (db w') = businesses (db shelf_world)
         /\ leads (db w') = leads (db shelf_world)
         /\ forall o,
              products (db w') !! o = products (db shelf_world) !! o
              \/ (parse_oid "0000000000000000000000c1" = Some o
                  /\ exists p p',
                       products (db shelf_world) !! o = Some p
                       /\ products (db w') !! o = Some p'
                       /\ p' !! "businessId" = p !! "businessId"
                       /\ p' !! "createdAt" = p !! "createdAt"
                       /\ (get example_business_token "role" = VStr "admin"
                           \/ ToString (get p "businessId")
                              = ToString (get example_business_token
                                  "businessId")))).
Proof.
  assert (Hrun : exists r w',
             update_product example_business_token "0000000000000000000000c1"
                 (body update_request) shelf_world
             = (Ok r, w') /\ status r = 200%nat)
    by (vm_compute; do 2 eexists; split; reflexivity).
  destruct Hrun as (r & w' & Hrun & Hs).
  exists r, w'.
  split; [exact Hrun|].
  split; [exact Hs|].
  exact (update_product_keeps_owner _ _ _ _ _ _ Hrun).
Defined.

(** The owner of b1 deletes its own product. *)
Lemma delete_product_effect_witness :
  exists r w',
    delete_product example_business_token "0000000000000000000000c1"
        shelf_world = (Ok r, w')
    /\ status r = 200%nat
    /\ (users (db w') = users (db shelf_world)
         /\ businesses (db w') = businesses (db shelf_world)
         /\ leads (db w') = leads (db shelf_world)
         /\ ((status r <> 200%nat /\ db w' = db shelf_world)
             \/ exists o p,
                  parse_oid "0000000000000000000000c1" = Some o
                  /\ products (db shelf_world) !! o = Some p
                  /\ products (db w') = delete o (products (db shelf_world))
                  /\ (get example_business_token "role" = VStr "admin"
                      \/ ToString (get p "businessId")
                         = ToString (get example_business_token "businessId"))
                  /\ r = json [("message", VStr "Deleted")])).
Proof.
  assert (Hrun : exists r w',
             delete_product example_business_token "0000000000000000000000c1"
                 shelf_world
             = (Ok r, w') /\ status r = 200%nat)
    by (vm_compute; do 2 eexists; split; reflexivity).
  destruct Hrun as (r & w' & Hrun & Hs).
  exists r, w'.
  split; [exact Hrun|].
  split; [exact Hs|].
  exact (delete_product_effect _ _ _ _ _ Hrun).
Defined.

(** The owner of b1 reads its own product. *)
Lemma get_product_gate_witness :
  exists r w',
    get_product example_business_token "0000000000000000000000c1" shelf_world
        = (Ok r, w')
    /\ status r = 200%nat
    /\ (db w' = db shelf_world
         /\ (status r = 200%nat ->
             exists o p,
               parse_oid "0000000000000000000000c1" = Some o
               /\ products (db shelf_world) !! o = Some p
               /\ payload r = doc_value (o, p)
               /\ (get example_business_token "role" = VStr "admin"
                   \/ (get example_business_token "role" = VStr "business"
                       /\ ToString (get p "businessId")
                          = ToString (get example_business_token
                              "businessId"))))).
Proof.
  assert (Hrun : exists r w',
             get_product example_business_token "0000000000000000000000c1"
                 shelf_world
             = (Ok r, w') /\ status r = 200%nat)
    by (vm_compute; do 2 eexists; split; reflexivity).
  destruct Hrun as (r & w' & Hrun & Hs).
  exists r, w'.
  split; [exact Hrun|].
  split; [exact Hs|].
  exact (get_product_gate _ _ _ _ _ Hrun).
Defined.

(** The owner of b1 lists the products of a store that holds one of b2 too. *)
Lemma list_products_scoped_witness :
  exists r w',
    get example_business_token "role" <> VStr "admin"
    /\ get example_business_token "businessId"
        = VStr "0000000000000000000000b1"
    /\ list_products example_business_token shelf_world = (Ok r, w')
    /\ status r = 200%nat
    /\ (db w' = db shelf_world
         /\ (status r = 200%nat ->
             get example_business_token "role" = VStr "business"
             /\ exists l,
                  r = json_docs l
                  /\ forall i d,
                       (i, d) ∈ l
                       <-> exists o,
                             parse_oid "0000000000000000000000b1" = Some o
                             /\ products (db shelf_world) !! i = Some d
                             /\ mongo_eq (VOid o) (d !! "businessId")
                                 = true)).
Proof.
  assert (Hrun : exists r w',
             list_products example_business_token shelf_world
             = (Ok r, w') /\ status r = 200%nat)
    by (vm_compute; do 2 eexists; split; reflexivity).
  destruct Hrun as (r & w' & Hrun & Hs).
  exists r, w'.
  establish H1 ltac:(vm_compute; discriminate).
  establish H2 ltac:(vm_compute; reflexivity).
  split; [exact Hrun|].
  split; [exact Hs|].
  exact (list_products_scoped _ _ _ _ _ H1 H2 Hrun).
Defined.

(** The owner of b1 lists the leads of a store that holds one of b2 too. *)
Lemma get_leads_scoped_witness :
  exists r w',
    get example_business_token "role" <> VStr "admin"
    /\ get example_business_token "id" = VStr "0000000000000000000000a1"
    /\ (get example_business_token "role" = VStr "business" ->
        get example_business_token "businessId"
            = VStr "0000000000000000000000b1")
    /\ get_leads example_business_token lead_world = (Ok r, w')
    /\ status r = 200%nat
    /\ (db w' = db lead_world
         /\ (status r = 200%nat ->
             exists l,
               r = json_docs l
               /\ forall i d,
                    (i, d) ∈ l
                    <-> exists o,
                          leads (db lead_world) !! i = Some d
                          /\ ((get example_business_token "role"
                              = VStr "business"
                               /\ parse_oid "0000000000000000000000b1"
                                   = Some o
                               /\ mongo_eq (VOid o) (d !! "businessId")
                                   = true)
                              \/ (get example_business_token "role"
                                  <> VStr "business"
                                  /\ parse_oid "0000000000000000000000a1"
                                      = Some o
                                  /\ mongo_eq (VOid o) (d !! "submittedBy")
                                      = true)))).
Proof.
  assert (Hrun : exists r w',
             get_leads example_business_token lead_world
             = (Ok r, w') /\ status r = 200%nat)
    by (vm_compute; do 2 eexists; split; reflexivity).
  destruct Hrun as (r & w' & Hrun & Hs).
  exists r, w'.
  establish H1 ltac:(vm_compute; discriminate).
  establish H2 ltac:(vm_compute; reflexivity).
  establish H3 ltac:(intros _; vm_compute; reflexivity).
  split; [exact Hrun|].
  split; [exact Hs|].
  exact (get_leads_scoped _ _ _ _ _ _ H1 H2 H3 Hrun).
Defined.

(** The public reads on the store of a registered business: both answer
    200, with the card of Business 257 and without its owner. *)
Lemma business_reads_show_card_only_witness :
  exists r w' r1 w1,
    list_businesses linked_world = (Ok r, w')
    /\ status r = 200%nat
    /\ get_business "000000000000000000000101" linked_world = (Ok r1, w1)
    /\ status r1 = 200%nat
    /\ (exists l,
          r = json_docs l
          /\ length l = size (businesses (db linked_world))
          /\ forall i d,
               (i, d) ∈ l
               <-> exists b,
                     businesses (db linked_world) !! i = Some b
                     /\ d = select business_card b)
    /\ payload r1 = doc_value (257%N, select business_card linked_business)
    /\ select business_card linked_business !! "name" = Some (VStr "Bob")
    /\ select business_card linked_business !! "owner" = None.
Proof.
  assert (Hrun : exists r w',
             list_businesses linked_world = (Ok r, w')
             /\ status r = 200%nat)
    by (vm_compute; do 2 eexists; split; reflexivity).
  assert (Hrun1 : exists r1 w1,
             get_business "000000000000000000000101" linked_world
             = (Ok r1, w1) /\ status r1 = 200%nat)
    by (vm_compute; do 2 eexists; split; reflexivity).
  destruct Hrun as (r & w' & Hrun & Hs).
  destruct Hrun1 as (r1 & w1 & Hrun1 & Hs1). exists r, w', r1, w1.
  assert (Ho' : parse_oid "000000000000000000000101" = Some 257%N)
    by (vm_compute; reflexivity).
  assert (Hb' : businesses (db linked_world) !! 257%N = Some linked_business)
    by (vm_compute; reflexivity).
  destruct business_reads_show_card_only
    as (Hlist & Hget & Hsel & Hown & _ & _).
  destruct (Hlist _ _ _ Hrun) as (_ & Hl).
  destruct (Hget _ _ _ _ Hrun1) as (_ & Hg).
  destruct (Hg Hs1) as (o & b & Ho & Hb & Hpay).
  rewrite Ho' in Ho. injection Ho as <-.
  rewrite Hb' in Hb. injection Hb as <-.
  repeat (split; [assumption|]).
  split; [exact (Hl Hs)|]. split; [exact Hpay|].
  split; [|exact (Hown linked_business)].
  rewrite (Hsel linked_business "name"). vm_compute. reflexivity.
Defined.

(** The admin lists the legacy users without a Business. *)
Lemma users_without_business_are_candidates_witness :
  exists r w',
    users_without_business example_admin_token legacy_world = (Ok r, w')
    /\ status r = 200%nat
    /\ (db w' = db legacy_world
         /\ (get example_admin_token "role" <> VStr "admin" ->
             status r = 403%nat /\ w' = legacy_world)
         /\ (status r = 200%nat ->
             exists l,
               r = json_docs l
               /\ (forall i,
                     i ∈ l.*1
                     <-> exists u, users (db legacy_world) !! i = Some u
                                   /\ Migrate.candidate u = true)
               /\ forall wm wm' n,
                    db wm = db legacy_world -> Migrate.run wm = (Ok n, wm') ->
                        n = length l)).
Proof.
  assert (Hrun : exists r w',
             users_without_business example_admin_token legacy_world
             = (Ok r, w') /\ status r = 200%nat)
    by (vm_compute; do 2 eexists; split; reflexivity).
  destruct Hrun as (r & w' & Hrun & Hs).
  exists r, w'.
  split; [exact Hrun|].
  split; [exact Hs|].
  exact (users_without_business_are_candidates _ _ _ _ Hrun).
Defined.


(** Bob registers on the empty store and logs in. *)
Lemma login_after_register_witness :
  exists r w',
    (forall s, bcrypt_compare s (bcrypt_hash s) = true)
    /\ get bob_request "email" = VStr "b@x.com"
    /\ register bob_request empty_world = (Ok r, w')
    /\ status r = 200%nat
    /\ db w' = db w'
    /\ head (faults w') <> Some true
    /\ (exists uid u w1',
           users (db empty_world) !! uid = None
           /\ users (db w') !! uid = Some u
           /\ login bob_request w'
              = (Ok (json [("token",
                            VStr (jwt_sign (now w') (token_payload (uid,
                                u))));
                           ("user", user_view u)]), w1')
           /\ db w1' = db w'
           /\ get (token_payload (uid, u)) "id" = VOid uid
           /\ get (token_payload (uid, u)) "role"
               = VStr (registered_role bob_request)
           /\ (registered_role bob_request = "business" ->
               exists bid b,
                 get (token_payload (uid, u)) "businessId" = VOid bid
                 /\ businesses (db w') !! bid = Some b
                 /\ b !! "owner" = Some (VOid uid))).
Proof.
  assert (Hrun : exists r w',
             register bob_request empty_world
             = (Ok r, w') /\ status r = 200%nat
             /\ head (faults w') <> Some true)
    by (vm_compute; do 2 eexists; repeat split; try reflexivity;
        discriminate).
  destruct Hrun as (r & w' & Hrun & Hs & H6).
  exists r, w'.
  establish H1 ltac:(intros s; apply String.eqb_refl).
  establish H2 ltac:(vm_compute; reflexivity).
  split; [exact Hrun|].
  split; [exact Hs|].
  establish H5 ltac:(reflexivity).
  split; [exact H6|].
  exact (login_after_register _ _ _ _ _ _ H1 H2 Hrun Hs H5 H6).
Defined.

(** Bob updates his profile with a body that names a role too. *)
Lemma profile_update_scope_witness :
  exists r w',
    update_profile bob_token profile_request linked_world = (Ok r, w')
    /\ status r = 200%nat
    /\ (businesses (db w') = businesses (db linked_world)
         /\ leads (db w') = leads (db linked_world)
         /\ products (db w') = products (db linked_world)
         /\ (users (db w') = users (db linked_world)
             \/ exists i u u',
                  users (db linked_world) !! i = Some u
                  /\ users (db w') = <[i := u']> (users (db linked_world))
                  /\ (forall k, k ∉ allowed -> u' !! k = u !! k)
                  /\ u' !! "role" = u !! "role"
                  /\ u' !! "businessId" = u !! "businessId"
                  /\ u' !! "email" = u !! "email"
                  /\ u' !! "password" = u !! "password"
                  /\ (forall s, get bob_token "id" = VStr s ->
                      parse_oid s = Some i))).
Proof.
  assert (Hrun : exists r w',
             update_profile bob_token profile_request linked_world
             = (Ok r, w') /\ status r = 200%nat)
    by (vm_compute; do 2 eexists; split; reflexivity).
  destruct Hrun as (r & w' & Hrun & Hs).
  exists r, w'.
  split; [exact Hrun|].
  split; [exact Hs|].
  exact (profile_update_scope _ _ _ _ _ Hrun).
Defined.

(** The admin edits Business 257 with a body that names an owner too. *)
Lemma admin_update_keeps_owner_witness :
  exists r w',
    admin_update_business example_admin_token "000000000000000000000101"
        business_edit linked_world = (Ok r, w')
    /\ status r = 200%nat
    /\ (users (db w') = users (db linked_world)
         /\ leads (db w') = leads (db linked_world)
         /\ products (db w') = products (db linked_world)
         /\ (get example_admin_token "role" <> VStr "admin" ->
             status r = 403%nat /\ w' = linked_world)
         /\ (businesses (db w') = businesses (db linked_world)
             \/ exists o b b',
                  parse_oid "000000000000000000000101" = Some o
                  /\ businesses (db linked_world) !! o = Some b
                  /\ businesses (db w')
                      = <[o := b']> (businesses (db linked_world))
                  /\ b' !! "owner" = b !! "owner"
                  /\ b' !! "createdAt" = b !! "createdAt"
                  /\ forall k,
                       k ∉ ["name"; "category"; "location"; "description";
                            "updatedAt"] ->
                       b' !! k = b !! k)).
Proof.
  assert (Hrun : exists r w',
             admin_update_business example_admin_token
                 "000000000000000000000101" business_edit linked_world
             = (Ok r, w') /\ status r = 200%nat)
    by (vm_compute; do 2 eexists; split; reflexivity).
  destruct Hrun as (r & w' & Hrun & Hs).
  exists r, w'.
  split; [exact Hrun|].
  split; [exact Hs|].
  exact (admin_update_keeps_owner _ _ _ _ _ _ Hrun).
Defined.

(** The admin deletes Business 257. *)
Lemma admin_delete_effect_witness :
  exists r w',
    admin_delete_business example_admin_token "000000000000000000000101"
        linked_world = (Ok r, w')
    /\ status r = 200%nat
    /\ (leads (db w') = leads (db linked_world)
         /\ products (db w') = products (db linked_world)
         /\ (get example_admin_token "role" <> VStr "admin" ->
             status r = 403%nat /\ w' = linked_world)
         /\ ((db w' = db linked_world /\ status r <> 200%nat)
             \/ exists bid,
                  parse_oid "000000000000000000000101" = Some bid
                  /\ is_Some (businesses (db linked_world) !! bid)
                  /\ businesses (db w')
                      = delete bid (businesses (db linked_world))
                  /\ ((users (db w') = users (db linked_world)
                       /\ (status r = 200%nat ->
                           forall i d, users (db linked_world) !! i
                               = Some d ->
                                       mongo_eq (VOid bid) (d !! "businessId")
                                       = false))
                      \/ exists i d,
                           users (db linked_world) !! i = Some d
                           /\ mongo_eq (VOid bid) (d !! "businessId") = true
                           /\ users (db w') = <[i := delete "businessId" d]>
                                                (users (db linked_world))
                           /\ status r = 200%nat))).
Proof.
  assert (Hrun : exists r w',
             admin_delete_business example_admin_token
                 "000000000000000000000101" linked_world
             = (Ok r, w') /\ status r = 200%nat)
    by (vm_compute; do 2 eexists; split; reflexivity).
  destruct Hrun as (r & w' & Hrun & Hs).
  exists r, w'.
  split; [exact Hrun|].
  split; [exact Hs|].
  exact (admin_delete_effect _ _ _ _ _ Hrun).
Defined.

(** The admin deletes Business 257, which user 256 references. *)
Lemma admin_delete_makes_candidate_witness :
  exists r w',
    get example_admin_token "role" = VStr "admin"
    /\ parse_oid "000000000000000000000101" = Some 257%N
    /\ users (db linked_world) !! 256%N = Some linked_user
    /\ linked_user !! "businessId" = Some (VOid 257%N)
    /\ (forall i d, users (db linked_world) !! i = Some d ->
                      mongo_eq (VOid 257%N) (d !! "businessId") = true ->
                          i = 256%N)
    /\ admin_delete_business example_admin_token "000000000000000000000101"
        linked_world = (Ok r, w')
    /\ status r = 200%nat
    /\ (businesses (db w') !! 257%N = None
         /\ users (db w')
             = <[256%N := delete "businessId" linked_user]> (users (db
                 linked_world))
         /\ (mongo_eq (VStr "business") (linked_user !! "role") = true ->
             Migrate.candidate (delete "businessId" linked_user) = true)).
Proof.
  assert (Hrun : exists r w',
             admin_delete_business example_admin_token
                 "000000000000000000000101" linked_world
             = (Ok r, w') /\ status r = 200%nat)
    by (vm_compute; do 2 eexists; split; reflexivity).
  destruct Hrun as (r & w' & Hrun & Hs).
  exists r, w'.
  establish H1 ltac:(vm_compute; reflexivity).
  establish H2 ltac:(vm_compute; reflexivity).
  establish H3 ltac:(vm_compute; reflexivity).
  establish H4 ltac:(vm_compute; reflexivity).
  establish H5
    ltac:(intros i d Hd _; unfold linked_world in Hd; cbn [db users] in Hd;
          apply lookup_singleton_Some in Hd as [<- _]; reflexivity).
  split; [exact Hrun|].
  split; [exact Hs|].
  exact (admin_delete_makes_candidate _ _ _ _ _ _ _ _ H1 H2 H3 H4 H5 Hrun Hs).
Defined.

(** A seed request with the key of the environment, on the empty store. *)
Lemma seed_admin_guard_witness :
  exists r w',
    seed_admin (Some "s3cret") seed_request empty_world = (Ok r, w')
    /\ status r = 200%nat
    /\ (businesses (db w') = businesses (db empty_world)
         /\ leads (db w') = leads (db empty_world)
         /\ products (db w') = products (db empty_world)
         /\ ((forall k, (Some "s3cret") = Some k ->
             k = "" \/ get seed_request "key" <> VStr k) ->
             status r = 403%nat /\ w' = empty_world)
         /\ ((users (db w') = users (db empty_world) /\ status r <> 200%nat)
             \/ exists uid u k,
                  (Some "s3cret") = Some k /\ k
                      <> "" /\ get seed_request "key" = VStr k
                  /\ users (db empty_world) !! uid = None
                  /\ users (db w') = <[uid := u]> (users (db empty_world))
                  /\ u !! "role" = Some (VStr "admin")
                  /\ u !! "businessId" = None
                  /\ status r = 200%nat)).
Proof.
  assert (Hrun : exists r w',
             seed_admin (Some "s3cret") seed_request empty_world
             = (Ok r, w') /\ status r = 200%nat)
    by (vm_compute; do 2 eexists; split; reflexivity).
  destruct Hrun as (r & w' & Hrun & Hs).
  exists r, w'.
  split; [exact Hrun|].
  split; [exact Hs|].
  exact (seed_admin_guard _ _ _ _ _ Hrun).
Defined.

(** A cleanup of the legacy users that completes. *)
Lemma cleanup_keeps_other_paths_witness :
  exists r w',
    Cleanup.run steady_world = (r, w')
    /\ (businesses (db w') = businesses (db steady_world)
         /\ leads (db w') = leads (db steady_world)
         /\ products (db w') = products (db steady_world)
         /\ forall uid,
              match users (db steady_world) !! uid, users (db w') !! uid with
              | Some u, Some u' =>
                  (forall k, k ∉ business_fields -> u' !! k = u !! k)
                  /\ Migrate.candidate u' = Migrate.candidate u
              | None, None => True
              | _, _ => False
              end).
Proof.
  assert (Hrun : exists r w',
             Cleanup.run steady_world
             = (r, w'))
    by (vm_compute; do 2 eexists; reflexivity).
  destruct Hrun as (r & w' & Hrun). exists r, w'.
  split; [exact Hrun|].
  exact (cleanup_keeps_other_paths _ _ _ Hrun).
Defined.

(** A migration of the legacy users on a store that does not fail. *)
Lemma migrate_links_every_candidate_witness :
  faults steady_world = []
  /\ (forall i, (next_id steady_world <= i)%N ->
      businesses (db steady_world) !! i = None)
  /\ (exists w',
         Migrate.run steady_world
         = (Ok (length (List.filter (fun p => Migrate.candidate p.2)
                                    (map_to_list (users (db steady_world))))),
                                        w')
         /\ (forall uid u,
               users (db steady_world) !! uid = Some u ->
                   Migrate.candidate u = true ->
               exists bid b,
                 users (db w') !! uid = Some (<["businessId" := VOid bid]> u)
                 /\ businesses (db steady_world) !! bid = None
                 /\ businesses (db w') !! bid = Some b
                 /\ b !! "owner" = Some (VOid uid))
         /\ (forall uid u',
               users (db w') !! uid = Some u' ->
                   Migrate.candidate u' = false)).
Proof.
  establish H1 ltac:(reflexivity).
  establish H2 ltac:(intros i _; apply lookup_empty).
  exact (migrate_links_every_candidate _ H1 H2).
Defined.

(** The public products of b1, on a store that holds one of b2 too. *)
Lemma business_products_public_witness :
  exists r w',
    list_business_products "0000000000000000000000b1" shelf_world = (Ok r, w')
    /\ status r = 200%nat
    /\ (db w' = db shelf_world
         /\ (parse_oid "0000000000000000000000b1" = None ->
             status r = 500%nat)
         /\ (status r = 200%nat ->
             exists o l,
               parse_oid "0000000000000000000000b1" = Some o
               /\ r = json_docs l
               /\ (forall i d,
                     (i, d) ∈ l
                     <-> exists p,
                           products (db shelf_world) !! i = Some p
                           /\ mongo_eq (VOid o) (p !! "businessId") = true
                           /\ d = select product_card p)
               /\ forall i d, (i, d) ∈ l -> d !! "businessId" = None)).
Proof.
  assert (Hrun : exists r w',
             list_business_products "0000000000000000000000b1" shelf_world
             = (Ok r, w') /\ status r = 200%nat)
    by (vm_compute; do 2 eexists; split; reflexivity).
  destruct Hrun as (r & w' & Hrun & Hs).
  exists r, w'.
  split; [exact Hrun|].
  split; [exact Hs|].
  exact (business_products_public _ _ _ _ Hrun).
Defined.
